(** * Intent routing and provider evaluation: a shallow embedding

    The development follows [src/router.py] (the process-wide router
    session, [initialize_client], [route_query]),
    [evaluation/evaluate.py] ([evaluate_provider], the ranking done by
    [print_comparison_table], [main]), [evaluation/test_data.py],
    [src/agents.py] and [src/main.py].

    Conventions of the embedding:
    - Python [int] is [Z]; Python [float] is the kernel's binary64
      [float], so the arithmetic of the source is computed bit for bit;
    - Python [str] is [string]: a text of ASCII characters is the string
      of its characters, any other text the string of its UTF-8 bytes.
      Equality of texts and the search for a word of ASCII characters
      are then those of the strings. [str.strip], [str.upper], slicing
      and [re.search] consult the interpreter's Unicode tables, which
      are not in the sources: they are operations of the [Platform],
      fixed on texts of ASCII characters (where this file defines them)
      and left to the interpreter on all others;
    - a Python function that reads or writes the module globals, calls
      the remote service, the clock, [time.sleep] or [print] is a
      function in the state-and-exception monad [M] over [World]; an
      exception keeps the state reached when it was raised;
    - [print] raises [UnicodeEncodeError] when the console cannot encode
      the text. It is an action of the model wherever a handler of the
      program is around it, because the program then goes on, and goes
      on differently: [router.py] line 94 (its exception leaves
      [route_query] and reaches the [try] of the caller),
      [evaluate.py] line 102, and the prints under the [try] of
      [main.py]. Around the other prints ([evaluate.py] lines 58, 69
      and 115, the report and [main]) there is no handler: an exception
      there ends the process with a traceback and without a result. The
      model follows the process while it goes on and has no action for
      them: it describes the runs in which they succeed, as they do
      whenever the text is ASCII. What is written to the console is not
      recorded. *)

From Stdlib Require Import ZArith List String Ascii Bool Lia Floats.
From Stdlib Require Import Permutation Sorted DecimalString.
Import ListNotations.

Local Open Scope string_scope.
Local Open Scope Z_scope.

(** ** Python built-ins used by the sources *)

Module Py.

(** *** Strings *)

Definition is_upper_ascii (c : ascii) : bool :=
  let n := N_of_ascii c in (65 <=? n)%N && (n <=? 90)%N.

Definition is_lower_ascii (c : ascii) : bool :=
  let n := N_of_ascii c in (97 <=? n)%N && (n <=? 122)%N.

Definition lower_char (c : ascii) : ascii :=
  if is_upper_ascii c then ascii_of_N (N_of_ascii c + 32) else c.

Definition upper_char (c : ascii) : ascii :=
  if is_lower_ascii c then ascii_of_N (N_of_ascii c - 32) else c.

Fixpoint map_chars (f : ascii -> ascii) (s : string) : string :=
  match s with
  | EmptyString => EmptyString
  | String c s' => String (f c) (map_chars f s')
  end.

(** [s.lower()], as far as the program can tell: it only compares the
    result with words of ASCII letters (["google"], ["groq"], ["exit"],
    ["quit"]) or searches such words in it (the keys of the FAQ), and
    these tests are decided by the mapping of the ASCII letters. *)
Definition lower : string -> string := map_chars lower_char.

(** [s.isascii()]: every character is below 128. *)
Definition is_ascii_char (c : ascii) : bool := (N_of_ascii c <? 128)%N.

Fixpoint isascii (s : string) : bool :=
  match s with
  | EmptyString => true
  | String c s' => is_ascii_char c && isascii s'
  end.

(** [str(n)] for an int: its decimal digits, after a minus sign when it
    is negative. *)
Definition str_of_int (n : Z) : string := NilZero.string_of_int (Z.to_int n).

(** What an f-string writes for a value that is [None] or a string. *)
Definition str_of_opt (x : option string) : string :=
  match x with
  | Some s => s
  | None => "None"
  end.

(** *** The Unicode-aware built-ins on texts of ASCII characters

    The four definitions below say what [s.upper()], [s.strip()] and
    [s[:n]] return when [s] is a text of ASCII characters. They are not
    the built-ins themselves, which are operations of the [Platform]
    (see there). *)

(** [str.isspace] on one ASCII character: TAB, LF, VT, FF, CR, the
    separators 0x1c..0x1f and the space. *)
Definition is_space (c : ascii) : bool :=
  let n := N_of_ascii c in
  ((9 <=? n)%N && (n <=? 13)%N) || ((28 <=? n)%N && (n <=? 32)%N).

Definition ascii_upper : string -> string := map_chars upper_char.

Fixpoint ascii_lstrip (s : string) : string :=
  match s with
  | EmptyString => EmptyString
  | String c s' => if is_space c then ascii_lstrip s' else s
  end.

Fixpoint ascii_rstrip (s : string) : string :=
  match s with
  | EmptyString => EmptyString
  | String c s' =>
      match ascii_rstrip s' with
      | EmptyString => if is_space c then EmptyString else String c EmptyString
      | r => String c r
      end
  end.

Definition ascii_strip (s : string) : string := ascii_rstrip (ascii_lstrip s).

(** The first [n] characters, or all of them when there are fewer. *)
Fixpoint ascii_prefix (n : nat) (s : string) : string :=
  match n, s with
  | S n', String c s' => String c (ascii_prefix n' s')
  | _, _ => EmptyString
  end.

(** Truth value of a string: [not s] holds for the empty string only. *)
Definition truthy (s : string) : bool :=
  match s with EmptyString => false | _ => true end.

(** *** Dictionaries with string keys, in insertion order *)

Definition dict (V : Type) : Type := list (string * V).

Fixpoint get {V : Type} (d : dict V) (k : string) : option V :=
  match d with
  | [] => None
  | (k', v) :: d' => if String.eqb k' k then Some v else get d' k
  end.

(** [d.get(k)] where [k] may be [None], which is the key of no entry. *)
Definition get_opt {V : Type} (d : dict V) (k : option string) : option V :=
  match k with
  | Some k => get d k
  | None => None
  end.

(** [d.get(k, default)]. *)
Definition get_default {V : Type} (d : dict V) (k : string) (default : V) : V :=
  match get d k with
  | Some v => v
  | None => default
  end.

(** *** Floats *)

Definition prec : Z := 53.
Definition emax : Z := 1024.

(** An integer as an exact, not yet rounded, float specification. *)
Definition sf_of_Z (z : Z) : SpecFloat.spec_float :=
  match z with
  | Z0 => SpecFloat.S754_zero false
  | Zpos p => SpecFloat.S754_finite false p 0
  | Zneg p => SpecFloat.S754_finite true p 0
  end.

(** [a / b] on two ints: the quotient rounded once to the nearest
    binary64. The source divides only under its guard [total > 0] and
    with [0 <= a <= b], so the [ZeroDivisionError] and [OverflowError]
    of the general operator cannot occur there. *)
Definition int_truediv (a b : Z) : float :=
  SF2Prim (SpecFloat.SFdiv prec emax (sf_of_Z a) (sf_of_Z b)).

(** [float(n)]: the integer rounded to the nearest binary64. *)
Definition float_of_int (n : Z) : float := int_truediv n 1.

(** [n / d] rounded to the nearest integer, ties to the even one. *)
Definition div_half_even (n d : Z) : Z :=
  let q := n / d in
  match (2 * (n mod d)) ?= d with
  | Lt => q
  | Gt => q + 1
  | Eq => if Z.even q then q else q + 1
  end.

(** [round(x, 2)]: the exact binary value of [x] is rounded half-even
    to a multiple of 1/100, and that decimal is read back as the
    nearest binary64; infinities and NaN round to themselves. *)
Definition round2 (x : float) : float :=
  match Prim2SF x with
  | SpecFloat.S754_finite s m e =>
      let n := match e with
               | Zneg p => div_half_even (Zpos m * 100) (Z.pow_pos 2 p)
               | _ => Zpos m * 100 * 2 ^ e
               end in
      if n =? 0 then (if s then (-0)%float else 0%float)
      else int_truediv (if s then - n else n) 100
  | _ => x
  end.


(** *** Sorting *)

(** [insert_by lt x l] puts [x] in front of the first element of [l]
    that is not strictly below it. *)
Fixpoint insert_by {A : Type} (lt : A -> A -> bool) (x : A) (l : list A) : list A :=
  match l with
  | [] => [x]
  | y :: l' => if lt y x then y :: insert_by lt x l' else x :: l
  end.

(** A stable ascending sort that, as [list.sort] does, compares with
    [<] only. *)
Definition stable_sort {A : Type} (lt : A -> A -> bool) (l : list A) : list A :=
  fold_right (insert_by lt) [] l.

(** [sorted(l, key=key, reverse=reverse)] with float keys. The built-in
    sort is stable; with [reverse=True] it reverses the list, sorts it
    ascending and reverses the result, which keeps ties in input order.
    Whenever [<] is a strict weak order on the keys (no key is NaN) every
    stable sort returns this same list. *)
Definition sorted {A : Type} (key : A -> float) (reverse : bool) (l : list A) : list A :=
  let lt a b := PrimFloat.ltb (key a) (key b) in
  if reverse then rev (stable_sort lt (rev l)) else stable_sort lt l.

(** [len(l)]. *)
Definition len {A : Type} (l : list A) : Z := Z.of_nat (List.length l).

End Py.

(** ** The pattern of [OrderAgent] on texts of ASCII characters

    [re.search(r'\b\d{3}\b', s)] on a text of ASCII characters, where
    the classes [\d] and [\w] are the ASCII digits and the ASCII letters,
    digits and underscore. As for the string built-ins above, the search
    itself is an operation of the [Platform]. *)

Definition ascii_digit (c : ascii) : bool :=
  let n := N_of_ascii c in (48 <=? n)%N && (n <=? 57)%N.

Definition ascii_word_char (c : ascii) : bool :=
  ascii_digit c || Py.is_upper_ascii c || Py.is_lower_ascii c
  || (N_of_ascii c =? 95)%N.

(** The pattern [\d{3}\b] at the start of [s]: three digits, then the
    end of the string or a character that is not a word character. *)
Definition three_digits_here (s : string) : option string :=
  match s with
  | String a (String b (String c rest)) =>
      if ascii_digit a && ascii_digit b && ascii_digit c
         && match rest with
            | EmptyString => true
            | String d _ => negb (ascii_word_char d)
            end
      then Some (String a (String b (String c EmptyString)))
      else None
  | _ => None
  end.

(** The leftmost match of [\b\d{3}\b] in what is left of the string;
    [prev_word] tells whether the character before it is a word
    character, in which case there is no word boundary in front of a
    digit. *)
Fixpoint search_three_digits (prev_word : bool) (s : string) : option string :=
  match (if prev_word then None else three_digits_here s) with
  | Some order_id => Some order_id
  | None =>
      match s with
      | EmptyString => None
      | String c s' => search_three_digits (ascii_word_char c) s'
      end
  end.

(** The pattern of [OrderAgent.handle], a raw string in the source. *)
Definition order_pattern : string := "\b\d{3}\b".

(** ** Exceptions and results *)

Inductive exn : Type :=
| ValueError (msg : string)
| RuntimeError (msg : string)
| AttributeError (msg : string)
| UnboundLocalError (msg : string)
| UnicodeEncodeError (msg : string)
| RemoteError (msg : string).

(** [str(e)]. *)
Definition exn_str (e : exn) : string :=
  match e with
  | ValueError m | RuntimeError m | AttributeError m
  | UnboundLocalError m | UnicodeEncodeError m | RemoteError m => m
  end.

Inductive Result (A : Type) : Type :=
| Ok (a : A)
| Raise (e : exn).
Arguments Ok {A} a.
Arguments Raise {A} e.

(** ** The outside of the process *)

(** The two client objects of the SDKs: [genai.Client(api_key=...)] and
    [OpenAI(api_key=..., base_url=...)]. Building one stores its
    arguments and calls nothing. *)
Inductive Client : Type :=
| GenaiClient (api_key : string)
| OpenAIClient (api_key base_url : string).

(** The two request shapes that reach the hosted model. *)
Inductive Request : Type :=
| ChatCompletion (api_key base_url : string) (model : option string)
    (messages : list (string * string)) (temperature : Z)
| GenerateContent (api_key : string) (model : option string) (contents : string).

(** What [route_query] reads from a response: the text of the first
    choice ([response.choices[0].message.content]) or of the generation
    ([response.text]); [None] when the response carries no text. *)
Definition Response : Type := option string.

(** Everything the code cannot decide by itself.

    The outside of the process: the hosted models, the wall clock, and
    the interpreter's summation of floats (its rounding differs between
    interpreter versions). [Ext] is the state of that outside; a remote
    call may raise and may answer differently each time.

    The interpreter's Unicode-aware operations: [s.strip()],
    [s.upper()], [s[:n]] and [re.search(pattern, s)] (the text of the
    leftmost match, if there is one). On a text of ASCII characters they
    return what the definitions above say; on any other text they are
    whatever the interpreter makes of it.

    The console: [console text] is [None] when the console can encode
    the text, and otherwise the message of the [UnicodeEncodeError] that
    [print(text)] raises. The console is taken to encode every ASCII
    character, as the encodings ASCII, Latin-1, UTF-8 and the Windows
    code pages do. *)
Class Platform : Type := {
  Ext : Type;
  remote_call : Request -> Ext -> Result Response * Ext;
  time_time : Ext -> float * Ext;
  time_sleep : float -> Ext -> Ext;
  float_sum : list float -> float;
  str_strip : string -> string;
  str_upper : string -> string;
  str_prefix : nat -> string -> string;
  re_search : string -> string -> option string;
  console : string -> option string;
  str_strip_ascii :
    forall s, Py.isascii s = true -> str_strip s = Py.ascii_strip s;
  str_upper_ascii :
    forall s, Py.isascii s = true -> str_upper s = Py.ascii_upper s;
  str_prefix_ascii :
    forall n s, Py.isascii s = true -> str_prefix n s = Py.ascii_prefix n s;
  re_search_order_ascii :
    forall s, Py.isascii s = true ->
              re_search order_pattern s = search_three_digits false s;
  console_ascii :
    forall s, Py.isascii s = true -> console s = None
}.

(** The externally visible actions, in the order they happen. *)
Inductive Event : Type :=
| EvRemote (req : Request)
| EvSleep (seconds : float).

(** The process state: the environment variables, the two globals of
    [router.py] ([_client], [_provider], both [None] at import), the
    outside, and the log of actions performed so far. *)
Record World `{Platform} : Type := mkWorld {
  environ : Py.dict string;
  _client : option Client;
  _provider : option string;
  ext : Ext;
  trace : list Event
}.

Section Monad.
Context `{P : Platform}.

Definition M (A : Type) : Type := World -> Result A * World.

Definition ret {A : Type} (a : A) : M A := fun w => (Ok a, w).

Definition bind {A B : Type} (c : M A) (k : A -> M B) : M B :=
  fun w =>
    match c w with
    | (Ok a, w') => k a w'
    | (Raise e, w') => (Raise e, w')
    end.

Definition raise {A : Type} (e : exn) : M A := fun w => (Raise e, w).

(** [try: body / except Exception as e: handler e]. *)
Definition try_except {A : Type} (body : M A) (handler : exn -> M A) : M A :=
  fun w =>
    match body w with
    | (Ok a, w') => (Ok a, w')
    | (Raise e, w') => handler e w'
    end.

Definition get_client : M (option Client) := fun w => (Ok (_client w), w).
Definition get_provider : M (option string) := fun w => (Ok (_provider w), w).

Definition set_client (c : option Client) : M unit :=
  fun w => (Ok tt, mkWorld _ (environ w) c (_provider w) (ext w) (trace w)).

Definition set_provider (p : option string) : M unit :=
  fun w => (Ok tt, mkWorld _ (environ w) (_client w) p (ext w) (trace w)).

(** [os.getenv(name)]. *)
Definition getenv (name : string) : M (option string) :=
  fun w => (Ok (Py.get (environ w) name), w).

(** One request to the hosted model. *)
Definition remote (req : Request) : M Response :=
  fun w =>
    let (r, x) := remote_call req (ext w) in
    (r, mkWorld _ (environ w) (_client w) (_provider w) x (trace w ++ [EvRemote req])%list).

(** [time.time()]. *)
Definition now : M float :=
  fun w =>
    let (t, x) := time_time (ext w) in
    (Ok t, mkWorld _ (environ w) (_client w) (_provider w) x (trace w)).

(** [time.sleep(seconds)]. *)
Definition sleep (seconds : float) : M unit :=
  fun w =>
    (Ok tt, mkWorld _ (environ w) (_client w) (_provider w)
              (time_sleep seconds (ext w)) (trace w ++ [EvSleep seconds])%list).

(** [print(text)]. *)
Definition print (text : string) : M unit :=
  match console text with
  | None => ret tt
  | Some msg => raise (UnicodeEncodeError msg)
  end.

(** [c] as a statement of a [try] block: its exception is not
    propagated but handed, with the state, to the code that follows,
    which runs the handler. This spells out a [try] block whose handler
    reads local variables that the block has written before the
    exception. *)
Definition attempt {A : Type} (c : M A) : M (Result A) :=
  fun w => let (r, w') := c w in (Ok r, w').

End Monad.

Declare Scope py_scope.
Delimit Scope py_scope with py.
Notation "x <- c ;; k" := (bind c (fun x => k))
  (at level 61, c at next level, right associativity) : py_scope.
Notation "c ;; k" := (bind c (fun _ => k))
  (at level 61, right associativity) : py_scope.
Local Open Scope py_scope.

(** ** [src/router.py] *)

Definition DEFAULT_MODELS : Py.dict string :=
  [("google", "gemini-2.5-flash"); ("groq", "llama-3.1-8b-instant")].

(** [x == s] for a global [x] that is [None] or a string. *)
Definition is_str (x : option string) (s : string) : bool :=
  match x with
  | Some x => String.eqb x s
  | None => false
  end.

Definition nl : string := String (ascii_of_N 10) EmptyString.

Definition system_prompt : string :=
  String.concat nl
    [ "You are an intelligent router for a customer service bot. ";
      "Classify the user's query into exactly one of these two intents:";
      "1. FAQ_INTENT (General questions about returns, shipping, hours, location)";
      "2. ORDER_INTENT (Specific questions asking about an order status, where is my package, etc.)";
      "";
      "Output ONLY the label 'FAQ' or 'ORDER'. Do not add punctuation or explanation." ].

Section Router.
Context `{P : Platform}.

(** Lines 19-45. The global [_provider] is assigned before anything is
    checked; [_client] is assigned only on the two successful paths. *)
Definition initialize_client (provider : string) (model : option string)
  : M (option string) :=
  set_provider (Some (Py.lower provider)) ;;
  p <- get_provider ;;
  (if is_str p "google" then
     api_key <- getenv "GOOGLE_API_KEY" ;;
     match api_key with
     | Some k =>
         if Py.truthy k then set_client (Some (GenaiClient k))
         else raise (ValueError "GOOGLE_API_KEY not found in environment")
     | None => raise (ValueError "GOOGLE_API_KEY not found in environment")
     end
   else if is_str p "groq" then
     api_key <- getenv "GROQ_API_KEY" ;;
     match api_key with
     | Some k =>
         if Py.truthy k
         then set_client (Some (OpenAIClient k "https://api.groq.com/openai/v1"))
         else raise (ValueError "GROQ_API_KEY not found in environment")
     | None => raise (ValueError "GROQ_API_KEY not found in environment")
     end
   else
     raise (ValueError ("Unknown provider: " ++ provider ++ ". Use 'google' or 'groq'"))) ;;
  p <- get_provider ;;
  ret (match model with
       | None => Py.get_opt DEFAULT_MODELS p
       | Some m => Some m
       end).

(** Lines 48-50. *)
Definition get_current_model : M (option string) :=
  p <- get_provider ;;
  ret (Py.get_opt DEFAULT_MODELS p).

(** [_client.chat.completions.create(...)]: only the OpenAI client has
    the attribute [chat]; on the other client the attribute lookup
    raises before anything is sent. *)
Definition chat_completions_create (c : Client) (model : option string)
    (messages : list (string * string)) (temperature : Z) : M Response :=
  match c with
  | OpenAIClient k url => remote (ChatCompletion k url model messages temperature)
  | GenaiClient _ => raise (AttributeError "'Client' object has no attribute 'chat'")
  end.

(** [_client.models.generate_content(...)]: only the genai client has
    that method. *)
Definition models_generate_content (c : Client) (model : option string)
    (contents : string) : M Response :=
  match c with
  | GenaiClient k => remote (GenerateContent k model contents)
  | OpenAIClient _ _ =>
      raise (AttributeError "'Models' object has no attribute 'generate_content'")
  end.

(** [text.strip().upper()], where [text] may be [None]. *)
Definition strip_upper (text : Response) : M string :=
  match text with
  | Some s => ret (str_upper (str_strip s))
  | None => raise (AttributeError "'NoneType' object has no attribute 'strip'")
  end.

(** Lines 53-95. With a provider that is neither of the two, no branch
    binds [intent] and [return intent] raises inside the [try]. The
    handler prints the exception before it returns, and the exception of
    that print is not caught. *)
Definition route_query (query : string) (model : option string) : M string :=
  c <- get_client ;;
  match c with
  | None => raise (RuntimeError "Client not initialized. Call initialize_client() first.")
  | Some client =>
      p <- get_provider ;;
      let model := match model with
                   | None => Py.get_opt DEFAULT_MODELS p
                   | Some m => Some m
                   end in
      try_except
        (if is_str p "groq" then
           response <- chat_completions_create client model
                         [("system", system_prompt); ("user", query)] 0 ;;
           strip_upper response
         else if is_str p "google" then
           let full_prompt := system_prompt ++ nl ++ nl ++ "User query: " ++ query in
           response <- models_generate_content client model full_prompt ;;
           strip_upper response
         else
           raise (UnboundLocalError
                    "cannot access local variable 'intent' where it is not associated with a value"))
        (fun e => print ("Error during routing: " ++ exn_str e) ;; ret "ERROR")
  end.

End Router.

(** ** [evaluation/evaluate.py] *)

Definition RATE_LIMITS : Py.dict Z := [("google", 5); ("groq", 30)].

(** One entry of [TEST_CASES]. *)
Record TestCase : Type := mkTestCase {
  query : string;
  expected : string
}.

(** [evaluation/test_data.py]: the corpus [TEST_CASES]. *)
Definition TEST_CASES : list TestCase :=
  [
    mkTestCase "What is your return policy?" "FAQ";
    mkTestCase "Can I return an item after 30 days?" "FAQ";
    mkTestCase "How do I return something?" "FAQ";
    mkTestCase "Do you accept returns on sale items?" "FAQ";
    mkTestCase "How long does shipping take?" "FAQ";
    mkTestCase "What are your shipping options?" "FAQ";
    mkTestCase "Do you offer free shipping?" "FAQ";
    mkTestCase "How much does delivery cost?" "FAQ";
    mkTestCase "What are your store hours?" "FAQ";
    mkTestCase "When do you open?" "FAQ";
    mkTestCase "Are you open on weekends?" "FAQ";
    mkTestCase "What time do you close?" "FAQ";
    mkTestCase "Where is your store located?" "FAQ";
    mkTestCase "What's your address?" "FAQ";
    mkTestCase "Do you have a physical store?" "FAQ";
    mkTestCase "Where is my order 101?" "ORDER";
    mkTestCase "What's the status of order 102?" "ORDER";
    mkTestCase "Track my order 103" "ORDER";
    mkTestCase "Has order 101 shipped yet?" "ORDER";
    mkTestCase "Where is my package?" "ORDER";
    mkTestCase "When will my order arrive?" "ORDER";
    mkTestCase "My order hasn't arrived yet" "ORDER";
    mkTestCase "I want to track my delivery" "ORDER";
    mkTestCase "Has my order been delivered?" "ORDER";
    mkTestCase "Is my package out for delivery?" "ORDER";
    mkTestCase "When was my order shipped?" "ORDER";
    mkTestCase "I have a question about my order 101" "ORDER";
    mkTestCase "Can I return order 102?" "ORDER";
    mkTestCase "How do returns work?" "FAQ";
    mkTestCase "What happens if my package is lost?" "FAQ" ].

(** Returns all test cases. *)
Definition get_test_cases : list TestCase := TEST_CASES.

(** One entry of [results["details"]]. *)
Record PredictionDetail : Type := mkDetail {
  d_query : string;
  d_expected : string;
  predicted : string;
  d_correct : bool;
  latency_ms : float;
  d_error : option string
}.

(** The dictionary [results] of [evaluate_provider]. *)
Record EvaluationResult : Type := mkResult {
  provider : string;
  model : option string;
  total : Z;
  correct : Z;
  incorrect : Z;
  errors : Z;
  accuracy : float;
  avg_latency_ms : float;
  total_latency_ms : float;
  details : list PredictionDetail
}.

Definition set_correct (r : EvaluationResult) (v : Z) : EvaluationResult :=
  mkResult (provider r) (model r) (total r) v (incorrect r) (errors r)
    (accuracy r) (avg_latency_ms r) (total_latency_ms r) (details r).

Definition set_incorrect (r : EvaluationResult) (v : Z) : EvaluationResult :=
  mkResult (provider r) (model r) (total r) (correct r) v (errors r)
    (accuracy r) (avg_latency_ms r) (total_latency_ms r) (details r).

Definition set_errors (r : EvaluationResult) (v : Z) : EvaluationResult :=
  mkResult (provider r) (model r) (total r) (correct r) (incorrect r) v
    (accuracy r) (avg_latency_ms r) (total_latency_ms r) (details r).

Definition set_accuracy (r : EvaluationResult) (v : float) : EvaluationResult :=
  mkResult (provider r) (model r) (total r) (correct r) (incorrect r) (errors r)
    v (avg_latency_ms r) (total_latency_ms r) (details r).

Definition set_latency (r : EvaluationResult) (avg tot : float) : EvaluationResult :=
  mkResult (provider r) (model r) (total r) (correct r) (incorrect r) (errors r)
    (accuracy r) avg tot (details r).

(** [results["details"].append(d)]. *)
Definition append_detail (r : EvaluationResult) (d : PredictionDetail) : EvaluationResult :=
  mkResult (provider r) (model r) (total r) (correct r) (incorrect r) (errors r)
    (accuracy r) (avg_latency_ms r) (total_latency_ms r) (details r ++ [d])%list.

(** Line 65: [RATE_LIMITS.get(provider, 60)]. *)
Definition rate_limit_of (provider : string) : Z :=
  Py.get_default RATE_LIMITS provider 60.

(** Line 66: [60.0 / rate_limit + 0.5]. *)
Definition delay_seconds (rate_limit : Z) : float :=
  (60 / Py.float_of_int rate_limit + 0.5)%float.

(** Line 122. *)
Definition accuracy_of (correct total : Z) : float :=
  if total >? 0 then Py.round2 (Py.int_truediv correct total * 100)%float
  else 0%float.

(** Lines 42-53: the dictionary [results] as it is created. *)
Definition new_results (provider : string) (test_cases : list TestCase)
  : EvaluationResult :=
  mkResult provider (Py.get DEFAULT_MODELS provider) (Py.len test_cases)
    0 0 0 0%float 0%float 0%float [].

Section Evaluate.
Context `{P : Platform}.

(** The local variables the loop updates: [results] and [latencies]. *)
Definition Locals : Type := (EvaluationResult * list float)%type.

(** Line 102: the progress line, [status] being ["OK"] or ["FAIL"]. *)
Definition progress_line (i n : Z) (is_correct : bool) (q : string) : string :=
  "  [" ++ Py.str_of_int (i + 1) ++ "/" ++ Py.str_of_int n ++ "] "
  ++ (if is_correct then "OK" else "FAIL") ++ " " ++ str_prefix 50 q ++ "...".

(** Lines 104-114: the handler, on the locals as they are when the
    exception is caught. *)
Definition except_block (start_time : float) (test_case : TestCase)
    (st : Locals) (err : exn) : M Locals :=
  let (results, latencies) := st in
  t <- now ;;
  let latency := ((t - start_time) * 1000)%float in
  ret (append_detail (set_errors results (errors results + 1))
         (mkDetail (query test_case) (expected test_case) "ERROR" false
            (Py.round2 latency) (Some (exn_str err))),
       latencies).

(** Lines 72-115: the body of the loop for the test case of index [i]
    out of [n]. Two statements of the [try] can raise: the call of
    [route_query] (line 82), before anything is written, and the
    progress print (line 102), after the latency, the counter and the
    detail are written. *)
Definition evaluate_case (rate_limit : Z) (delay : float) (n i : Z)
    (test_case : TestCase) (st : Locals) : M Locals :=
  let (results, latencies) := st in
  let q := query test_case in
  let e := expected test_case in
  (if (i >? 0) && (rate_limit <? 10) then sleep delay else ret tt) ;;
  start_time <- now ;;
  called <- attempt (route_query q None) ;;
  match called with
  | Raise err => except_block start_time test_case (results, latencies) err
  | Ok p =>
      t <- now ;;
      let latency := ((t - start_time) * 1000)%float in
      let latencies := (latencies ++ [latency])%list in
      let is_correct := String.eqb p e in
      let results :=
        if is_correct then set_correct results (correct results + 1)
        else set_incorrect results (incorrect results + 1) in
      let results :=
        append_detail results
          (mkDetail q e p is_correct (Py.round2 latency) None) in
      printed <- attempt (print (progress_line i n is_correct q)) ;;
      match printed with
      | Raise err => except_block start_time test_case (results, latencies) err
      | Ok _ => ret (results, latencies)
      end
  end.

(** Line 71: [for i, test_case in enumerate(test_cases)], from index
    [i]; [n] is [len(test_cases)] of the whole corpus. *)
Fixpoint evaluate_loop (rate_limit : Z) (delay : float) (n i : Z)
    (test_cases : list TestCase) (st : Locals) : M Locals :=
  match test_cases with
  | [] => ret st
  | test_case :: rest =>
      st' <- evaluate_case rate_limit delay n i test_case st ;;
      evaluate_loop rate_limit delay n (i + 1) rest st'
  end.

(** Lines 118-122. *)
Definition finish (st : Locals) : EvaluationResult :=
  let (results, latencies) := st in
  let results :=
    match latencies with
    | [] => results
    | _ :: _ =>
        set_latency results
          (Py.round2 (float_sum latencies / Py.float_of_int (Py.len latencies))%float)
          (Py.round2 (float_sum latencies))
    end in
  set_accuracy results (accuracy_of (correct results) (total results)).

(** Lines 37-124. The prints of lines 58 and 69, like the one of line
    115 in the handler of the loop, have no handler around them: they
    are not actions of the model (see the conventions). *)
Definition evaluate_provider (provider : string) (test_cases : list TestCase)
  : M EvaluationResult :=
  let results := new_results provider test_cases in
  initialized <- try_except (initialize_client provider None ;; ret true)
                   (fun _ => ret false) ;;
  if negb initialized then ret (set_errors results (Py.len test_cases))
  else
    let rate_limit := rate_limit_of provider in
    let delay := delay_seconds rate_limit in
    st <- evaluate_loop rate_limit delay (Py.len test_cases) 0 test_cases
            (results, []) ;;
    ret (finish st).

End Evaluate.

(** Line 138: the order in which [print_comparison_table] prints its
    rows, and whose first element it reports as the best model. *)
Definition sorted_results (all_results : list EvaluationResult) : list EvaluationResult :=
  Py.sorted accuracy true all_results.

(** ** Stub platforms for concrete runs

    The outside state is the number of clock readings so far; the clock
    advances by one second per reading. The hosted model is a function of
    the request. The texts of the concrete runs are ASCII, up to a few
    letters that only the console looks at, so the string operations are
    the ASCII ones. *)

(** A console that prints every text, as one with the encoding UTF-8. *)
Definition stub_platform (oracle : Request -> Result Response) : Platform :=
  {| Ext := Z;
     remote_call := fun req x => (oracle req, x);
     time_time := fun x => (Py.float_of_int x, x + 1);
     time_sleep := fun _ x => x;
     float_sum := fun l => fold_left PrimFloat.add l 0%float;
     str_strip := Py.ascii_strip;
     str_upper := Py.ascii_upper;
     str_prefix := Py.ascii_prefix;
     re_search := fun _ s => search_three_digits false s;
     console := fun _ => None;
     str_strip_ascii := fun _ _ => eq_refl;
     str_upper_ascii := fun _ _ => eq_refl;
     str_prefix_ascii := fun _ _ _ => eq_refl;
     re_search_order_ascii := fun _ _ => eq_refl;
     console_ascii := fun _ _ => eq_refl |}.

(** A console with the encoding ASCII: it prints the texts of ASCII
    characters and no other. *)
Definition ascii_console (text : string) : option string :=
  if Py.isascii text then None
  else Some "'ascii' codec can't encode character: ordinal not in range(128)".

Definition ascii_console_ascii (s : string) (H : Py.isascii s = true)
  : ascii_console s = None :=
  @eq_ind_r bool true
    (fun b : bool =>
       (if b then None
        else Some "'ascii' codec can't encode character: ordinal not in range(128)")
       = None)
    eq_refl (Py.isascii s) H.

Definition ascii_console_platform (oracle : Request -> Result Response) : Platform :=
  {| Ext := Z;
     remote_call := fun req x => (oracle req, x);
     time_time := fun x => (Py.float_of_int x, x + 1);
     time_sleep := fun _ x => x;
     float_sum := fun l => fold_left PrimFloat.add l 0%float;
     str_strip := Py.ascii_strip;
     str_upper := Py.ascii_upper;
     str_prefix := Py.ascii_prefix;
     re_search := fun _ s => search_three_digits false s;
     console := ascii_console;
     str_strip_ascii := fun _ _ => eq_refl;
     str_upper_ascii := fun _ _ => eq_refl;
     str_prefix_ascii := fun _ _ _ => eq_refl;
     re_search_order_ascii := fun _ _ => eq_refl;
     console_ascii := ascii_console_ascii |}.

Definition initial_world `{Platform} (env : Py.dict string) (x : Ext) : World :=
  mkWorld _ env None None x [].

(** ** More of the interpreter's built-ins *)

(** [sub in s] on strings: [sub] occurs in [s] as a contiguous piece. *)
Fixpoint str_contains (sub s : string) : bool :=
  if String.prefix sub s then true
  else match s with
       | EmptyString => false
       | String _ s' => str_contains sub s'
       end.

(** [x in l] on a list of strings. *)
Definition str_in (x : string) (l : list string) : bool :=
  existsb (String.eqb x) l.

(** ** [src/agents.py] *)

(** An instance of [FAQAgent]: its attribute [knowledge_base]. *)
Record FAQAgent : Type := mkFAQAgent {
  knowledge_base : Py.dict string
}.

(** [FAQAgent.__init__]. *)
Definition FAQAgent_init : FAQAgent :=
  mkFAQAgent
    [ ("return", "You can return items within 30 days of purchase.");
      ("shipping", "Shipping usually takes 3-5 business days.");
      ("hours", "We are open Mon-Fri from 9 AM to 5 PM.");
      ("location", "We are located at 123 Tech Avenue.") ].

(** The loop of [FAQAgent.handle] over the items of the dictionary, in
    insertion order: the answer of the first key that occurs in the
    lowercased query. *)
Fixpoint first_answer (items : Py.dict string) (query_lower : string)
  : option string :=
  match items with
  | [] => None
  | (key, answer) :: rest =>
      if str_contains key query_lower then Some answer
      else first_answer rest query_lower
  end.

Definition faq_fallback : string :=
  "I'm sorry, I don't have information on that topic in my FAQ.".

(** [FAQAgent.handle]. *)
Definition FAQAgent_handle (self : FAQAgent) (query : string) : string :=
  let query_lower := Py.lower query in
  match first_answer (knowledge_base self) query_lower with
  | Some answer => answer
  | None => faq_fallback
  end.

(** An instance of [OrderAgent]: its attribute [orders]. *)
Record OrderAgent : Type := mkOrderAgent {
  orders : Py.dict string
}.

(** [OrderAgent.__init__]. *)
Definition OrderAgent_init : OrderAgent :=
  mkOrderAgent
    [ ("101", "Shipped - Arriving Tomorrow");
      ("102", "Processing - Packing in progress");
      ("103", "Delivered - Left at front porch") ].

Definition order_prompt : string :=
  "Please provide a valid 3-digit order number (e.g., 101).".

Section Agents.
Context `{P : Platform}.

(** [re.search(r'\b\d{3}\b', query)], then [match.group()]. *)
Definition re_search_order_id (query : string) : option string :=
  re_search order_pattern query.

(** [OrderAgent.handle]. *)
Definition OrderAgent_handle (self : OrderAgent) (query : string) : string :=
  match re_search_order_id query with
  | Some order_id =>
      match Py.get (orders self) order_id with
      | Some status =>
          if Py.truthy status
          then "Order #" ++ order_id ++ " status: " ++ status
          else "Order #" ++ order_id ++ " not found."
      | None => "Order #" ++ order_id ++ " not found."
      end
  | None => order_prompt
  end.

End Agents.

(** ** [src/main.py] *)

(** The dictionary [PROVIDERS], the same in [main.py] and
    [evaluate.py]: the environment variable of each provider. *)
Definition PROVIDERS : Py.dict string :=
  [("google", "GOOGLE_API_KEY"); ("groq", "GROQ_API_KEY")].

Definition chat_fallback : string :=
  "I'm having trouble understanding your request. Please try again.".

(** How the loop of [run_chat_system] ends: by [break], by [input()]
    raising [EOFError] when the input is used up, or by an exception of
    [route_query] or of a [print]. *)
Inductive ChatEnd : Type :=
| ChatQuit
| ChatEndOfInput
| ChatRaised (e : exn).

Section Chat.
Context `{P : Platform}.

(** Lines 45-53: the agent's response for an intent. *)
Definition dispatch (faq_agent : FAQAgent) (order_agent : OrderAgent)
    (intent user_query : string) : string :=
  if String.eqb intent "FAQ" then FAQAgent_handle faq_agent user_query
  else if String.eqb intent "ORDER" then OrderAgent_handle order_agent user_query
  else chat_fallback.

(** Lines 41-56: one turn of the loop on a line that does not end the
    chat; the response, once it is printed. *)
Definition chat_turn (faq_agent : FAQAgent) (order_agent : OrderAgent)
    (user_query : string) : M string :=
  intent <- route_query user_query None ;;
  print ("[DEBUG] Router identified intent: " ++ intent) ;;
  let response := dispatch faq_agent order_agent intent user_query in
  print ("Bot: " ++ response ++ nl) ;;
  ret response.

(** Lines 36-56: the loop, on the lines that [input()] will return. The
    responses printed after ["Bot: "] are collected in order. *)
Fixpoint chat_loop (faq_agent : FAQAgent) (order_agent : OrderAgent)
    (inputs : list string) (w : World) : list string * ChatEnd * World :=
  match inputs with
  | [] => ([], ChatEndOfInput, w)
  | user_query :: rest =>
      if str_in (Py.lower user_query) ["exit"; "quit"] then ([], ChatQuit, w)
      else
        match chat_turn faq_agent order_agent user_query w with
        | (Raise e, w') => ([], ChatRaised e, w')
        | (Ok response, w') =>
            let '(responses, how, w'') := chat_loop faq_agent order_agent rest w' in
            (response :: responses, how, w'')
        end
  end.

(** Lines 29-56. *)
Definition run_chat_system (inputs : list string) (w : World)
  : list string * ChatEnd * World :=
  match (print "--- Customer Service Bot Initialized ---" ;;
         print ("Type 'exit' or 'quit' to quit." ++ nl)) w with
  | (Raise e, w') => ([], ChatRaised e, w')
  | (Ok _, w') => chat_loop FAQAgent_init OrderAgent_init inputs w'
  end.

(** Lines 81-83: what the [try] of the script does before the chat. *)
Definition chat_startup (provider : string) : M unit :=
  initialize_client provider None ;;
  model <- get_current_model ;;
  print ("[INFO] Using " ++ str_upper provider ++ " as AI provider (model: "
         ++ Py.str_of_opt model ++ ")" ++ nl).

(** Lines 58-87: the script, on its arguments ([argv], the script name
    first) and the lines of its input; the responses and the exit
    status. Any exception inside the [try], [EOFError] included, ends in
    [sys.exit(1)]. *)
Definition chat_main (argv inputs : list string) (w : World)
  : list string * Z * World :=
  match argv with
  | _ :: arg :: _ =>
      let provider := Py.lower arg in
      match Py.get PROVIDERS provider with
      | None => ([], 1, w)
      | Some api_key_name =>
          match Py.get (environ w) api_key_name with
          | None => ([], 1, w)
          | Some k =>
              if negb (Py.truthy k) then ([], 1, w)
              else
                match chat_startup provider w with
                | (Raise _, w1) => ([], 1, w1)
                | (Ok _, w1) =>
                    match run_chat_system inputs w1 with
                    | (responses, ChatQuit, w2) => (responses, 0, w2)
                    | (responses, _, w2) => (responses, 1, w2)
                    end
                end
          end
      end
  | _ => ([], 1, w)
  end.

End Chat.

(** ** The rest of [evaluation/evaluate.py] and [test_data.py] *)

(** [get_faq_cases] and [get_order_cases]. *)
Definition get_faq_cases : list TestCase :=
  filter (fun tc => String.eqb (expected tc) "FAQ") TEST_CASES.

Definition get_order_cases : list TestCase :=
  filter (fun tc => String.eqb (expected tc) "ORDER") TEST_CASES.

(** What [print_comparison_table] does: it prints its rows and the best
    model; or the format [{r['model']:<28}] raises [TypeError] on a
    model that is [None], after the rows before it; or, on no results at
    all, [sorted_results[0]] raises [IndexError]. *)
Inductive TableOutcome : Type :=
| TablePrinted (rows : list EvaluationResult) (best : EvaluationResult)
| TableTypeError (rows : list EvaluationResult)
| TableIndexError.

(** Lines 140-141: the rows printed, and whether the loop completed. *)
Fixpoint print_rows (results : list EvaluationResult)
  : list EvaluationResult * bool :=
  match results with
  | [] => ([], true)
  | r :: rest =>
      match model r with
      | None => ([], false)
      | Some _ =>
          let (rows, completed) := print_rows rest in (r :: rows, completed)
      end
  end.

(** Lines 127-148. *)
Definition print_comparison_table (all_results : list EvaluationResult)
  : TableOutcome :=
  let sorted := sorted_results all_results in
  let (rows, completed) := print_rows sorted in
  if completed then
    match sorted with
    | [] => TableIndexError
    | best :: _ => TablePrinted rows best
    end
  else TableTypeError rows.

(** How [main] of [evaluate.py] ends: by [sys.exit], or after the
    evaluations with the outcome of the table (writing the result file
    is outside the model). *)
Inductive EvalMain : Type :=
| EvalExit (code : Z)
| EvalRaised (e : exn)
| EvalDone (all_results : list EvaluationResult) (table : TableOutcome).

Section EvaluateMain.
Context `{P : Platform}.

(** Lines 192-198: the providers whose API key is found. *)
Definition available_providers (env : Py.dict string) : list string :=
  map fst
    (filter (fun item => match Py.get env (snd item) with
                         | Some k => Py.truthy k
                         | None => false
                         end)
       PROVIDERS).

(** Lines 205-207: the providers named on the command line that are
    available, in the order and as often as they are named. *)
Definition requested_providers (args available : list string) : list string :=
  filter (fun p => str_in p available) (map Py.lower args).

(** Lines 219-226. *)
Fixpoint evaluate_all (providers : list string) (test_cases : list TestCase)
  : M (list EvaluationResult) :=
  match providers with
  | [] => ret []
  | provider :: rest =>
      results <- evaluate_provider provider test_cases ;;
      all_results <- evaluate_all rest test_cases ;;
      ret (results :: all_results)
  end.

(** Lines 192-210: the providers to evaluate, or [None] where [main]
    calls [sys.exit(1)]: no API key at all, or none of the providers
    named on the command line is available. *)
Definition select_providers (argv : list string) (env : Py.dict string)
  : option (list string) :=
  match available_providers env with
  | [] => None
  | (_ :: _) as available =>
      let selected :=
        match argv with
        | _ :: ((_ :: _) as args) => requested_providers args available
        | _ => available
        end in
      match selected with
      | [] => None
      | _ :: _ => Some selected
      end
  end.

(** Lines 185-246, on [sys.argv]. *)
Definition evaluate_main (argv : list string) (w : World) : EvalMain * World :=
  match select_providers argv (environ w) with
  | None => (EvalExit 1, w)
  | Some selected =>
      match evaluate_all selected get_test_cases w with
      | (Raise e, w') => (EvalRaised e, w')
      | (Ok all_results, w') =>
          (EvalDone all_results (print_comparison_table all_results), w')
      end
  end.

End EvaluateMain.

(** * Vocabulary of the properties

    The definitions below are not part of the program: they name what
    the lemmas and theorems talk about. *)

(** ** Sessions *)

(** The part of the state that only [initialize_client] writes. *)
Definition same_session `{Platform} (w w' : World) : Prop :=
  environ w' = environ w /\ _client w' = _client w /\ _provider w' = _provider w.

(** The request [route_query] sends for a client, a provider name, a
    query and a model, if it sends one. *)
Definition request_of (c : Client) (p : option string) (q : string)
    (m : option string) : option Request :=
  let m := match m with None => Py.get_opt DEFAULT_MODELS p | Some m => Some m end in
  if is_str p "groq" then
    match c with
    | OpenAIClient k url =>
        Some (ChatCompletion k url m [("system", system_prompt); ("user", q)] 0)
    | GenaiClient _ => None
    end
  else if is_str p "google" then
    match c with
    | GenaiClient k =>
        Some (GenerateContent k m (system_prompt ++ nl ++ nl ++ "User query: " ++ q))
    | OpenAIClient _ _ => None
    end
  else None.

(** The text that the handler of [route_query] prints for an
    exception. *)
Definition routing_error (e : exn) : string :=
  "Error during routing: " ++ exn_str e.

(** What [route_query] makes of the outcome of its request: the answer
    stripped and uppercased; ["ERROR"] when the response has no text or
    the request raised and the console printed the exception; the
    exception of the print when it did not. *)
Definition routed `{Platform} (a : Result Response) : Result string :=
  match a with
  | Ok (Some s) => Ok (str_upper (str_strip s))
  | Ok None => Ok "ERROR"
  | Raise e =>
      match console (routing_error e) with
      | None => Ok "ERROR"
      | Some msg => Raise (UnicodeEncodeError msg)
      end
  end.

(** The console prints whatever it is given. *)
Definition console_prints_all `{Platform} : Prop :=
  forall text, console text = None.

(** The value of an environment variable when it is set and not empty. *)
Definition credential (env : Py.dict string) (name : string) : option string :=
  match Py.get env name with
  | Some k => if Py.truthy k then Some k else None
  | None => None
  end.

(** The client that belongs to a lowercased provider name. *)
Definition client_for (env : Py.dict string) (lp : string) : option Client :=
  if String.eqb lp "google" then
    option_map GenaiClient (credential env "GOOGLE_API_KEY")
  else if String.eqb lp "groq" then
    option_map (fun k => OpenAIClient k "https://api.groq.com/openai/v1")
      (credential env "GROQ_API_KEY")
  else None.

Definition unknown_provider (p : string) : Prop :=
  Py.lower p <> "google" /\ Py.lower p <> "groq".

Definition credential_absent (env : Py.dict string) (p : string) : Prop :=
  (Py.lower p = "google" /\ credential env "GOOGLE_API_KEY" = None)
  \/ (Py.lower p = "groq" /\ credential env "GROQ_API_KEY" = None).

(** [w] with only the global [_provider] overwritten. *)
Definition with_provider `{Platform} (w : World) (lp : string) : World :=
  mkWorld _ (environ w) (_client w) (Some lp) (ext w) (trace w).

(** [w] with both globals overwritten. *)
Definition with_session `{Platform} (w : World) (lp : string) (c : Client) : World :=
  mkWorld _ (environ w) (Some c) (Some lp) (ext w) (trace w).

(** [history w b]: the process reached [w] from its start by calls of
    the router's functions, while the clock, the hosted models and the
    log moved on; [b] tells whether some call of [initialize_client]
    has succeeded so far. *)
Inductive history `{Platform} : World -> bool -> Prop :=
| history_start (env : Py.dict string) (x : Ext) :
    history (initial_world env x) false
| history_init_ok (w : World) (b : bool) (p : string) (m v : option string) (w' : World) :
    history w b -> initialize_client p m w = (Ok v, w') -> history w' true
| history_init_fail (w : World) (b : bool) (p : string) (m : option string)
    (e : exn) (w' : World) :
    history w b -> initialize_client p m w = (Raise e, w') -> history w' b
| history_route (w : World) (b : bool) (q : string) (m : option string)
    (r : Result string) (w' : World) :
    history w b -> route_query q m w = (r, w') -> history w' b
| history_outside (w : World) (b : bool) (w' : World) :
    history w b -> same_session w w' -> history w' b.

(** ** Results and logs *)

(** The sum of the three counters. *)
Definition scored (r : EvaluationResult) : Z := correct r + incorrect r + errors r.

(** The log of a loop that starts at index [i] and sends [reqs]: a
    sleep precedes a request when its index is positive and the provider
    is a slow one. *)
Fixpoint loop_trace (slow : bool) (d : float) (i : Z) (reqs : list Request)
  : list Event :=
  match reqs with
  | [] => []
  | r :: rest =>
      ((if (i >? 0) && slow then [EvSleep d] else [])
         ++ EvRemote r :: loop_trace slow d (i + 1) rest)%list
  end.

(** Requests with a sleep of [d] seconds before each but the first. *)
Definition with_delays (d : float) (reqs : list Request) : list Event :=
  match reqs with
  | [] => []
  | r :: rest => EvRemote r :: flat_map (fun r' => [EvSleep d; EvRemote r']) rest
  end.

(** A session whose client answers every query with a request. *)
Definition serving `{Platform} (w : World) (c : Client) : Prop :=
  _client w = Some c
  /\ forall q, exists req, request_of c (_provider w) q None = Some req.

(** Every request raises, whatever the state of the outside. *)
Definition always_raises `{Platform} : Prop :=
  forall req x, exists e x', remote_call req x = (Raise e, x').

(** ** The order of floats *)

(** A float that is not NaN is placed by a triple of integers ordered
    lexicographically: the sign class, then the exponent and the
    mantissa (negated for negative numbers). *)
Definition rank (f : SpecFloat.spec_float) : option (Z * Z * Z) :=
  match f with
  | SpecFloat.S754_nan => None
  | SpecFloat.S754_infinity true => Some (-2, 0, 0)
  | SpecFloat.S754_infinity false => Some (2, 0, 0)
  | SpecFloat.S754_zero _ => Some (0, 0, 0)
  | SpecFloat.S754_finite true m e => Some (-1, - e, Zneg m)
  | SpecFloat.S754_finite false m e => Some (1, e, Zpos m)
  end.

Definition cmp3 (r1 r2 : Z * Z * Z) : comparison :=
  let '(a1, b1, c1) := r1 in
  let '(a2, b2, c2) := r2 in
  match a1 ?= a2 with
  | Eq => match b1 ?= b2 with
          | Eq => c1 ?= c2
          | o => o
          end
  | o => o
  end.

Definition lt3 (r1 r2 : Z * Z * Z) : Prop :=
  let '(a1, b1, c1) := r1 in
  let '(a2, b2, c2) := r2 in
  a1 < a2 \/ (a1 = a2 /\ (b1 < b2 \/ (b1 = b2 /\ c1 < c2))).

Definition eq3 (r1 r2 : Z * Z * Z) : Prop :=
  let '(a1, b1, c1) := r1 in
  let '(a2, b2, c2) := r2 in
  a1 = a2 /\ b1 = b2 /\ c1 = c2.

(** The comparisons of two elements by their float keys. *)
Definition key_lt {A : Type} (key : A -> float) (a b : A) : bool :=
  (key a <? key b)%float.

Definition key_le {A : Type} (key : A -> float) (a b : A) : Prop :=
  (key a <=? key b)%float = true.

Definition key_ge {A : Type} (key : A -> float) (a b : A) : Prop :=
  (key b <=? key a)%float = true.

(** The key of [a] is a number. *)
Definition real_key {A : Type} (key : A -> float) (a : A) : Prop :=
  is_nan (key a) = false.

(** The key of [a] equals [k], as [==] on floats has it. *)
Definition has_key {A : Type} (key : A -> float) (k : float) (a : A) : bool :=
  (key a =? k)%float.

(** ** Concrete platforms, worlds and inputs *)

Definition stub_env : Py.dict string :=
  [("GOOGLE_API_KEY", "g-key"); ("GROQ_API_KEY", "q-key")].

(** A hosted model that is down: every request raises. *)
Definition failing_platform : Platform :=
  stub_platform (fun _ => Raise (RemoteError "503 Service Unavailable")).

(** A hosted model that answers every request with the same text. *)
Definition echo_platform (text : string) : Platform :=
  stub_platform (fun _ => Ok (Some text)).

(** The world after [initialize_client(provider)] at process start. *)
Definition started `{Platform} (env : Py.dict string) (x : Ext) (provider : string) : World :=
  snd (initialize_client provider None (initial_world env x)).

Definition groq_url : string := "https://api.groq.com/openai/v1".

Definition two_cases : list TestCase :=
  [ mkTestCase "What is your return policy?" "FAQ";
    mkTestCase "Where is my order 101?" "ORDER" ].

(** The hosted model is down; the process has initialized "groq". *)
Definition groq_down : @World failing_platform :=
  @started failing_platform stub_env 0 "groq".

(** The hosted model answers every request with ["  Refund? "]; the
    process has initialized "google". *)
Definition google_chatty : @World (echo_platform "  Refund? ") :=
  @started (echo_platform "  Refund? ") stub_env 0 "google".

(** The process at its start, with both credentials in the environment. *)
Definition fresh (P : Platform) (x : @Ext P) : @World P :=
  @initial_world P stub_env x.

Definition sample_results : list EvaluationResult :=
  [ mkResult "google" (Some "gemini-2.5-flash") 4 2 2 0 50 900 3600 [];
    mkResult "groq" (Some "llama-3.1-8b-instant") 4 4 0 0 100 120 480 [];
    mkResult "other" None 4 2 1 1 50 300 1200 [] ].

(** ** Requests *)

(** The model a request names. *)
Definition request_model (req : Request) : option string :=
  match req with
  | ChatCompletion _ _ m _ _ => m
  | GenerateContent _ m _ => m
  end.

(** ** Details *)

(** The detail of a test case whose call returned [p], and the detail
    that the handler writes for it. *)
Definition scored_detail (tc : TestCase) (p : string) (lat : float)
  : PredictionDetail :=
  mkDetail (query tc) (expected tc) p (String.eqb p (expected tc)) lat None.

Definition error_detail (tc : TestCase) (lat : float) (msg : string)
  : PredictionDetail :=
  mkDetail (query tc) (expected tc) "ERROR" false lat (Some msg).

(** The details that one turn of the loop appends for the test case
    [tc] of index [i] out of [n], when its request has the outcome [a]:
    the one of the handler when [route_query] raises; otherwise the
    scored one, followed by the one of the handler when the progress
    line cannot be printed. *)
Definition case_details `{Platform} (n i : Z) (tc : TestCase)
    (a : Result Response) (lat lat' : float) : list PredictionDetail :=
  match routed a with
  | Raise err => [error_detail tc lat (exn_str err)]
  | Ok p =>
      scored_detail tc p lat
      :: match console (progress_line i n (String.eqb p (expected tc)) (query tc)) with
         | None => []
         | Some msg => [error_detail tc lat' msg]
         end
  end.

(** The details of a loop over [tcs] from index [i], in a session whose
    client [c] and provider name [prov] make a request of every query. *)
Fixpoint loop_details `{Platform} (c : Client) (prov : option string) (n i : Z)
    (tcs : list TestCase) (ds : list PredictionDetail) : Prop :=
  match tcs with
  | [] => ds = []
  | tc :: rest =>
      exists req x lat lat' ds',
        request_of c prov (query tc) None = Some req
        /\ ds = (case_details n i tc (fst (remote_call req x)) lat lat' ++ ds')%list
        /\ loop_details c prov n (i + 1) rest ds'
  end.

(** A detail written by the handler. *)
Definition is_error (dt : PredictionDetail) : bool :=
  match d_error dt with
  | Some _ => true
  | None => false
  end.

(** The numbers of details marked correct, of details of a call that
    returned marked not correct, and of details written by the
    handler. *)
Definition count_correct (ds : list PredictionDetail) : Z :=
  Py.len (filter d_correct ds).

Definition count_incorrect (ds : list PredictionDetail) : Z :=
  Py.len (filter (fun dt => negb (d_correct dt) && negb (is_error dt)) ds).

Definition count_errors (ds : list PredictionDetail) : Z :=
  Py.len (filter is_error ds).

(** The answer of the hosted model depends on the request only. *)
Definition answers_by_request `{Platform} : Prop :=
  forall req x x', fst (remote_call req x) = fst (remote_call req x').

(** What the scoring keeps of a detail: the prediction, its mark, and
    whether the handler wrote it. *)
Definition verdict (dt : PredictionDetail) : string * bool * bool :=
  (predicted dt, d_correct dt, is_error dt).

(** The verdicts of a loop over [tcs] from index [i] when requests are
    answered as they are in the outside state [x]. *)
Fixpoint loop_verdicts `{Platform} (c : Client) (prov : option string) (x : Ext)
    (n i : Z) (tcs : list TestCase) : list (string * bool * bool) :=
  match tcs with
  | [] => []
  | tc :: rest =>
      (match request_of c prov (query tc) None with
       | Some req =>
           map verdict (case_details n i tc (fst (remote_call req x)) 0 0)
       | None => []
       end ++ loop_verdicts c prov x n (i + 1) rest)%list
  end.

(** ** Words in queries

    Digits and word characters are those of a text of ASCII characters:
    the ASCII digits, and the ASCII letters, digits and underscore. *)

(** [sub] is a contiguous piece of [s]. *)
Definition occurs_in (sub s : string) : Prop :=
  exists before after, s = before ++ sub ++ after.

Fixpoint all_digits (s : string) : bool :=
  match s with
  | EmptyString => true
  | String c s' => ascii_digit c && all_digits s'
  end.

(** Whether the last character of [s] is a word character; for the
    empty string, [otherwise]. *)
Fixpoint last_is_word (otherwise : bool) (s : string) : bool :=
  match s with
  | EmptyString => otherwise
  | String c s' => last_is_word (ascii_word_char c) s'
  end.

Definition first_is_word (s : string) : bool :=
  match s with
  | EmptyString => false
  | String c _ => ascii_word_char c
  end.

(** [id] is a number of three digits that stands by itself between
    [before] and [after]: no word character touches it. When nothing is
    before it, [prev_word] tells whether one precedes the whole. *)
Definition standalone_from (prev_word : bool) (before id after : string) : Prop :=
  String.length id = 3%nat /\ all_digits id = true
  /\ last_is_word prev_word before = false /\ first_is_word after = false.

Definition standalone_number (before id after : string) : Prop :=
  standalone_from false before id after.

(** ** The chat *)

(** The line ends the chat. *)
Definition is_exit (line : string) : bool :=
  str_in (Py.lower line) ["exit"; "quit"].

(** The lines before the first one that ends the chat. *)
Fixpoint until_exit (inputs : list string) : list string :=
  match inputs with
  | [] => []
  | line :: rest => if is_exit line then [] else line :: until_exit rest
  end.

(** ** More concrete worlds *)

(** A hosted model that answers ["FAQ"] to every request. *)
Definition faq_platform : Platform := echo_platform "FAQ".

(** The process with that model, at its start and after
    [initialize_client("groq")]. *)
Definition faq_fresh : @World faq_platform := @initial_world faq_platform stub_env 0.

Definition faq_groq : @World faq_platform := @started faq_platform stub_env 0 "groq".

Definition chat_lines : list string :=
  ["What is your return policy?"; "Where is my order 101?"; "QUIT"; "never read"].

(** The letter e with an acute accent, in UTF-8. *)
Definition e_acute : string :=
  String (ascii_of_N 195) (String (ascii_of_N 169) EmptyString).

(** A hosted model that answers ["FAQ"] to every request, before a
    console with the encoding ASCII; and a corpus of one case whose
    query has that letter as its 44th character. *)
Definition faq_ascii_platform : Platform :=
  ascii_console_platform (fun _ => Ok (Some "FAQ")).

Definition cafe_case : list TestCase :=
  [ mkTestCase ("What is your return policy for a broken caf" ++ e_acute ++ "?") "FAQ" ].

(** A hosted model that is down and says so with that letter, before a
    console with the encoding ASCII; the process has initialized
    "groq". *)
Definition down_ascii_platform : Platform :=
  ascii_console_platform
    (fun _ => Raise (RemoteError ("Service indisponible, r" ++ e_acute
                                  ++ "essayez plus tard"))).

Definition groq_down_ascii : @World down_ascii_platform :=
  @started down_ascii_platform stub_env 0 "groq".

(** Three results with models, the last two tied at the top. *)
Definition tied_results : list EvaluationResult :=
  [ mkResult "google" (Some "gemini-2.5-flash") 4 2 2 0 50 900 3600 [];
    mkResult "groq" (Some "llama-3.1-8b-instant") 4 4 0 0 100 120 480 [];
    mkResult "groq" (Some "llama-3.1-8b-instant") 4 4 0 0 100 95 380 [] ].

(** * Properties *)

(** ** The built-ins on small inputs *)

Example ascii_strip_upper_faq :
  Py.ascii_upper (Py.ascii_strip (" faq" ++ nl)) = "FAQ".
Proof. reflexivity. Qed.

Example ascii_strip_blank : Py.ascii_strip "   " = "".
Proof. reflexivity. Qed.

Example lower_mixed : Py.lower "GoOgLe" = "google".
Proof. reflexivity. Qed.

Example str_of_int_thirty : Py.str_of_int 30 = "30".
Proof. reflexivity. Qed.

(** The progress line of the first of thirty cases, on a console that
    prints the slice as it is. *)
Example progress_line_first :
  @progress_line (echo_platform "FAQ") 0 30 true "What is your return policy?"
  = "  [1/30] OK What is your return policy?...".
Proof. reflexivity. Qed.

(** [round(0.125, 2)] is [0.12]: the tie goes to the even digit. *)
Example round2_tie : Py.round2 0.125 = Py.int_truediv 12 100.
Proof. reflexivity. Qed.

(** [round(2 / 3 * 100, 2)] is [66.67]. *)
Example accuracy_two_of_three : accuracy_of 2 3 = Py.int_truediv 6667 100.
Proof. reflexivity. Qed.

Example accuracy_all_correct : accuracy_of 30 30 = 100%float.
Proof. reflexivity. Qed.

Example delay_google : delay_seconds (rate_limit_of "google") = 12.5%float.
Proof. reflexivity. Qed.

Example delay_groq : delay_seconds (rate_limit_of "groq") = 2.5%float.
Proof. reflexivity. Qed.

(** The rate limit is looked up under the name as it was passed. *)
Example rate_limit_other_name : rate_limit_of "Google" = 60.
Proof. reflexivity. Qed.

(** Ties keep the input order, also when sorting in reverse. *)
Example sorted_reverse_ties :
  Py.sorted snd true [("a", 50%float); ("b", 100%float); ("c", 50%float)]
  = [("b", 100%float); ("a", 50%float); ("c", 50%float)].
Proof. reflexivity. Qed.

(** The corpus of the repository against a hosted model that answers
    ["FAQ"] to everything: the 17 FAQ cases are correct, the 13 ORDER
    cases incorrect, and the accuracy is [56.67]. *)
Example evaluate_corpus_all_faq :
  match fst (@evaluate_provider (echo_platform "FAQ") "groq" get_test_cases
               (fresh (echo_platform "FAQ") 0)) with
  | Ok r =>
      (total r, correct r, incorrect r, errors r) = (30, 17, 13, 0)
      /\ accuracy r = Py.int_truediv 5667 100
      /\ List.length (details r) = 30%nat
  | Raise _ => False
  end.
Proof. vm_compute. repeat split. Qed.

(** ** The monad *)

Ltac unfold_monad :=
  unfold bind, ret, raise, try_except, attempt, get_client, get_provider,
    set_client, set_provider, getenv in *.

(** Reduces the redexes that unfolding the monad leaves, and the
    projections of explicit worlds, without touching other constants. *)
Ltac world_simpl :=
  cbv beta iota zeta; cbn [_provider environ _client ext trace fst snd].

Create HintDb router discriminated.

Section MonadFacts.
Context `{P : Platform}.

Lemma same_session_refl (w : World) : same_session w w.
Proof. repeat split. Qed.

Lemma same_session_trans (w1 w2 w3 : World) :
  same_session w1 w2 -> same_session w2 w3 -> same_session w1 w3.
Proof.
  intros (E1 & C1 & P1) (E2 & C2 & P2).
  repeat split; congruence.
Qed.

Lemma now_run (w : World) :
  exists t w', now w = (Ok t, w') /\ same_session w w' /\ trace w' = trace w.
Proof.
  unfold now. destruct (time_time (ext w)) as [t x].
  eexists; eexists; split; [reflexivity|]. repeat split.
Qed.

Lemma sleep_run (d : float) (w : World) :
  exists w', sleep d w = (Ok tt, w') /\ same_session w w'
             /\ trace w' = (trace w ++ [EvSleep d])%list.
Proof. unfold sleep. eexists; split; [reflexivity|]. repeat split. Qed.

(** [print] changes nothing; it raises when the console cannot encode
    the text. *)
Lemma print_run (text : string) (w : World) :
  print text w =
    match console text with
    | None => (Ok tt, w)
    | Some msg => (Raise (UnicodeEncodeError msg), w)
    end.
Proof. unfold print. destruct (console text); reflexivity. Qed.

Lemma print_ascii (text : string) (w : World) :
  Py.isascii text = true -> print text w = (Ok tt, w).
Proof. intros H. rewrite print_run, (console_ascii text H). reflexivity. Qed.

End MonadFacts.

#[export] Hint Resolve same_session_refl same_session_trans : router.

(** ** Texts of ASCII characters *)

Lemma isascii_app (a b : string) :
  Py.isascii (a ++ b) = Py.isascii a && Py.isascii b.
Proof.
  induction a as [|c a IH]; cbn [append Py.isascii]; [reflexivity|].
  now rewrite IH, andb_assoc.
Qed.

Lemma isascii_string_of_uint (d : Decimal.uint) :
  Py.isascii (NilEmpty.string_of_uint d) = true.
Proof. induction d; cbn [NilEmpty.string_of_uint Py.isascii]; auto. Qed.

Lemma isascii_str_of_int (n : Z) : Py.isascii (Py.str_of_int n) = true.
Proof.
  unfold Py.str_of_int, NilZero.string_of_int, NilZero.string_of_uint.
  destruct (Z.to_int n) as [d|d]; destruct d;
    try reflexivity; cbn [Py.isascii]; try apply isascii_string_of_uint;
    rewrite isascii_string_of_uint; reflexivity.
Qed.

Lemma isascii_ascii_prefix (n : nat) (s : string) :
  Py.isascii s = true -> Py.isascii (Py.ascii_prefix n s) = true.
Proof.
  revert s. induction n as [|n IH]; intros [|c s]; cbn [Py.ascii_prefix Py.isascii];
    try reflexivity.
  rewrite !andb_true_iff. intros [C S]. split; [exact C|exact (IH s S)].
Qed.

Lemma isascii_map_chars (f : ascii -> ascii) (s : string) :
  (forall c, Py.is_ascii_char c = true -> Py.is_ascii_char (f c) = true) ->
  Py.isascii s = true -> Py.isascii (Py.map_chars f s) = true.
Proof.
  intros F. induction s as [|c s IH]; cbn [Py.map_chars Py.isascii]; [reflexivity|].
  rewrite !andb_true_iff. intros [C S]. split; [exact (F c C)|exact (IH S)].
Qed.

Lemma is_ascii_upper_char (c : ascii) :
  Py.is_ascii_char c = true -> Py.is_ascii_char (Py.upper_char c) = true.
Proof. destruct c as [[] [] [] [] [] [] [] []]; intros H; try reflexivity; discriminate H. Qed.

Lemma isascii_ascii_upper (s : string) :
  Py.isascii s = true -> Py.isascii (Py.ascii_upper s) = true.
Proof. apply isascii_map_chars, is_ascii_upper_char. Qed.

Lemma isascii_ascii_lstrip (s : string) :
  Py.isascii s = true -> Py.isascii (Py.ascii_lstrip s) = true.
Proof.
  induction s as [|c s IH]; cbn [Py.ascii_lstrip]; [reflexivity|].
  destruct (Py.is_space c); [|auto].
  cbn [Py.isascii]. rewrite andb_true_iff. intros [_ S]. exact (IH S).
Qed.

Lemma isascii_ascii_rstrip (s : string) :
  Py.isascii s = true -> Py.isascii (Py.ascii_rstrip s) = true.
Proof.
  induction s as [|c s IH]; cbn [Py.ascii_rstrip]; [reflexivity|].
  cbn [Py.isascii]. rewrite andb_true_iff. intros [C S]. specialize (IH S).
  destruct (Py.ascii_rstrip s) as [|c' r].
  - destruct (Py.is_space c); [reflexivity|]. cbn [Py.isascii]. now rewrite C.
  - change (Py.isascii (String c (String c' r))) with
      (Py.is_ascii_char c && Py.isascii (String c' r)).
    now rewrite C, IH.
Qed.

Lemma isascii_ascii_strip (s : string) :
  Py.isascii s = true -> Py.isascii (Py.ascii_strip s) = true.
Proof.
  intros H. unfold Py.ascii_strip.
  apply isascii_ascii_rstrip, isascii_ascii_lstrip, H.
Qed.

Section AsciiFacts.
Context `{P : Platform}.

(** The console prints the progress line of a query of ASCII
    characters. *)
Lemma progress_line_ascii (i n : Z) (ok : bool) (q : string) :
  Py.isascii q = true -> console (progress_line i n ok q) = None.
Proof.
  intros Q. apply console_ascii. unfold progress_line.
  rewrite (str_prefix_ascii 50 q Q).
  rewrite !isascii_app, !isascii_str_of_int, (isascii_ascii_prefix 50 q Q).
  destruct ok; reflexivity.
Qed.

(** The label made of an answer of ASCII characters. *)
Lemma strip_upper_ascii (text : string) :
  Py.isascii text = true ->
  str_upper (str_strip text) = Py.ascii_upper (Py.ascii_strip text).
Proof.
  intros T. rewrite (str_strip_ascii text T).
  apply str_upper_ascii, isascii_ascii_strip, T.
Qed.

End AsciiFacts.

(** ** The router *)

Section RouterFacts.
Context `{P : Platform}.

(** [route_query] before any client exists. *)
Lemma route_query_no_client (q : string) (m : option string) (w : World) :
  _client w = None ->
  route_query q m w =
    (Raise (RuntimeError "Client not initialized. Call initialize_client() first."), w).
Proof. intros H. unfold route_query. unfold_monad. rewrite H. reflexivity. Qed.

(** [route_query] with a client: at most one request; without one the
    handler prints an exception of the interpreter and returns
    ["ERROR"]. *)
Lemma route_query_client (q : string) (m : option string) (w : World) (c : Client) :
  _client w = Some c ->
  route_query q m w =
    match request_of c (_provider w) q m with
    | None => (Ok "ERROR", w)
    | Some req =>
        let (r, x) := remote_call req (ext w) in
        (routed r,
         mkWorld _ (environ w) (_client w) (_provider w) x (trace w ++ [EvRemote req])%list)
    end.
Proof.
  intros H.
  unfold route_query, request_of, chat_completions_create,
    models_generate_content, strip_upper, remote, routed, routing_error.
  unfold_monad. rewrite H.
  destruct (is_str (_provider w) "groq").
  - destruct c; [rewrite print_ascii by reflexivity; reflexivity|].
    destruct (remote_call _ (ext w)) as [[[s|]|e] x];
      cbv beta iota zeta; rewrite ?H; try reflexivity.
    + rewrite print_ascii by reflexivity. reflexivity.
    + rewrite print_run. destruct (console _); reflexivity.
  - destruct (is_str (_provider w) "google");
      [|rewrite print_ascii by reflexivity; reflexivity].
    destruct c; [|rewrite print_ascii by reflexivity; reflexivity].
    destruct (remote_call _ (ext w)) as [[[s|]|e] x];
      cbv beta iota zeta; rewrite ?H; try reflexivity.
    + rewrite print_ascii by reflexivity. reflexivity.
    + rewrite print_run. destruct (console _); reflexivity.
Qed.

(** With a client, [route_query] leaves the session as it was, and its
    log grows by at most the one request, whose outcome decides the
    result. *)
Lemma route_query_runs (q : string) (m : option string) (w : World) (c : Client) :
  _client w = Some c ->
  exists r w',
    route_query q m w = (r, w') /\ same_session w w'
    /\ ((trace w' = trace w /\ r = Ok "ERROR")
        \/ exists req, request_of c (_provider w) q m = Some req
                       /\ trace w' = (trace w ++ [EvRemote req])%list
                       /\ r = routed (fst (remote_call req (ext w)))).
Proof.
  intros H. rewrite (route_query_client q m w c H).
  destruct (request_of c (_provider w) q m) as [req|] eqn:R.
  - destruct (remote_call req (ext w)) as [r x] eqn:E.
    eexists; eexists; split; [reflexivity|]. split; [repeat split|].
    right. exists req. repeat split. now rewrite E.
  - eexists; eexists; split; [reflexivity|]. split; [repeat split|]. now left.
Qed.

(** In every state [route_query] keeps the session. *)
Lemma route_query_session (q : string) (m : option string) (w : World) :
  same_session w (snd (route_query q m w)).
Proof.
  destruct (_client w) as [c|] eqn:H.
  - destruct (route_query_runs q m w c H) as (r & w' & E & S & _).
    rewrite E. exact S.
  - rewrite (route_query_no_client q m w H). apply same_session_refl.
Qed.

(** What [route_query] can raise out of its handler: nothing when the
    console prints the exception. *)
Lemma routed_printed (a : Result Response) :
  (forall e, a = Raise e -> console (routing_error e) = None) ->
  exists label, routed a = Ok label.
Proof.
  intros H. destruct a as [[s|]|e]; cbn [routed]; try (eexists; reflexivity).
  rewrite (H e eq_refl). eexists; reflexivity.
Qed.

End RouterFacts.

(** ** Initialization *)

Section InitFacts.
Context `{P : Platform}.

Lemma client_for_none (env : Py.dict string) (p : string) :
  client_for env (Py.lower p) = None <->
  unknown_provider p \/ credential_absent env p.
Proof.
  unfold client_for, unknown_provider, credential_absent.
  destruct (String.eqb_spec (Py.lower p) "google") as [G|G].
  - destruct (credential env "GOOGLE_API_KEY"); cbn; split; intros H.
    + discriminate.
    + destruct H as [[H _]|[[_ H]|[H _]]]; congruence.
    + right; left; auto.
    + reflexivity.
  - destruct (String.eqb_spec (Py.lower p) "groq") as [Q|Q].
    + destruct (credential env "GROQ_API_KEY"); cbn; split; intros H.
      * discriminate.
      * destruct H as [[_ H]|[[H _]|[_ H]]]; congruence.
      * right; right; auto.
      * reflexivity.
    + split; auto.
Qed.

Lemma initialize_client_ok (p : string) (m : option string) (w : World) (c : Client) :
  client_for (environ w) (Py.lower p) = Some c ->
  initialize_client p m w =
    (Ok (match m with
         | None => Py.get DEFAULT_MODELS (Py.lower p)
         | Some m' => Some m'
         end),
     with_session w (Py.lower p) c).
Proof.
  unfold client_for, credential, initialize_client, with_session, is_str.
  unfold_monad. world_simpl.
  destruct (String.eqb (Py.lower p) "google"); world_simpl.
  - destruct (Py.get (environ w) "GOOGLE_API_KEY") as [k|]; [|discriminate].
    destruct (Py.truthy k); [|discriminate].
    intros [= <-]. destruct m; reflexivity.
  - destruct (String.eqb (Py.lower p) "groq"); world_simpl; [|discriminate].
    destruct (Py.get (environ w) "GROQ_API_KEY") as [k|]; [|discriminate].
    destruct (Py.truthy k); [|discriminate].
    intros [= <-]. destruct m; reflexivity.
Qed.

Lemma initialize_client_fail (p : string) (m : option string) (w : World) :
  client_for (environ w) (Py.lower p) = None ->
  exists msg,
    initialize_client p m w = (Raise (ValueError msg), with_provider w (Py.lower p)).
Proof.
  unfold client_for, credential, initialize_client, with_provider, is_str.
  unfold_monad. world_simpl.
  destruct (String.eqb (Py.lower p) "google"); world_simpl.
  - destruct (Py.get (environ w) "GOOGLE_API_KEY") as [k|].
    + destruct (Py.truthy k); [discriminate|]. intros _. eexists; reflexivity.
    + intros _. eexists; reflexivity.
  - destruct (String.eqb (Py.lower p) "groq"); world_simpl.
    + destruct (Py.get (environ w) "GROQ_API_KEY") as [k|].
      * destruct (Py.truthy k); [discriminate|]. intros _. eexists; reflexivity.
      * intros _. eexists; reflexivity.
    + intros _. eexists; reflexivity.
Qed.

(** The two outcomes of [initialize_client], read from its result. *)
Lemma initialize_client_inv (p : string) (m : option string) (w : World)
    (r : Result (option string)) (w' : World) :
  initialize_client p m w = (r, w') ->
  (exists c v, client_for (environ w) (Py.lower p) = Some c
               /\ r = Ok v /\ w' = with_session w (Py.lower p) c)
  \/ (exists msg, client_for (environ w) (Py.lower p) = None
                  /\ r = Raise (ValueError msg) /\ w' = with_provider w (Py.lower p)).
Proof.
  intros H. destruct (client_for (environ w) (Py.lower p)) as [c|] eqn:C.
  - rewrite (initialize_client_ok p m w c C) in H. inversion H; subst.
    left. eexists; eexists; repeat split.
  - destruct (initialize_client_fail p m w C) as [msg E].
    rewrite E in H. inversion H; subst.
    right. exists msg. repeat split.
Qed.

(** A client that belongs to the provider name is sent one request per
    query. *)
Lemma client_for_request (env : Py.dict string) (lp : string) (c : Client)
    (q : string) (m : option string) :
  client_for env lp = Some c ->
  exists req, request_of c (Some lp) q m = Some req.
Proof.
  unfold client_for, request_of, is_str.
  destruct (String.eqb_spec lp "google") as [G|G].
  - subst lp. destruct (credential env "GOOGLE_API_KEY"); [|discriminate].
    intros [= <-]. eexists; reflexivity.
  - destruct (String.eqb lp "groq"); [|discriminate].
    destruct (credential env "GROQ_API_KEY"); [|discriminate].
    intros [= <-]. eexists; reflexivity.
Qed.

End InitFacts.

(** ** Sessions and their history *)

Section SessionFacts.
Context `{P : Platform}.

(** The client exists exactly when an initialization has succeeded. *)
Lemma history_client (w : World) (b : bool) :
  history w b -> (_client w = None <-> b = false).
Proof.
  induction 1 as [env x|w b p m v w' H IH E|w b p m e w' H IH E
                 |w b q m r w' H IH E|w b w' H IH S].
  - split; reflexivity.
  - destruct (initialize_client_inv p m w _ _ E)
      as [(c & v' & _ & _ & ->)|(msg & _ & R & _)]; [|discriminate].
    split; discriminate.
  - destruct (initialize_client_inv p m w _ _ E)
      as [(c & v' & _ & R & _)|(msg & _ & _ & ->)]; [discriminate|].
    exact IH.
  - pose proof (route_query_session q m w) as (_ & C & _).
    rewrite E in C. cbn [snd] in C. rewrite C. exact IH.
  - destruct S as (_ & C & _). rewrite C. exact IH.
Qed.

End SessionFacts.

(** ** Claims about the router *)

Section RouterClaims.
Context `{P : Platform}.

Lemma trace_grows_by_one (t : list Event) (a b : Event) :
  (t ++ [a] = t ++ [b])%list -> a = b.
Proof. intros H. apply app_inv_head in H. congruence. Qed.

Lemma trace_does_not_grow (t : list Event) (a : Event) :
  t <> (t ++ [a])%list.
Proof.
  intros H. apply (f_equal (@List.length Event)) in H.
  rewrite length_app in H. cbn in H. lia.
Qed.

(** The result of a call of [route_query] that sent the request [req]. *)
Lemma route_query_sent (w : World) (q : string) (m : option string)
    (r : Result string) (w' : World) (req : Request) :
  route_query q m w = (r, w') ->
  trace w' = (trace w ++ [EvRemote req])%list ->
  r = routed (fst (remote_call req (ext w))).
Proof.
  intros R T. destruct (_client w) as [c|] eqn:C.
  - rewrite (route_query_client q m w c C) in R.
    destruct (request_of c (_provider w) q m) as [req0|].
    + destruct (remote_call req0 (ext w)) as [r0 x0] eqn:E0.
      inversion R; subst r w'. cbn [trace] in T.
      apply trace_grows_by_one in T. injection T as ->.
      now rewrite E0.
    + inversion R; subst r w'. exfalso. exact (trace_does_not_grow _ _ T).
  - rewrite (route_query_no_client q m w C) in R.
    inversion R; subst r w'. exfalso. exact (trace_does_not_grow _ _ T).
Qed.

(** C3. In an initialized session, when the request that [route_query]
    sends fails, the handler prints the exception and [route_query]
    returns ["ERROR"]; but when the console cannot encode the text to
    print, the [UnicodeEncodeError] of that print leaves [route_query]
    and reaches the caller. *)
Theorem route_query_remote_failure (w : World) (c : Client) (q : string)
    (m : option string) (r : Result string) (w' : World) (req : Request)
    (e : exn) (x : Ext) :
  _client w = Some c ->
  route_query q m w = (r, w') ->
  trace w' = (trace w ++ [EvRemote req])%list ->
  remote_call req (ext w) = (Raise e, x) ->
  match console ("Error during routing: " ++ exn_str e) with
  | None => r = Ok "ERROR"
  | Some msg => r = Raise (UnicodeEncodeError msg)
  end.
Proof.
  intros _ R T F. rewrite (route_query_sent w q m r w' req R T), F.
  cbn [fst routed]. unfold routing_error.
  destruct (console _); reflexivity.
Qed.

(** C8. When the request that [route_query] sends is answered with a
    text, [route_query] returns [text.strip().upper()], whatever the
    text is; in particular the empty text is returned as the empty
    string. *)
Theorem route_query_returns_normalized_text (w : World) (q : string)
    (m : option string) (r : Result string) (w' : World) (req : Request)
    (text : string) (x : Ext) :
  route_query q m w = (r, w') ->
  trace w' = (trace w ++ [EvRemote req])%list ->
  remote_call req (ext w) = (Ok (Some text), x) ->
  r = Ok (str_upper (str_strip text)) /\ (text = "" -> r = Ok "").
Proof.
  intros R T F.
  assert (r = Ok (str_upper (str_strip text))) as ->.
  { rewrite (route_query_sent w q m r w' req R T), F. reflexivity. }
  split; [reflexivity|]. intros ->.
  rewrite (strip_upper_ascii "" eq_refl). reflexivity.
Qed.

(** C7. Along every history of router calls, [route_query] raises the
    "not initialized" [RuntimeError], and changes nothing, exactly when
    no [initialize_client] has succeeded before. After one has, it
    returns a label, with one exception: when its request fails and the
    console cannot encode the text that the handler prints, the
    [UnicodeEncodeError] of that print is raised to the caller. *)
Theorem route_query_raises_iff_uninitialized (w : World) (initialized : bool)
    (q : string) (m : option string) :
  history w initialized ->
  (initialized = false /\ _client w = None
   /\ route_query q m w =
        (Raise (RuntimeError "Client not initialized. Call initialize_client() first."), w))
  \/ (initialized = true /\ _client w <> None
      /\ ((exists label w', route_query q m w = (Ok label, w'))
          \/ (exists req e x msg w',
                remote_call req (ext w) = (Raise e, x)
                /\ console ("Error during routing: " ++ exn_str e) = Some msg
                /\ trace w' = (trace w ++ [EvRemote req])%list
                /\ route_query q m w = (Raise (UnicodeEncodeError msg), w')))).
Proof.
  intros H. pose proof (history_client w initialized H) as [H1 H2].
  destruct initialized.
  - right. split; [reflexivity|].
    destruct (_client w) as [c|] eqn:C; [|discriminate (H1 eq_refl)].
    split; [discriminate|].
    destruct (route_query_runs q m w c C)
      as (r & w' & E & _ & [(_ & ->)|(req & _ & T & ->)]).
    + left. exists "ERROR", w'. exact E.
    + destruct (remote_call req (ext w)) as [[[s|]|e] x] eqn:F;
        cbn [fst routed] in E.
      * left. eexists; eexists; exact E.
      * left. eexists; eexists; exact E.
      * unfold routing_error in E.
        destruct (console ("Error during routing: " ++ exn_str e)) as [msg|] eqn:K.
        -- right. exists req, e, x, msg, w'. repeat split; assumption.
        -- left. eexists; eexists; exact E.
  - left. split; [reflexivity|]. split; [auto|].
    apply route_query_no_client. auto.
Qed.

(** C10. When the provider name is unknown, or known but without its
    credential, [initialize_client] raises a [ValueError]; the global
    provider name is by then the lowercased requested name and the
    client is the one held before. If a client was held, it is not the
    client of the provider now named. *)
Theorem initialize_client_failure_not_atomic (w : World) (p : string)
    (m : option string) :
  unknown_provider p \/ credential_absent (environ w) p ->
  exists msg w',
    initialize_client p m w = (Raise (ValueError msg), w')
    /\ _provider w' = Some (Py.lower p)
    /\ _client w' = _client w
    /\ (forall c, _client w = Some c ->
                  client_for (environ w') (Py.lower p) <> _client w').
Proof.
  intros H. apply client_for_none in H.
  destruct (initialize_client_fail p m w H) as [msg E].
  exists msg, (with_provider w (Py.lower p)).
  split; [exact E|]. repeat split.
  intros c C. cbn [with_provider environ _client]. rewrite H, C. discriminate.
Qed.

End RouterClaims.

(** ** The evaluation loop *)

Lemma count_correct_app (ds1 ds2 : list PredictionDetail) :
  count_correct (ds1 ++ ds2) = count_correct ds1 + count_correct ds2.
Proof.
  unfold count_correct, Py.len. rewrite filter_app, length_app. lia.
Qed.

Lemma count_incorrect_app (ds1 ds2 : list PredictionDetail) :
  count_incorrect (ds1 ++ ds2) = count_incorrect ds1 + count_incorrect ds2.
Proof.
  unfold count_incorrect, Py.len. rewrite filter_app, length_app. lia.
Qed.

Lemma count_errors_app (ds1 ds2 : list PredictionDetail) :
  count_errors (ds1 ++ ds2) = count_errors ds1 + count_errors ds2.
Proof.
  unfold count_errors, Py.len. rewrite filter_app, length_app. lia.
Qed.

Section LoopFacts.
Context `{P : Platform}.

Lemma serving_same_session (w w' : World) (c : Client) :
  same_session w w' -> serving w c -> serving w' c.
Proof.
  intros (_ & C & Pr) (H1 & H2). split; [congruence|]. now rewrite Pr.
Qed.

Lemma initialize_client_serving (p : string) (m v : option string) (w w1 : World) :
  initialize_client p m w = (Ok v, w1) ->
  exists c, serving w1 c /\ trace w1 = trace w /\ ext w1 = ext w.
Proof.
  intros I.
  destruct (initialize_client_inv p m w _ _ I)
    as [(c & v' & C & _ & ->)|(msg & _ & R & _)]; [|discriminate].
  exists c. split; [|split; reflexivity].
  split; [reflexivity|]. intros q. cbn [with_session _provider].
  exact (client_for_request _ _ c q None C).
Qed.

(** The handler of the loop: one more error, one more detail, nothing
    raised. *)
Lemma except_block_run (start : float) (tc : TestCase) (res : EvaluationResult)
    (lats : list float) (err : exn) (w : World) :
  exists lat w',
    except_block start tc (res, lats) err w =
      (Ok (append_detail (set_errors res (errors res + 1))
             (error_detail tc lat (exn_str err)), lats), w')
    /\ same_session w w' /\ trace w' = trace w.
Proof.
  unfold except_block. unfold_monad.
  destruct (now_run w) as (t & w' & -> & S & T).
  eexists; exists w'. split; [reflexivity|]. split; assumption.
Qed.

(** One test case in a serving session: an optional sleep, one request,
    and the details of [case_details], each adding one to its
    counter. *)
Lemma evaluate_case_serving (rl : Z) (d : float) (n i : Z) (tc : TestCase)
    (res : EvaluationResult) (lats : list float) (w : World) (c : Client) :
  serving w c ->
  exists req x lat lat' res' lats' w',
    request_of c (_provider w) (query tc) None = Some req
    /\ evaluate_case rl d n i tc (res, lats) w = (Ok (res', lats'), w')
    /\ same_session w w'
    /\ trace w' =
         (trace w ++ (if (i >? 0) && (rl <? 10) then [EvSleep d] else [])
            ++ [EvRemote req])%list
    /\ (total res' = total res /\ model res' = model res
        /\ provider res' = provider res)
    /\ correct res' =
         correct res + count_correct (case_details n i tc (fst (remote_call req x)) lat lat')
    /\ incorrect res' =
         incorrect res
         + count_incorrect (case_details n i tc (fst (remote_call req x)) lat lat')
    /\ errors res' =
         errors res + count_errors (case_details n i tc (fst (remote_call req x)) lat lat')
    /\ details res' =
         (details res ++ case_details n i tc (fst (remote_call req x)) lat lat')%list.
Proof.
  intros (C & R). destruct (R (query tc)) as [req Rq]. exists req.
  unfold evaluate_case. unfold_monad.
  assert (exists w1, (if (i >? 0) && (rl <? 10) then sleep d else fun w0 => (Ok tt, w0)) w
                     = (Ok tt, w1) /\ same_session w w1
                     /\ trace w1 = (trace w ++ (if (i >? 0) && (rl <? 10)
                                                then [EvSleep d] else []))%list)
    as (w1 & -> & S1 & T1).
  { destruct ((i >? 0) && (rl <? 10)).
    - destruct (sleep_run d w) as (w1 & E & S & T). exists w1; auto.
    - exists w; split; [reflexivity|]. split; [apply same_session_refl|].
      now rewrite app_nil_r. }
  destruct (now_run w1) as (t0 & w2 & -> & S2 & T2).
  pose proof (same_session_trans _ _ _ S1 S2) as S12.
  pose proof S12 as (_ & C2 & P2).
  rewrite (route_query_client (query tc) None w2 c) by congruence.
  replace (request_of c (_provider w2) (query tc) None) with (Some req)
    by (now rewrite P2).
  exists (ext w2). destruct (remote_call req (ext w2)) as [a x3]. cbn [fst].
  assert (forall w4 : World,
            same_session {| environ := environ w2; _client := _client w2;
                            _provider := _provider w2; ext := x3;
                            trace := (trace w2 ++ [EvRemote req])%list |} w4 ->
            same_session w w4) as Back.
  { intros w4 S4. apply (same_session_trans _ _ _ S12).
    destruct S4 as (E4 & C4 & P4). cbn [environ _client _provider] in E4, C4, P4.
    repeat split; assumption. }
  assert (forall t : list Event,
            t = (trace w2 ++ [EvRemote req])%list ->
            t = (trace w ++ (if (i >? 0) && (rl <? 10) then [EvSleep d] else [])
                   ++ [EvRemote req])%list) as Log.
  { intros t ->. rewrite T2, T1, app_assoc. reflexivity. }
  unfold case_details.
  destruct (routed a) as [p|err]; cbv beta iota zeta.
  - match goal with
    | |- context [now ?w3] => destruct (now_run w3) as (t1 & w4 & -> & S4 & T4)
    end.
    rewrite print_run.
    destruct (console (progress_line i n (String.eqb p (expected tc)) (query tc)))
      as [msg|].
    + match goal with
      | |- context [except_block t0 tc (?r1, ?l1) ?e w4] =>
          destruct (except_block_run t0 tc r1 l1 e w4) as (lat' & w5 & -> & S5 & T5)
      end.
      eexists; exists lat'; eexists; eexists; exists w5.
      split; [exact Rq|]. split; [reflexivity|].
      split; [exact (Back w5 (same_session_trans _ _ _ S4 S5))|].
      split; [apply Log; rewrite T5, T4; reflexivity|].
      unfold count_correct, count_incorrect, count_errors, Py.len.
      unfold scored_detail, error_detail, is_error.
      destruct (String.eqb p (expected tc)); cbn; repeat split; try lia;
        rewrite <- app_assoc; reflexivity.
    + eexists; exists 0%float; eexists; eexists; exists w4.
      split; [exact Rq|]. split; [reflexivity|].
      split; [exact (Back w4 S4)|].
      split; [apply Log; rewrite T4; reflexivity|].
      unfold count_correct, count_incorrect, count_errors, Py.len.
      unfold scored_detail, error_detail, is_error.
      destruct (String.eqb p (expected tc)); cbn; repeat split; lia.
  - match goal with
    | |- context [except_block t0 tc (?r1, ?l1) ?e ?w3] =>
        destruct (except_block_run t0 tc r1 l1 e w3) as (lat & w4 & -> & S4 & T4)
    end.
    exists lat, 0%float; eexists; eexists; exists w4.
    split; [exact Rq|]. split; [reflexivity|].
    split; [exact (Back w4 S4)|].
    split; [apply Log; rewrite T4; reflexivity|].
    unfold count_correct, count_incorrect, count_errors, Py.len.
    cbn. repeat split; lia.
Qed.

(** The loop in a serving session: its log, and its details, each
    counted once. *)
Lemma evaluate_loop_serving (rl : Z) (d : float) (n : Z) (tcs : list TestCase)
    (c : Client) :
  forall (i : Z) (res : EvaluationResult) (lats : list float) (w : World),
  serving w c ->
  exists res' lats' w' reqs ds,
    evaluate_loop rl d n i tcs (res, lats) w = (Ok (res', lats'), w')
    /\ same_session w w'
    /\ Forall2 (fun tc req => request_of c (_provider w) (query tc) None = Some req)
         tcs reqs
    /\ trace w' = (trace w ++ loop_trace (rl <? 10) d i reqs)%list
    /\ (total res' = total res /\ model res' = model res
        /\ provider res' = provider res)
    /\ correct res' = correct res + count_correct ds
    /\ incorrect res' = incorrect res + count_incorrect ds
    /\ errors res' = errors res + count_errors ds
    /\ details res' = (details res ++ ds)%list
    /\ loop_details c (_provider w) n i tcs ds.
Proof.
  induction tcs as [|tc tcs IH]; intros i res lats w Sv.
  - exists res, lats, w, [], []. cbn. rewrite !app_nil_r.
    repeat split; try lia. constructor.
  - cbn [evaluate_loop]. unfold bind.
    destruct (evaluate_case_serving rl d n i tc res lats w c Sv)
      as (req & x & lat & lat' & res1 & lats1 & w1 & Rq & -> & S1 & T1
          & (F1 & F2 & F3) & C1 & I1 & E1 & D1).
    destruct (IH (i + 1) res1 lats1 w1 (serving_same_session _ _ _ S1 Sv))
      as (res2 & lats2 & w2 & reqs & ds & -> & S2 & F & T2
          & (G1 & G2 & G3) & C2 & I2 & E2 & D2 & LD).
    destruct S1 as (S1e & S1c & S1p).
    exists res2, lats2, w2, (req :: reqs),
      (case_details n i tc (fst (remote_call req x)) lat lat' ++ ds)%list.
    split; [reflexivity|].
    split; [apply (same_session_trans _ w1); [repeat split; assumption|exact S2]|].
    split; [constructor; [exact Rq|now rewrite <- S1p]|].
    split; [rewrite T2, T1; cbn [loop_trace]; rewrite <- !app_assoc; reflexivity|].
    split; [repeat split; congruence|].
    rewrite count_correct_app, count_incorrect_app, count_errors_app.
    split; [lia|]. split; [lia|]. split; [lia|].
    split; [rewrite D2, D1, <- app_assoc; reflexivity|].
    cbn [loop_details]. exists req, x, lat, lat', ds.
    split; [exact Rq|]. split; [reflexivity|]. now rewrite <- S1p.
Qed.

End LoopFacts.

(** ** The details of a loop *)

Lemma len_app (A : Type) (l1 l2 : list A) : Py.len (l1 ++ l2) = Py.len l1 + Py.len l2.
Proof. unfold Py.len. rewrite length_app. lia. Qed.

Lemma len_cons (A : Type) (a : A) (l : list A) : Py.len (a :: l) = 1 + Py.len l.
Proof. unfold Py.len. cbn [List.length]. lia. Qed.

Lemma len_nonneg (A : Type) (l : list A) : 0 <= Py.len l.
Proof. unfold Py.len. lia. Qed.

Section DetailFacts.
Context `{P : Platform}.

(** The three shapes of the details of one case. *)
Lemma case_details_cases (n i : Z) (tc : TestCase) (a : Result Response)
    (lat lat' : float) :
  (exists err, routed a = Raise err
               /\ case_details n i tc a lat lat' = [error_detail tc lat (exn_str err)])
  \/ (exists p, routed a = Ok p
                /\ console (progress_line i n (String.eqb p (expected tc)) (query tc))
                   = None
                /\ case_details n i tc a lat lat' = [scored_detail tc p lat])
  \/ (exists p msg,
        routed a = Ok p
        /\ console (progress_line i n (String.eqb p (expected tc)) (query tc))
           = Some msg
        /\ case_details n i tc a lat lat'
           = [scored_detail tc p lat; error_detail tc lat' msg]).
Proof.
  unfold case_details. destruct (routed a) as [p|err].
  - destruct (console _) as [msg|] eqn:K.
    + right; right. exists p, msg. repeat split. exact K.
    + right; left. exists p. repeat split. exact K.
  - left. exists err. split; reflexivity.
Qed.

Lemma count_scored_detail (tc : TestCase) (p : string) (lat : float) :
  count_correct [scored_detail tc p lat] + count_incorrect [scored_detail tc p lat] = 1
  /\ count_errors [scored_detail tc p lat] = 0
  /\ count_correct [scored_detail tc p lat]
     = if String.eqb p (expected tc) then 1 else 0.
Proof.
  unfold count_correct, count_incorrect, count_errors, Py.len, scored_detail, is_error.
  cbn [filter d_correct d_error]. destruct (String.eqb p (expected tc)); cbn; auto.
Qed.

Lemma count_error_detail (tc : TestCase) (lat : float) (msg : string) :
  count_correct [error_detail tc lat msg] = 0
  /\ count_incorrect [error_detail tc lat msg] = 0
  /\ count_errors [error_detail tc lat msg] = 1.
Proof. repeat split. Qed.

(** The details of one case: one or two, each counted by exactly one
    counter; at most one is scored and at most one is an error. *)
Lemma case_details_counts (n i : Z) (tc : TestCase) (a : Result Response)
    (lat lat' : float) :
  count_correct (case_details n i tc a lat lat')
  + count_incorrect (case_details n i tc a lat lat')
  + count_errors (case_details n i tc a lat lat')
  = Py.len (case_details n i tc a lat lat')
  /\ 1 <= Py.len (case_details n i tc a lat lat') <= 2
  /\ count_correct (case_details n i tc a lat lat')
     + count_incorrect (case_details n i tc a lat lat') <= 1
  /\ count_errors (case_details n i tc a lat lat') <= 1
  /\ 1 <= count_correct (case_details n i tc a lat lat')
          + count_incorrect (case_details n i tc a lat lat')
          + count_errors (case_details n i tc a lat lat').
Proof.
  destruct (case_details_cases n i tc a lat lat')
    as [(err & _ & ->)|[(p & _ & _ & ->)|(p & msg & _ & _ & ->)]].
  - destruct (count_error_detail tc lat (exn_str err)) as (-> & -> & ->).
    cbn. lia.
  - destruct (count_scored_detail tc p lat) as (S & -> & _).
    change (Py.len [scored_detail tc p lat]) with 1. lia.
  - change [scored_detail tc p lat; error_detail tc lat' msg]
      with ([scored_detail tc p lat] ++ [error_detail tc lat' msg])%list.
    rewrite count_correct_app, count_incorrect_app, count_errors_app, len_app.
    destruct (count_scored_detail tc p lat) as (S & -> & _).
    destruct (count_error_detail tc lat' msg) as (-> & -> & ->).
    change (Py.len [scored_detail tc p lat]) with 1.
    change (Py.len [error_detail tc lat' msg]) with 1. lia.
Qed.

Lemma case_details_corpus (n i : Z) (tc : TestCase) (a : Result Response)
    (lat lat' : float) :
  Forall (fun dt => d_query dt = query tc /\ d_expected dt = expected tc)
    (case_details n i tc a lat lat').
Proof.
  destruct (case_details_cases n i tc a lat lat')
    as [(err & _ & ->)|[(p & _ & _ & ->)|(p & msg & _ & _ & ->)]];
    repeat constructor.
Qed.

(** The verdicts do not depend on the latencies. *)
Lemma case_details_verdicts (n i : Z) (tc : TestCase) (a : Result Response)
    (lat lat' : float) :
  map verdict (case_details n i tc a lat lat')
  = map verdict (case_details n i tc a 0 0).
Proof.
  unfold case_details. destruct (routed a) as [p|err]; [|reflexivity].
  destruct (console _); reflexivity.
Qed.

(** The details of a loop: between one and two per case, each counted
    by exactly one counter. *)
Lemma loop_details_counts (c : Client) (prov : option string) (n : Z)
    (tcs : list TestCase) :
  forall (i : Z) (ds : list PredictionDetail),
  loop_details c prov n i tcs ds ->
  count_correct ds + count_incorrect ds + count_errors ds = Py.len ds
  /\ Py.len tcs <= Py.len ds <= 2 * Py.len tcs
  /\ count_correct ds + count_incorrect ds <= Py.len tcs
  /\ count_errors ds <= Py.len tcs
  /\ Py.len tcs <= count_correct ds + count_incorrect ds + count_errors ds
  /\ Forall (fun dt => In (d_query dt, d_expected dt)
                         (map (fun tc => (query tc, expected tc)) tcs)) ds.
Proof.
  induction tcs as [|tc tcs IH]; intros i ds; cbn [loop_details].
  - intros ->. cbn. repeat split; try lia. constructor.
  - intros (req & x & lat & lat' & ds' & _ & -> & L).
    destruct (IH _ _ L) as (H1 & H2 & H3 & H4 & H5 & H6).
    destruct (case_details_counts n i tc (fst (remote_call req x)) lat lat')
      as (K1 & K2 & K3 & K4 & K5).
    rewrite count_correct_app, count_incorrect_app, count_errors_app, len_app, len_cons.
    repeat split; try lia.
    apply Forall_app. split.
    + pose proof (case_details_corpus n i tc (fst (remote_call req x)) lat lat') as Q.
      revert Q. apply Forall_impl. intros dt (-> & ->). now left.
    + revert H6. apply Forall_impl. intros dt I. now right.
Qed.

(** When the console prints the progress lines, the details follow the
    corpus, one per case. *)
Lemma loop_details_printed (c : Client) (prov : option string) (n : Z)
    (tcs : list TestCase) :
  (forall i ok tc, In tc tcs -> console (progress_line i n ok (query tc)) = None) ->
  forall (i : Z) (ds : list PredictionDetail),
  loop_details c prov n i tcs ds ->
  map d_query ds = map query tcs /\ map d_expected ds = map expected tcs
  /\ List.length ds = List.length tcs.
Proof.
  induction tcs as [|tc tcs IH]; intros Pr i ds; cbn [loop_details].
  - intros ->. repeat split.
  - intros (req & x & lat & lat' & ds' & _ & -> & L).
    destruct (IH (fun i ok tc' I => Pr i ok tc' (or_intror I)) _ _ L) as (H1 & H2 & H3).
    destruct (case_details_cases n i tc (fst (remote_call req x)) lat lat')
      as [(err & _ & ->)|[(p & _ & _ & ->)|(p & msg & _ & K & _)]].
    + cbn. rewrite H1, H2, H3. repeat split.
    + cbn. rewrite H1, H2, H3. repeat split.
    + rewrite (Pr i _ tc (or_introl eq_refl)) in K. discriminate K.
Qed.

(** The verdicts of a loop when answers depend on the request only. *)
Lemma loop_details_verdicts (c : Client) (prov : option string) (n : Z) (x0 : Ext)
    (tcs : list TestCase) :
  answers_by_request ->
  forall (i : Z) (ds : list PredictionDetail),
  loop_details c prov n i tcs ds ->
  map verdict ds = loop_verdicts c prov x0 n i tcs.
Proof.
  intros A. induction tcs as [|tc tcs IH]; intros i ds; cbn [loop_details loop_verdicts].
  - intros ->. reflexivity.
  - intros (req & x & lat & lat' & ds' & -> & -> & L).
    rewrite map_app, (IH _ _ L), case_details_verdicts, (A req x x0). reflexivity.
Qed.

(** The counters are decided by the verdicts. *)
Lemma counts_by_verdict (ds ds' : list PredictionDetail) :
  map verdict ds = map verdict ds' ->
  count_correct ds = count_correct ds'
  /\ count_incorrect ds = count_incorrect ds'
  /\ count_errors ds = count_errors ds'
  /\ map predicted ds = map predicted ds'.
Proof.
  revert ds'. induction ds as [|dt ds IH]; intros [|dt' ds'] H; try discriminate.
  - repeat split.
  - cbn [map] in H. injection H as V1 V2 V3 H. destruct (IH ds' H) as (IH1 & IH2 & IH3 & IH4).
    unfold count_correct, count_incorrect, count_errors, Py.len in *.
    cbn [filter map]. rewrite V1, V2, V3, IH4.
    destruct (d_correct dt'), (is_error dt'); cbn [negb andb List.length];
      repeat split; lia.
Qed.

(** The details of a loop whose every request raises, when the console
    prints the progress lines: the prediction is always ["ERROR"] and
    nothing is correct; a case is incorrect when the console printed the
    exception of its request, and an error when it did not. *)
Lemma loop_details_always_raises (c : Client) (prov : option string) (n : Z)
    (tcs : list TestCase) :
  always_raises ->
  Forall (fun tc => expected tc <> "ERROR") tcs ->
  (forall i ok tc, In tc tcs -> console (progress_line i n ok (query tc)) = None) ->
  forall (i : Z) (ds : list PredictionDetail),
  loop_details c prov n i tcs ds ->
  Forall (fun dt => predicted dt = "ERROR") ds
  /\ count_correct ds = 0
  /\ count_incorrect ds + count_errors ds = Py.len tcs
  /\ ((forall req x e x',
          remote_call req x = (Raise e, x') -> console (routing_error e) = None) ->
      count_incorrect ds = Py.len tcs /\ count_errors ds = 0)
  /\ ((forall req x e x',
          remote_call req x = (Raise e, x') -> console (routing_error e) <> None) ->
      count_incorrect ds = 0 /\ count_errors ds = Py.len tcs).
Proof.
  intros A. induction tcs as [|tc tcs IH]; intros E Pr i ds; cbn [loop_details].
  - intros ->. repeat split. constructor.
  - inversion E as [|tc' tcs' Etc Etcs]; subst.
    intros (req & x & lat & lat' & ds' & _ & -> & L).
    destruct (IH Etcs (fun i ok tc' I => Pr i ok tc' (or_intror I)) _ _ L)
      as (H1 & H2 & H3 & H4 & H5).
    destruct (A req x) as (e & x' & F).
    assert (String.eqb "ERROR" (expected tc) = false) as NE.
    { apply String.eqb_neq. congruence. }
    rewrite count_correct_app, count_incorrect_app, count_errors_app, len_cons.
    destruct (case_details_cases n i tc (fst (remote_call req x)) lat lat')
      as [(err & R & ->)|[(p & R & K & ->)|(p & msg & R & K & _)]];
      rewrite F in R; cbn [fst routed] in R;
      destruct (console (routing_error e)) as [m0|] eqn:Ke; try discriminate R;
      try (injection R as <-).
    + destruct (count_error_detail tc lat (exn_str (UnicodeEncodeError m0)))
        as (-> & -> & ->).
      split; [constructor; [reflexivity|exact H1]|]. split; [lia|]. split; [lia|].
      split.
      * intros Pa. rewrite (Pa req x e x' F) in Ke. discriminate Ke.
      * intros Rj. destruct (H5 Rj) as (-> & ->). split; lia.
    + destruct (count_scored_detail tc "ERROR" lat) as (S1 & S2 & S3).
      rewrite NE in S3.
      split; [constructor; [reflexivity|exact H1]|]. split; [lia|]. split; [lia|].
      split.
      * intros Pa. destruct (H4 Pa) as (-> & ->). split; lia.
      * intros Rj. exfalso. exact (Rj req x e x' F Ke).
    + rewrite (Pr i _ tc (or_introl eq_refl)) in K. discriminate K.
Qed.

End DetailFacts.

(** ** The log of a loop *)

Lemma loop_trace_fast (d : float) (reqs : list Request) :
  forall i, loop_trace false d i reqs = map EvRemote reqs.
Proof.
  induction reqs as [|r rest IH]; intros i; cbn [loop_trace map].
  - reflexivity.
  - rewrite andb_false_r, IH. reflexivity.
Qed.

Lemma loop_trace_slow_later (d : float) (reqs : list Request) :
  forall i, 0 < i ->
  loop_trace true d i reqs = flat_map (fun r' => [EvSleep d; EvRemote r']) reqs.
Proof.
  induction reqs as [|r rest IH]; intros i Hi; cbn [loop_trace flat_map].
  - reflexivity.
  - rewrite andb_true_r. destruct (Z.gtb_spec i 0) as [_|N]; [|lia].
    rewrite IH by lia. reflexivity.
Qed.

Lemma loop_trace_from_start (slow : bool) (d : float) (reqs : list Request) :
  loop_trace slow d 0 reqs = if slow then with_delays d reqs else map EvRemote reqs.
Proof.
  destruct slow; [|apply loop_trace_fast].
  destruct reqs as [|r rest]; [reflexivity|].
  cbn [loop_trace with_delays]. rewrite loop_trace_slow_later by lia. reflexivity.
Qed.

(** ** Claims about [evaluate_provider] *)

Section EvaluateClaims.
Context `{P : Platform}.

(** The run of [evaluate_provider] when the initialization raises. *)
Lemma evaluate_provider_init_raises (p : string) (tcs : list TestCase)
    (w : World) (e : exn) (w1 : World) :
  initialize_client p None w = (Raise e, w1) ->
  evaluate_provider p tcs w = (Ok (set_errors (new_results p tcs) (Py.len tcs)), w1).
Proof.
  intros H. unfold evaluate_provider. unfold_monad. rewrite H. reflexivity.
Qed.

(** The run of [evaluate_provider] when the initialization succeeds. *)
Lemma evaluate_provider_init_returns (p : string) (tcs : list TestCase)
    (w : World) (v : option string) (w1 : World) (st : Locals) (w2 : World) :
  initialize_client p None w = (Ok v, w1) ->
  evaluate_loop (rate_limit_of p) (delay_seconds (rate_limit_of p)) (Py.len tcs) 0 tcs
    (new_results p tcs, []) w1 = (Ok st, w2) ->
  evaluate_provider p tcs w = (Ok (finish st), w2).
Proof.
  intros H L. unfold evaluate_provider. unfold_monad. rewrite H.
  world_simpl. cbn [negb]. rewrite L. reflexivity.
Qed.

Lemma finish_counters (res : EvaluationResult) (lats : list float) :
  let r := finish (res, lats) in
  total r = total res /\ correct r = correct res
  /\ incorrect r = incorrect res /\ errors r = errors res
  /\ details r = details res
  /\ accuracy r = accuracy_of (correct res) (total res)
  /\ provider r = provider res /\ model r = model res.
Proof. unfold finish. destruct lats; cbn; repeat split. Qed.

Lemma accuracy_of_none_correct (t : Z) : accuracy_of 0 t = 0%float.
Proof. destruct t; reflexivity. Qed.

(** What a successful initialization is followed by. *)
Lemma evaluate_provider_serving_run (w : World) (p : string) (tcs : list TestCase)
    (v : option string) (w1 : World) :
  initialize_client p None w = (Ok v, w1) ->
  exists c r w' reqs ds,
    serving w1 c
    /\ evaluate_provider p tcs w = (Ok r, w')
    /\ same_session w1 w'
    /\ Forall2 (fun tc req => request_of c (_provider w1) (query tc) None = Some req)
         tcs reqs
    /\ trace w' =
         (trace w ++
            if rate_limit_of p <? 10
            then with_delays (delay_seconds (rate_limit_of p)) reqs
            else map EvRemote reqs)%list
    /\ total r = Py.len tcs
    /\ (correct r = count_correct ds /\ incorrect r = count_incorrect ds
        /\ errors r = count_errors ds)
    /\ details r = ds
    /\ (provider r = p /\ model r = Py.get DEFAULT_MODELS p)
    /\ accuracy r = accuracy_of (correct r) (total r)
    /\ loop_details c (_provider w1) (Py.len tcs) 0 tcs ds.
Proof.
  intros I.
  destruct (initialize_client_serving p None v w w1 I) as (c & Sv & T1 & _).
  destruct (evaluate_loop_serving (rate_limit_of p) (delay_seconds (rate_limit_of p))
              (Py.len tcs) tcs c 0 (new_results p tcs) [] w1 Sv)
    as (res & lats & w2 & reqs & ds & L & S & F & T2 & (G1 & G2 & G3)
        & C & N & E & D & LD).
  exists c, (finish (res, lats)), w2, reqs, ds.
  split; [exact Sv|].
  split; [exact (evaluate_provider_init_returns p tcs w v w1 _ w2 I L)|].
  split; [exact S|]. split; [exact F|].
  split; [rewrite T2, T1, loop_trace_from_start; reflexivity|].
  destruct (finish_counters res lats) as (F1 & F2 & F3 & F4 & F5 & F6 & F7 & F8).
  rewrite F6, F1, F2, F3, F4, F5, F7, F8.
  cbn [new_results total model provider errors correct incorrect details app]
    in G1, G2, G3, C, N, E, D.
  repeat split; try assumption; lia.
Qed.

(** C1. The three counters do not always add up to [total]. Here the
    hosted model answers ["FAQ"], which is what the one test case
    expects, and the console, whose encoding is ASCII, cannot print the
    progress line of that case, whose query has an accented letter. The
    case is counted as correct and, the print being inside the [try],
    once more as an error: [total] is 1 and the counters add up to 2. *)
Theorem evaluate_provider_counts_case_twice :
  exists r,
    fst (@evaluate_provider faq_ascii_platform "groq" cafe_case
           (fresh faq_ascii_platform 0)) = Ok r
    /\ (total r, correct r, incorrect r, errors r) = (1, 1, 0, 1)
    /\ map predicted (details r) = ["FAQ"; "ERROR"]
    /\ correct r + incorrect r + errors r <> total r.
Proof.
  eexists. split; [vm_compute; reflexivity|].
  cbn [total correct incorrect errors details map predicted].
  split; [reflexivity|]. split; [reflexivity|]. discriminate.
Qed.

(** C4. In every result of [evaluate_provider], [accuracy] is
    [round(correct / total * 100, 2)] when [total > 0] and [0.0]
    otherwise; [total] is the number of test cases, so an empty corpus
    has accuracy [0.0]. *)
Theorem evaluate_provider_accuracy (w : World) (p : string) (tcs : list TestCase) :
  exists r w',
    evaluate_provider p tcs w = (Ok r, w')
    /\ total r = Py.len tcs
    /\ accuracy r =
         if total r >? 0
         then Py.round2 (Py.int_truediv (correct r) (total r) * 100)%float
         else 0%float.
Proof.
  destruct (initialize_client p None w) as [[v|e] w1] eqn:I.
  - destruct (evaluate_provider_serving_run w p tcs v w1 I)
      as (c & r & w' & reqs & ds & _ & E & _ & _ & _ & T & _ & _ & _ & A & _).
    exists r, w'. split; [exact E|]. split; [exact T|exact A].
  - exists (set_errors (new_results p tcs) (Py.len tcs)), w1.
    split; [exact (evaluate_provider_init_raises p tcs w e w1 I)|].
    split; [reflexivity|].
    change (0%float = accuracy_of 0 (Py.len tcs)).
    symmetry. apply accuracy_of_none_correct.
Qed.



(** C2, as the code has it. When every request raises and the
    initialization succeeds, [evaluate_provider] returns one detail per
    test case, each predicting ["ERROR"], and, no expected label being
    ["ERROR"], nothing is correct. The queries being ASCII text, every
    progress line is printed and each case is counted once, as incorrect
    or as an error. When the console prints the exceptions of the
    requests, [route_query] returns ["ERROR"] for every case: every case
    is incorrect and none an error. When the console can print none of
    them, the print in the handler of [route_query] raises for every
    case: every case is an error and none incorrect. *)
Theorem evaluate_provider_remote_always_raises (w : World) (p : string)
    (tcs : list TestCase) (v : option string) (w1 : World) :
  always_raises ->
  Forall (fun tc => expected tc <> "ERROR") tcs ->
  Forall (fun tc => Py.isascii (query tc) = true) tcs ->
  initialize_client p None w = (Ok v, w1) ->
  exists r w',
    evaluate_provider p tcs w = (Ok r, w')
    /\ total r = Py.len tcs
    /\ List.length (details r) = List.length tcs
    /\ Forall (fun dt => predicted dt = "ERROR") (details r)
    /\ correct r = 0
    /\ incorrect r + errors r = total r
    /\ ((forall req x e x',
            remote_call req x = (Raise e, x') ->
            console ("Error during routing: " ++ exn_str e) = None) ->
        incorrect r = total r /\ errors r = 0)
    /\ ((forall req x e x',
            remote_call req x = (Raise e, x') ->
            console ("Error during routing: " ++ exn_str e) <> None) ->
        errors r = total r /\ incorrect r = 0).
Proof.
  intros A E Q I.
  destruct (evaluate_provider_serving_run w p tcs v w1 I)
    as (c & r & w' & reqs & ds & _ & R & _ & _ & _ & T & (C & N & Er) & D & _ & _ & LD).
  assert (forall i ok tc, In tc tcs ->
            console (progress_line i (Py.len tcs) ok (query tc)) = None) as Pr.
  { intros i ok tc In_tc. apply progress_line_ascii.
    rewrite Forall_forall in Q. exact (Q tc In_tc). }
  destruct (loop_details_always_raises c _ _ tcs A E Pr 0 ds LD)
    as (H1 & H2 & H3 & H4 & H5).
  destruct (loop_details_printed c _ _ tcs Pr 0 ds LD) as (_ & _ & Len).
  exists r, w'. rewrite D, T, C, N, Er.
  split; [exact R|]. split; [reflexivity|]. split; [exact Len|].
  split; [exact H1|]. split; [exact H2|]. split; [exact H3|]. split.
  - intros Pa. exact (H4 Pa).
  - intros Rj. destruct (H5 Rj) as (-> & ->). split; reflexivity.
Qed.

End EvaluateClaims.

(** ** The order of floats that are not NaN *)

Lemma cmp3_spec (r1 r2 : Z * Z * Z) :
  CompareSpec (eq3 r1 r2) (lt3 r1 r2) (lt3 r2 r1) (cmp3 r1 r2).
Proof.
  destruct r1 as [[a1 b1] c1], r2 as [[a2 b2] c2]. unfold cmp3, lt3, eq3.
  destruct (Z.compare_spec a1 a2); [|constructor; lia|constructor; lia].
  destruct (Z.compare_spec b1 b2); [|constructor; lia|constructor; lia].
  destruct (Z.compare_spec c1 c2); constructor; lia.
Qed.

Lemma SFcompare_rank (x y : SpecFloat.spec_float) (rx ry : Z * Z * Z) :
  rank x = Some rx -> rank y = Some ry ->
  SpecFloat.SFcompare x y = Some (cmp3 rx ry).
Proof.
  destruct x as [sx|sx| |sx mx ex], y as [sy|sy| |sy my ey];
    try discriminate;
    try (destruct sx); try (destruct sy);
    cbn [rank]; intros [= <-] [= <-];
    try reflexivity; cbn [SpecFloat.SFcompare cmp3].
  change (-1 ?= -1) with Eq. cbv iota. rewrite Z.compare_opp.
  rewrite (Z.compare_antisym ex ey).
  destruct (ex ?= ey); reflexivity.
Qed.

Section FloatOrder.
Local Open Scope float_scope.

Lemma not_nan_rank (x : float) :
  is_nan x = false -> exists r, rank (Prim2SF x) = Some r.
Proof.
  unfold is_nan. rewrite eqb_spec. unfold SpecFloat.SFeqb.
  destruct (Prim2SF x) as [s|s| |s m e]; cbn [rank].
  - eexists; reflexivity.
  - destruct s; eexists; reflexivity.
  - cbn. discriminate.
  - destruct s; eexists; reflexivity.
Qed.

Lemma ltb_rank (x y : float) (rx ry : Z * Z * Z) :
  rank (Prim2SF x) = Some rx -> rank (Prim2SF y) = Some ry ->
  ((x <? y) = true <-> lt3 rx ry).
Proof.
  intros X Y. rewrite ltb_spec. unfold SpecFloat.SFltb.
  rewrite (SFcompare_rank _ _ rx ry X Y).
  destruct (cmp3_spec rx ry) as [H|H|H]; split; intros K;
    try discriminate; try reflexivity; try assumption;
    destruct rx as [[a1 b1] c1], ry as [[a2 b2] c2];
    unfold lt3, eq3 in *; lia.
Qed.

Lemma leb_rank (x y : float) (rx ry : Z * Z * Z) :
  rank (Prim2SF x) = Some rx -> rank (Prim2SF y) = Some ry ->
  ((x <=? y) = true <-> lt3 rx ry \/ eq3 rx ry).
Proof.
  intros X Y. rewrite leb_spec. unfold SpecFloat.SFleb.
  rewrite (SFcompare_rank _ _ rx ry X Y).
  destruct (cmp3_spec rx ry) as [H|H|H]; split; intros K;
    try discriminate; try reflexivity; auto;
    destruct rx as [[a1 b1] c1], ry as [[a2 b2] c2];
    unfold lt3, eq3 in *; lia.
Qed.

Lemma eqb_rank (x y : float) (rx ry : Z * Z * Z) :
  rank (Prim2SF x) = Some rx -> rank (Prim2SF y) = Some ry ->
  ((x =? y) = true <-> eq3 rx ry).
Proof.
  intros X Y. rewrite eqb_spec. unfold SpecFloat.SFeqb.
  rewrite (SFcompare_rank _ _ rx ry X Y).
  destruct (cmp3_spec rx ry) as [H|H|H]; split; intros K;
    try discriminate; try reflexivity; auto;
    destruct rx as [[a1 b1] c1], ry as [[a2 b2] c2];
    unfold lt3, eq3 in *; lia.
Qed.

(** Two floats that are not NaN are comparable. *)
Lemma not_ltb_leb (x y : float) :
  is_nan x = false -> is_nan y = false -> (y <? x) = false -> (x <=? y) = true.
Proof.
  intros X Y H.
  destruct (not_nan_rank x X) as [rx Rx], (not_nan_rank y Y) as [ry Ry].
  apply (leb_rank x y rx ry Rx Ry).
  assert (~ lt3 ry rx) as N.
  { intros K. apply (ltb_rank y x ry rx Ry Rx) in K. congruence. }
  destruct rx as [[a1 b1] c1], ry as [[a2 b2] c2]. unfold lt3, eq3 in *. lia.
Qed.

Lemma ltb_leb (x y : float) :
  is_nan x = false -> is_nan y = false -> (x <? y) = true -> (x <=? y) = true.
Proof.
  intros X Y H.
  destruct (not_nan_rank x X) as [rx Rx], (not_nan_rank y Y) as [ry Ry].
  apply (leb_rank x y rx ry Rx Ry). left.
  exact (proj1 (ltb_rank x y rx ry Rx Ry) H).
Qed.

Lemma leb_trans (x y z : float) :
  is_nan x = false -> is_nan y = false -> is_nan z = false ->
  (x <=? y) = true -> (y <=? z) = true -> (x <=? z) = true.
Proof.
  intros X Y Z H1 H2.
  destruct (not_nan_rank x X) as [rx Rx], (not_nan_rank y Y) as [ry Ry],
    (not_nan_rank z Z) as [rz Rz].
  apply (leb_rank x y rx ry Rx Ry) in H1. apply (leb_rank y z ry rz Ry Rz) in H2.
  apply (leb_rank x z rx rz Rx Rz).
  destruct rx as [[a1 b1] c1], ry as [[a2 b2] c2], rz as [[a3 b3] c3].
  unfold lt3, eq3 in *. lia.
Qed.

Lemma is_nan_spec (x : float) :
  is_nan x = match Prim2SF x with SpecFloat.S754_nan => true | _ => false end.
Proof.
  unfold is_nan. rewrite eqb_spec. unfold SpecFloat.SFeqb.
  destruct (Prim2SF x) as [s|s| |s m e]; try reflexivity.
  - destruct s; reflexivity.
  - cbn. destruct s; rewrite Z.compare_refl, Pos.compare_cont_refl; reflexivity.
Qed.

(** A float strictly below one that equals [a] does not equal [a]. *)
Lemma ltb_not_eqb (y x a : float) :
  (y <? x) = true -> (x =? a) = true -> (y =? a) = false.
Proof.
  intros H1 H2.
  assert (is_nan x = false /\ is_nan a = false) as [X A].
  { rewrite !is_nan_spec. rewrite eqb_spec in H2. unfold SpecFloat.SFeqb in H2.
    destruct (Prim2SF x), (Prim2SF a); try discriminate; split; reflexivity. }
  assert (is_nan y = false) as Y.
  { rewrite is_nan_spec. rewrite ltb_spec in H1. unfold SpecFloat.SFltb in H1.
    destruct (Prim2SF y); try discriminate; reflexivity. }
  destruct (not_nan_rank x X) as [rx Rx], (not_nan_rank y Y) as [ry Ry],
    (not_nan_rank a A) as [ra Ra].
  apply (ltb_rank y x ry rx Ry Rx) in H1. apply (eqb_rank x a rx ra Rx Ra) in H2.
  destruct (y =? a) eqn:E; [|reflexivity].
  apply (eqb_rank y a ry ra Ry Ra) in E.
  destruct rx as [[a1 b1] c1], ry as [[a2 b2] c2], ra as [[a3 b3] c3].
  unfold lt3, eq3 in *. lia.
Qed.

End FloatOrder.

(** ** Sorting by a float key *)

Section SortFacts.
Variable A : Type.
Variable key : A -> float.

Lemma insert_by_perm (x : A) (l : list A) :
  Permutation (x :: l) (Py.insert_by (key_lt key) x l).
Proof.
  induction l as [|y l IH]; cbn [Py.insert_by].
  - apply Permutation_refl.
  - destruct (key_lt key y x).
    + apply perm_trans with (y :: x :: l); [apply perm_swap|].
      apply perm_skip. exact IH.
    + apply Permutation_refl.
Qed.

Lemma stable_sort_perm (l : list A) : Permutation l (Py.stable_sort (key_lt key) l).
Proof.
  induction l as [|x l IH]; cbn.
  - apply perm_nil.
  - apply perm_trans with (x :: Py.stable_sort (key_lt key) l).
    + apply perm_skip. exact IH.
    + apply insert_by_perm.
Qed.

Lemma insert_by_sorted (x : A) (l : list A) :
  (real_key key) x -> Forall (real_key key) l ->
  StronglySorted (key_le key) l -> StronglySorted (key_le key) (Py.insert_by (key_lt key) x l).
Proof.
  intros X. induction l as [|y l IH]; intros R S; cbn [Py.insert_by].
  - constructor; constructor.
  - inversion R as [|y' l' Ry Rl]; subst.
    inversion S as [|y' l' Sl Hy]; subst.
    destruct (key_lt key y x) eqn:E.
    + constructor; [exact (IH Rl Sl)|].
      apply (Permutation_Forall (insert_by_perm x l)).
      constructor; [|exact Hy].
      apply ltb_leb; assumption.
    + assert (key_le key x y) as XY by (apply not_ltb_leb; assumption).
      constructor; [exact S|]. constructor; [exact XY|].
      rewrite Forall_forall in Hy, Rl |- *. intros z Z.
      apply (leb_trans (key x) (key y) (key z)); auto.
      * apply (Rl z Z).
      * apply (Hy z Z).
Qed.

Lemma stable_sort_sorted (l : list A) :
  Forall (real_key key) l -> StronglySorted (key_le key) (Py.stable_sort (key_lt key) l).
Proof.
  induction l as [|x l IH]; intros R; cbn.
  - constructor.
  - inversion R as [|x' l' Rx Rl]; subst.
    apply insert_by_sorted; [exact Rx| |exact (IH Rl)].
    exact (Permutation_Forall (stable_sort_perm l) Rl).
Qed.

Lemma sorted_snoc (R : A -> A -> Prop) (l : list A) (a : A) :
  StronglySorted R l -> Forall (fun b => R b a) l -> StronglySorted R (l ++ [a]).
Proof.
  induction 1 as [|b l S IH F]; intros H; cbn.
  - constructor; constructor.
  - inversion H as [|b' l' Hb Hl]; subst.
    constructor; [exact (IH Hl)|].
    apply Forall_app. split; [exact F|]. constructor; [exact Hb|constructor].
Qed.

Lemma sorted_rev (l : list A) :
  StronglySorted (key_le key) l -> StronglySorted (key_ge key) (rev l).
Proof.
  induction 1 as [|a l S IH F]; cbn.
  - constructor.
  - apply sorted_snoc; [exact IH|].
    apply Forall_rev. exact F.
Qed.

(** Inserting keeps, for each key value, the elements that have it in
    the order "new element first". *)
Lemma insert_by_filter (k : float) (x : A) (l : list A) :
  filter (has_key key k) (Py.insert_by (key_lt key) x l) = filter (has_key key k) (x :: l).
Proof.
  induction l as [|y l IH]; cbn [Py.insert_by].
  - reflexivity.
  - destruct (key_lt key y x) eqn:E; [|reflexivity].
    cbn [filter] in IH |- *. rewrite IH.
    destruct (has_key key k x) eqn:X; [|reflexivity].
    unfold has_key, key_lt in *.
    rewrite (ltb_not_eqb (key y) (key x) k E X). reflexivity.
Qed.

Lemma stable_sort_filter (k : float) (l : list A) :
  filter (has_key key k) (Py.stable_sort (key_lt key) l) = filter (has_key key k) l.
Proof.
  induction l as [|x l IH]; cbn [Py.stable_sort fold_right].
  - reflexivity.
  - change (fold_right (Py.insert_by (key_lt key)) [] l) with (Py.stable_sort (key_lt key) l).
    rewrite insert_by_filter. cbn [filter]. rewrite IH. reflexivity.
Qed.

Lemma filter_rev (f : A -> bool) (l : list A) :
  filter f (rev l) = rev (filter f l).
Proof.
  induction l as [|x l IH]; cbn.
  - reflexivity.
  - rewrite filter_app, IH. cbn. destruct (f x); cbn; [reflexivity|].
    now rewrite app_nil_r.
Qed.

(** [sorted(l, key=key, reverse=True)] on keys that are not NaN: a
    permutation of [l], non-increasing in the key, with the elements of
    equal key in their input order. *)
Lemma sorted_reverse_spec (l : list A) :
  Forall (real_key key) l ->
  Permutation l (Py.sorted key true l)
  /\ StronglySorted (key_ge key) (Py.sorted key true l)
  /\ forall k, filter (has_key key k) (Py.sorted key true l) = filter (has_key key k) l.
Proof.
  intros R. unfold Py.sorted.
  change (fun a b : A => (key a <? key b)%float) with (key_lt key).
  split; [|split].
  - apply perm_trans with (rev l); [apply Permutation_rev|].
    apply perm_trans with (Py.stable_sort (key_lt key) (rev l));
      [apply stable_sort_perm|apply Permutation_rev].
  - apply sorted_rev. apply stable_sort_sorted.
    apply Forall_rev. exact R.
  - intros k. rewrite filter_rev, stable_sort_filter, filter_rev.
    apply rev_involutive.
Qed.

End SortFacts.

(** ** The ranking of the report *)

(** C9. For results whose accuracies are numbers (no NaN),
    [sorted_results] is a permutation of its input in which accuracy
    never increases from one row to a later one, and the results of any
    one accuracy keep their input order. *)
Theorem sorted_results_ranking (all_results : list EvaluationResult) :
  Forall (fun r => is_nan (accuracy r) = false) all_results ->
  Permutation all_results (sorted_results all_results)
  /\ StronglySorted (fun r1 r2 => (accuracy r2 <=? accuracy r1)%float = true)
       (sorted_results all_results)
  /\ forall a : float,
       filter (fun r => (accuracy r =? a)%float) (sorted_results all_results)
       = filter (fun r => (accuracy r =? a)%float) all_results.
Proof.
  intros R. exact (sorted_reverse_spec EvaluationResult accuracy all_results R).
Qed.

(** ** Concrete runs *)

(** The hosted model is down and the console prints the exception:
    [route_query] returns ["ERROR"]. *)
Example route_query_remote_failure_printed :
  fst (@route_query failing_platform "Where is my order 101?" None groq_down)
  = Ok "ERROR".
Proof. vm_compute. reflexivity. Qed.

(** The hosted model is down and the console cannot encode the
    exception: the print in the handler raises, out of [route_query]. *)
Lemma route_query_remote_failure_witness :
  @_client down_ascii_platform groq_down_ascii = Some (OpenAIClient "q-key" groq_url)
  /\ exists msg,
       fst (@route_query down_ascii_platform "Where is my order 101?" None
              groq_down_ascii)
       = Raise (UnicodeEncodeError msg).
Proof.
  split; [reflexivity|]. eexists.
  exact (@route_query_remote_failure down_ascii_platform groq_down_ascii
           (OpenAIClient "q-key" groq_url) "Where is my order 101?" None _
           (snd (@route_query down_ascii_platform "Where is my order 101?" None
                   groq_down_ascii))
           _ (RemoteError ("Service indisponible, r" ++ e_acute ++ "essayez plus tard"))
           0 eq_refl (surjective_pairing _) eq_refl eq_refl).
Defined.

Lemma route_query_returns_normalized_text_witness :
  fst (@route_query (echo_platform "  Refund? ") "Can I get a refund?" None google_chatty)
  = Ok "REFUND?".
Proof.
  refine (proj1 (@route_query_returns_normalized_text (echo_platform "  Refund? ")
                   google_chatty "Can I get a refund?" None _
                   (snd (@route_query (echo_platform "  Refund? ")
                           "Can I get a refund?" None google_chatty))
                   _ "  Refund? " 0 _ _ _)).
  - apply surjective_pairing.
  - reflexivity.
  - reflexivity.
Defined.

(** The session is initialized, and [route_query] raises all the same:
    not the "not initialized" error, but the one of the print in its
    handler. *)
Lemma route_query_raises_iff_uninitialized_witness :
  @history down_ascii_platform groq_down_ascii true
  /\ exists msg w',
       @route_query down_ascii_platform "hello" None groq_down_ascii
       = (Raise (UnicodeEncodeError msg), w').
Proof.
  assert (@history down_ascii_platform groq_down_ascii true) as H.
  { apply (@history_init_ok down_ascii_platform
             (@initial_world down_ascii_platform stub_env 0) false "groq" None
             (Some "llama-3.1-8b-instant") groq_down_ascii).
    - apply (@history_start down_ascii_platform).
    - reflexivity. }
  split; [exact H|].
  destruct (@route_query_raises_iff_uninitialized down_ascii_platform
              groq_down_ascii true "hello" None H)
    as [(I & _)|(_ & _ & [(label & w' & E)|(req & e & x & msg & w' & _ & _ & _ & E)])].
  - discriminate I.
  - exfalso.
    assert (fst (@route_query down_ascii_platform "hello" None groq_down_ascii)
            = Ok label) as K by (rewrite E; reflexivity).
    vm_compute in K. discriminate K.
  - exists msg, w'. exact E.
Defined.

Lemma initialize_client_failure_not_atomic_witness :
  unknown_provider "Bogus"
  /\ exists msg w',
       @initialize_client failing_platform "Bogus" None
         (@started failing_platform stub_env 0 "google")
       = (Raise (ValueError msg), w')
       /\ _provider w' = Some "bogus"
       /\ _client w' = Some (GenaiClient "g-key").
Proof.
  assert (unknown_provider "Bogus") as U by (split; discriminate).
  split; [exact U|].
  destruct (@initialize_client_failure_not_atomic failing_platform
              (@started failing_platform stub_env 0 "google") "Bogus" None
              (or_introl U))
    as (msg & w' & E & Hp & Hc & _).
  exists msg, w'. split; [exact E|]. split; [exact Hp|exact Hc].
Defined.



Lemma two_cases_ascii : Forall (fun tc => Py.isascii (query tc) = true) two_cases.
Proof. repeat constructor. Qed.

(** The hosted model is down. Before a console that prints every text
    both cases are incorrect and none is an error; before a console
    that cannot encode the exception, both are errors and none is
    incorrect. *)
Lemma evaluate_provider_remote_always_raises_witness :
  (@always_raises failing_platform
   /\ exists r w',
        @evaluate_provider failing_platform "groq" two_cases (fresh failing_platform 0)
        = (Ok r, w')
        /\ Forall (fun dt => predicted dt = "ERROR") (details r)
        /\ correct r = 0 /\ incorrect r = 2 /\ errors r = 0)
  /\ (@always_raises down_ascii_platform
      /\ exists r w',
           @evaluate_provider down_ascii_platform "groq" two_cases
             (fresh down_ascii_platform 0)
           = (Ok r, w')
           /\ Forall (fun dt => predicted dt = "ERROR") (details r)
           /\ correct r = 0 /\ incorrect r = 0 /\ errors r = 2).
Proof.
  assert (Forall (fun tc => expected tc <> "ERROR") two_cases) as E.
  { repeat constructor; discriminate. }
  split.
  - assert (@always_raises failing_platform) as A.
    { intros req x. eexists; eexists; reflexivity. }
    split; [exact A|].
    destruct (@evaluate_provider_remote_always_raises failing_platform
                (fresh failing_platform 0) "groq" two_cases
                (Some "llama-3.1-8b-instant")
                (@started failing_platform stub_env 0 "groq") A E two_cases_ascii eq_refl)
      as (r & w' & R & T & _ & F & C & _ & Pa & _).
    destruct (Pa (fun _ _ _ _ _ => eq_refl)) as (I & Er).
    exists r, w'. rewrite I, T. repeat split; assumption.
  - assert (@always_raises down_ascii_platform) as A.
    { intros req x. eexists; eexists; reflexivity. }
    split; [exact A|].
    destruct (@evaluate_provider_remote_always_raises down_ascii_platform
                (fresh down_ascii_platform 0) "groq" two_cases
                (Some "llama-3.1-8b-instant")
                (@started down_ascii_platform stub_env 0 "groq") A E two_cases_ascii
                eq_refl)
      as (r & w' & R & T & _ & F & C & _ & _ & Rj).
    destruct Rj as (Er & I).
    { intros req x e x' K. injection K as <- _. discriminate. }
    exists r, w'. rewrite I, Er, T. repeat split; assumption.
Defined.

(** C2 as stated fails: the hosted model raises on every call, the
    corpus has one case, and the result counts it as incorrect, with no
    error. The exception has a text of ASCII characters, which every
    console prints. *)
Lemma evaluate_provider_remote_failure_is_not_an_error :
  @always_raises failing_platform
  /\ exists r,
       fst (@evaluate_provider failing_platform "google"
              [mkTestCase "What is your return policy?" "FAQ"]
              (fresh failing_platform 0))
       = Ok r
       /\ total r = 1 /\ errors r = 0 /\ incorrect r = 1
       /\ ~ (errors r = total r /\ correct r = 0 /\ incorrect r = 0).
Proof.
  split.
  - intros req x. eexists; eexists; reflexivity.
  - eexists. split; [vm_compute; reflexivity|].
    cbn. repeat split. intros (H & _). discriminate H.
Qed.

Lemma sorted_results_ranking_witness :
  Forall (fun r => is_nan (accuracy r) = false) sample_results
  /\ map provider (sorted_results sample_results) = ["groq"; "google"; "other"]
  /\ StronglySorted (fun r1 r2 => (accuracy r2 <=? accuracy r1)%float = true)
       (sorted_results sample_results).
Proof.
  assert (Forall (fun r => is_nan (accuracy r) = false) sample_results) as H.
  { repeat constructor. }
  split; [exact H|]. split; [reflexivity|].
  exact (proj1 (proj2 (sorted_results_ranking sample_results H))).
Defined.

(** * Further properties of the code *)

(** ** The agents on small inputs *)

Example faq_return_wins :
  FAQAgent_handle FAQAgent_init "Can I RETURN it, and what about shipping?"
  = "You can return items within 30 days of purchase.".
Proof. reflexivity. Qed.

(** In a query of ASCII characters, digits glued to letters or to an
    underscore, or more than three in a row, are no order number. *)
Example order_numbers_seen :
  map (@OrderAgent_handle faq_platform OrderAgent_init)
    ["Where is my order 101?"; "order101"; "order_102"; "1015 or 103.";
     "call 555 1234"; ""]
  = [ "Order #101 status: Shipped - Arriving Tomorrow";
      order_prompt; order_prompt;
      "Order #103 status: Delivered - Left at front porch";
      "Order #555 not found."; order_prompt ].
Proof. reflexivity. Qed.

(** ** Strings *)

Lemma lower_char_idem (c : ascii) : Py.lower_char (Py.lower_char c) = Py.lower_char c.
Proof. destruct c as [[] [] [] [] [] [] [] []]; reflexivity. Qed.

Lemma upper_char_idem (c : ascii) : Py.upper_char (Py.upper_char c) = Py.upper_char c.
Proof. destruct c as [[] [] [] [] [] [] [] []]; reflexivity. Qed.

Lemma lower_upper_char (c : ascii) : Py.lower_char (Py.upper_char c) = Py.lower_char c.
Proof. destruct c as [[] [] [] [] [] [] [] []]; reflexivity. Qed.

Lemma is_space_upper_char (c : ascii) : Py.is_space (Py.upper_char c) = Py.is_space c.
Proof. destruct c as [[] [] [] [] [] [] [] []]; reflexivity. Qed.

Lemma map_chars_compose (f g h : ascii -> ascii) (s : string) :
  (forall c, f (g c) = h c) ->
  Py.map_chars f (Py.map_chars g s) = Py.map_chars h s.
Proof.
  intros H. induction s as [|c s IH]; cbn; [reflexivity|].
  now rewrite H, IH.
Qed.

Lemma lower_idem (s : string) : Py.lower (Py.lower s) = Py.lower s.
Proof. apply map_chars_compose, lower_char_idem. Qed.

Lemma upper_idem (s : string) : Py.ascii_upper (Py.ascii_upper s) = Py.ascii_upper s.
Proof. apply map_chars_compose, upper_char_idem. Qed.

Lemma lower_upper (s : string) : Py.lower (Py.ascii_upper s) = Py.lower s.
Proof. apply map_chars_compose, lower_upper_char. Qed.

Lemma lstrip_upper (s : string) :
  Py.ascii_lstrip (Py.ascii_upper s) = Py.ascii_upper (Py.ascii_lstrip s).
Proof.
  induction s as [|c s IH]; cbn; [reflexivity|].
  rewrite is_space_upper_char. destruct (Py.is_space c); [exact IH|reflexivity].
Qed.

Lemma rstrip_upper (s : string) :
  Py.ascii_rstrip (Py.ascii_upper s) = Py.ascii_upper (Py.ascii_rstrip s).
Proof.
  induction s as [|c s IH]; cbn; [reflexivity|].
  fold (Py.ascii_upper s). rewrite IH.
  destruct (Py.ascii_rstrip s) as [|c' r]; cbn.
  - rewrite is_space_upper_char. destruct (Py.is_space c); reflexivity.
  - reflexivity.
Qed.

Lemma strip_upper_commute (s : string) :
  Py.ascii_strip (Py.ascii_upper s) = Py.ascii_upper (Py.ascii_strip s).
Proof. unfold Py.ascii_strip. now rewrite lstrip_upper, rstrip_upper. Qed.

(** What [lstrip] returns is empty or starts with a character that is
    not a space. *)
Lemma lstrip_head (s : string) :
  Py.ascii_lstrip s = "" \/ exists c r, Py.ascii_lstrip s = String c r /\ Py.is_space c = false.
Proof.
  induction s as [|c s IH]; cbn; [now left|].
  destruct (Py.is_space c) eqn:E; [exact IH|].
  right. exists c, s. auto.
Qed.

Lemma rstrip_cons (c : ascii) (s : string) :
  Py.ascii_rstrip (String c s) =
    match Py.ascii_rstrip s with
    | EmptyString => if Py.is_space c then EmptyString else String c EmptyString
    | r => String c r
    end.
Proof. reflexivity. Qed.

Lemma rstrip_idem (s : string) : Py.ascii_rstrip (Py.ascii_rstrip s) = Py.ascii_rstrip s.
Proof.
  induction s as [|c s IH]; [reflexivity|].
  rewrite rstrip_cons.
  destruct (Py.ascii_rstrip s) as [|c' r] eqn:E.
  - destruct (Py.is_space c) eqn:S; [reflexivity|].
    rewrite rstrip_cons. cbn [Py.ascii_rstrip]. now rewrite S.
  - rewrite rstrip_cons, IH. reflexivity.
Qed.

(** [rstrip] keeps a first character that is not a space. *)
Lemma rstrip_keeps_head (c : ascii) (r : string) :
  Py.is_space c = false -> exists r', Py.ascii_rstrip (String c r) = String c r'.
Proof.
  intros S. cbn. destruct (Py.ascii_rstrip r).
  - rewrite S. eexists; reflexivity.
  - eexists; reflexivity.
Qed.

Lemma strip_idem (s : string) : Py.ascii_strip (Py.ascii_strip s) = Py.ascii_strip s.
Proof.
  unfold Py.ascii_strip.
  destruct (lstrip_head s) as [E|(c & r & E & S)]; rewrite E.
  - reflexivity.
  - destruct (rstrip_keeps_head c r S) as [r' R].
    replace (Py.ascii_lstrip (Py.ascii_rstrip (String c r))) with (Py.ascii_rstrip (String c r)).
    + apply rstrip_idem.
    + rewrite R. cbn. now rewrite S.
Qed.

(** ** More about the router *)

Section RouterExtras.
Context `{P : Platform}.

(** The label made of a text of ASCII characters is in normal form. *)
Lemma ascii_label_normal (text : string) :
  Py.isascii text = true ->
  str_strip (str_upper (str_strip text)) = str_upper (str_strip text)
  /\ str_upper (str_upper (str_strip text)) = str_upper (str_strip text).
Proof.
  intros T. rewrite (strip_upper_ascii text T).
  pose proof (isascii_ascii_upper _ (isascii_ascii_strip _ T)) as L.
  rewrite (str_strip_ascii _ L), (str_upper_ascii _ L). split.
  - now rewrite strip_upper_commute, strip_idem.
  - apply upper_idem.
Qed.

(** X1. When the hosted model answers with a text of ASCII characters,
    the label that [route_query] returns is in normal form: stripping
    it or uppercasing it again changes nothing. *)
Theorem route_query_label_normal_form (w : World) (q : string) (m : option string)
    (r : Result string) (w' : World) (req : Request) (text : string) (x : Ext) :
  route_query q m w = (r, w') ->
  trace w' = (trace w ++ [EvRemote req])%list ->
  remote_call req (ext w) = (Ok (Some text), x) ->
  Py.isascii text = true ->
  exists label,
    r = Ok label /\ str_strip label = label /\ str_upper label = label.
Proof.
  intros R T F A. exists (str_upper (str_strip text)).
  split; [|exact (ascii_label_normal text A)].
  rewrite (route_query_sent w q m r w' req R T), F. reflexivity.
Qed.

Lemma client_for_default_model (env : Py.dict string) (lp : string) (c : Client) :
  client_for env lp = Some c -> exists d, Py.get DEFAULT_MODELS lp = Some d.
Proof.
  unfold client_for.
  destruct (String.eqb_spec lp "google") as [->|_]; [intros _; eexists; reflexivity|].
  destruct (String.eqb_spec lp "groq") as [->|_]; [intros _; eexists; reflexivity|].
  discriminate.
Qed.

Lemma request_of_model (env : Py.dict string) (lp : string) (c : Client)
    (q : string) (m : option string) (req : Request) :
  client_for env lp = Some c ->
  request_of c (Some lp) q m = Some req ->
  request_model req = match m with
                      | Some m' => Some m'
                      | None => Py.get DEFAULT_MODELS lp
                      end.
Proof.
  unfold client_for, request_of, is_str.
  destruct (String.eqb_spec lp "google") as [->|_].
  - destruct (credential env "GOOGLE_API_KEY"); [|discriminate].
    intros [= <-]. cbn. intros [= <-]. destruct m; reflexivity.
  - destruct (String.eqb_spec lp "groq") as [->|_]; [|discriminate].
    destruct (credential env "GROQ_API_KEY"); [|discriminate].
    intros [= <-]. cbn. intros [= <-]. destruct m; reflexivity.
Qed.

(** X2. The model passed to [initialize_client] is returned by it and
    then forgotten: the request of a later [route_query] names the model
    passed to [route_query] itself or, without one, the provider's
    default model, which is also what [get_current_model] returns. *)
Theorem route_query_model_choice (w : World) (p : string) (mi v : option string)
    (w1 : World) (q : string) (mq : option string) (r : Result string) (w2 : World) :
  initialize_client p mi w = (Ok v, w1) ->
  route_query q mq w1 = (r, w2) ->
  exists req d,
    Py.get DEFAULT_MODELS (Py.lower p) = Some d
    /\ v = Some (match mi with Some m => m | None => d end)
    /\ trace w2 = (trace w1 ++ [EvRemote req])%list
    /\ request_model req = Some (match mq with Some m => m | None => d end)
    /\ get_current_model w1 = (Ok (Some d), w1).
Proof.
  intros I R.
  destruct (initialize_client_inv p mi w _ _ I)
    as [(c & v' & C & _ & ->)|(msg & _ & E & _)]; [|discriminate].
  rewrite (initialize_client_ok p mi w c C) in I.
  destruct (client_for_default_model _ _ c C) as [d D].
  destruct (client_for_request _ _ c q mq C) as [req Rq].
  pose proof (request_of_model _ _ c q mq req C Rq) as RM.
  rewrite (route_query_client q mq (with_session w (Py.lower p) c) c eq_refl) in R.
  cbn [with_session _provider ext trace environ _client] in R. rewrite Rq in R.
  destruct (remote_call req _) as [a x]. inversion R; subst r w2.
  exists req, d. split; [exact D|]. split.
  - inversion I as [V]. destruct mi; [reflexivity|exact D].
  - split; [reflexivity|]. split.
    + rewrite RM, D. destruct mq; reflexivity.
    + unfold get_current_model. unfold_monad. cbn [with_session _provider Py.get_opt].
      now rewrite D.
Qed.

(** X3. After an initialization that succeeded and a later one that
    raised, [route_query] contacts nobody and answers ["ERROR"]: the
    client kept from the first does not fit the provider named by the
    second. *)
Theorem route_query_after_failed_reinit (w : World) (p1 : string)
    (m1 v : option string) (w1 : World) (p2 : string) (m2 : option string)
    (e : exn) (w2 : World) (q : string) (mq : option string) :
  initialize_client p1 m1 w = (Ok v, w1) ->
  initialize_client p2 m2 w1 = (Raise e, w2) ->
  _client w2 <> None /\ route_query q mq w2 = (Ok "ERROR", w2).
Proof.
  intros I1 I2.
  destruct (initialize_client_inv p1 m1 w _ _ I1)
    as [(c & v' & C1 & _ & ->)|(msg & _ & E & _)]; [|discriminate].
  destruct (initialize_client_inv p2 m2 _ _ _ I2)
    as [(c2 & v2 & _ & E & _)|(msg & C2 & _ & ->)]; [discriminate|].
  cbn [with_session environ] in C2.
  split; [discriminate|].
  rewrite (route_query_client q mq
             (with_provider (with_session w (Py.lower p1) c) (Py.lower p2)) c eq_refl).
  cbn [with_provider with_session _provider].
  replace (request_of c (Some (Py.lower p2)) q mq) with (@None Request);
    [reflexivity|].
  unfold client_for in C1, C2. unfold request_of, is_str.
  destruct (String.eqb (Py.lower p2) "groq") eqn:Q2.
  - destruct (String.eqb (Py.lower p2) "google") eqn:G2.
    + apply String.eqb_eq in Q2, G2. congruence.
    + destruct (String.eqb (Py.lower p1) "google").
      * destruct (credential (environ w) "GOOGLE_API_KEY"); [|discriminate].
        inversion C1; subst. reflexivity.
      * destruct (String.eqb (Py.lower p1) "groq"); [|discriminate].
        destruct (credential (environ w) "GROQ_API_KEY"); discriminate.
  - destruct (String.eqb (Py.lower p2) "google") eqn:G2; [|reflexivity].
    destruct (String.eqb (Py.lower p1) "google").
    + destruct (credential (environ w) "GOOGLE_API_KEY"); discriminate.
    + destruct (String.eqb (Py.lower p1) "groq"); [|discriminate].
      destruct (credential (environ w) "GROQ_API_KEY"); [|discriminate].
      inversion C1; subst. reflexivity.
Qed.

(** X4. [initialize_client] reads the provider name without regard to
    case: two names with the same lowercase form leave the same state,
    and one succeeds exactly when the other does, with the same
    result. *)
Theorem initialize_client_case_insensitive (p p' : string) (m : option string)
    (w : World) :
  Py.lower p = Py.lower p' ->
  snd (initialize_client p m w) = snd (initialize_client p' m w)
  /\ forall v, fst (initialize_client p m w) = Ok v
               <-> fst (initialize_client p' m w) = Ok v.
Proof.
  intros L. destruct (client_for (environ w) (Py.lower p)) as [c|] eqn:C.
  - rewrite (initialize_client_ok p m w c C).
    rewrite L in C. rewrite (initialize_client_ok p' m w c C).
    rewrite L. split; [reflexivity|]. intros v; split; auto.
  - destruct (initialize_client_fail p m w C) as [msg ->].
    rewrite L in C. destruct (initialize_client_fail p' m w C) as [msg' ->].
    rewrite L. split; [reflexivity|]. intros v; split; discriminate.
Qed.

End RouterExtras.

(** ** More about [evaluate_provider] *)

(** The queries of the corpus of the repository are texts of ASCII
    characters. *)
Lemma test_cases_ascii :
  Forall (fun tc => Py.isascii (query tc) = true) get_test_cases.
Proof. repeat constructor. Qed.

Section EvaluateExtras.
Context `{P : Platform}.

(** X5. What the counters of a result of [evaluate_provider] count.
    When the initialization raised, every case is an error and there
    are no details. When it succeeded, each counter counts its details:
    those marked correct, those of a call that returned marked not
    correct, and those written by the handler. The counters then add up
    to the number of details, of which every case has one or two, a
    scored one at most and one of the handler at most. *)
Theorem evaluate_provider_counters_count_details (w : World) (p : string)
    (tcs : list TestCase) (r : EvaluationResult) (w' : World) :
  evaluate_provider p tcs w = (Ok r, w') ->
  total r = Py.len tcs
  /\ match fst (initialize_client p None w) with
     | Raise _ =>
         errors r = total r /\ correct r = 0 /\ incorrect r = 0
         /\ details r = []
     | Ok _ =>
         correct r = count_correct (details r)
         /\ incorrect r = count_incorrect (details r)
         /\ errors r = count_errors (details r)
         /\ correct r + incorrect r + errors r = Py.len (details r)
         /\ total r <= Py.len (details r) <= 2 * total r
         /\ correct r + incorrect r <= total r
         /\ errors r <= total r
     end.
Proof.
  intros E.
  destruct (initialize_client p None w) as [[v|e] w1] eqn:I; cbn [fst].
  - destruct (evaluate_provider_serving_run w p tcs v w1 I)
      as (c & r0 & w0 & reqs & ds & _ & E0 & _ & _ & _ & T & (C & N & Er) & D & _ & _ & LD).
    rewrite E in E0. inversion E0; subst r0 w0.
    destruct (loop_details_counts c _ _ tcs 0 ds LD) as (K1 & K2 & K3 & K4 & _).
    rewrite D, T, C, N, Er. repeat split; try assumption; lia.
  - rewrite (evaluate_provider_init_raises p tcs w e w1 I) in E.
    inversion E; subst r w'. repeat split.
Qed.

(** After a successful initialization on a corpus whose queries are
    texts of ASCII characters, the console prints every progress line:
    there is one detail per case and each case is counted once. *)
Lemma evaluate_provider_details_corpus (w : World) (p : string)
    (tcs : list TestCase) (v : option string) (w1 : World)
    (r : EvaluationResult) (w' : World) :
  initialize_client p None w = (Ok v, w1) ->
  Forall (fun tc => Py.isascii (query tc) = true) tcs ->
  evaluate_provider p tcs w = (Ok r, w') ->
  map d_query (details r) = map query tcs
  /\ map d_expected (details r) = map expected tcs
  /\ correct r + incorrect r + errors r = total r.
Proof.
  intros I A E.
  destruct (evaluate_provider_serving_run w p tcs v w1 I)
    as (c & r0 & w0 & reqs & ds & _ & E0 & _ & _ & _ & T & (C & N & Er) & D & _ & _ & LD).
  rewrite E in E0. inversion E0; subst r0 w0.
  destruct (loop_details_counts c _ _ tcs 0 ds LD) as (K1 & _).
  destruct (loop_details_printed c (_provider w1) (Py.len tcs) tcs) with (i := 0) (ds := ds)
    as (Q & X & L); [|exact LD|].
  - intros i ok tc In_tc. apply progress_line_ascii.
    rewrite Forall_forall in A. exact (A tc In_tc).
  - rewrite D, T, C, N, Er, K1. unfold Py.len. rewrite L.
    repeat split; assumption.
Qed.


(** X6. After a successful initialization on a corpus whose queries are
    texts of ASCII characters, the details follow the corpus: one per
    test case, in order, each with the query and the expected label of
    its case; and the three counters add up to [total]. *)
Theorem evaluate_provider_details_follow_corpus (w : World) (p : string)
    (tcs : list TestCase) (v : option string) (w1 : World) :
  initialize_client p None w = (Ok v, w1) ->
  Forall (fun tc => Py.isascii (query tc) = true) tcs ->
  exists r w',
    evaluate_provider p tcs w = (Ok r, w')
    /\ map d_query (details r) = map query tcs
    /\ map d_expected (details r) = map expected tcs
    /\ correct r + incorrect r + errors r = total r.
Proof.
  intros I A.
  destruct (evaluate_provider_serving_run w p tcs v w1 I)
    as (c & r & w' & reqs & ds & _ & E & _).
  exists r, w'. split; [exact E|].
  exact (evaluate_provider_details_corpus w p tcs v w1 r w' I A E).
Qed.


End EvaluateExtras.

(** ** Repeated and oddly named evaluations *)

Section EvaluateAgain.
Context `{P : Platform}.

(** X8. When the answer of the hosted model depends on the request
    only, two evaluations of a provider on a corpus give the same
    counters, the same accuracy and the same predictions, from whatever
    states of the router and of the outside they start, as long as the
    environment variables are the same. *)
Theorem evaluate_provider_repeatable (w w' : World) (p : string)
    (tcs : list TestCase) (r r' : EvaluationResult) (w1 w1' : World) :
  answers_by_request ->
  environ w = environ w' ->
  evaluate_provider p tcs w = (Ok r, w1) ->
  evaluate_provider p tcs w' = (Ok r', w1') ->
  correct r = correct r' /\ incorrect r = incorrect r' /\ errors r = errors r'
  /\ accuracy r = accuracy r'
  /\ map predicted (details r) = map predicted (details r').
Proof.
  intros A Env E E'.
  destruct (initialize_client p None w) as [[v|e] wi] eqn:I;
    destruct (initialize_client p None w') as [[v'|e'] wi'] eqn:I'.
  - destruct (evaluate_provider_serving_run w p tcs v wi I)
      as (c & r0 & w0 & reqs & ds & Sv & E0 & _ & _ & _ & T & (C & N & Er) & D & _
          & Ac & LD).
    destruct (evaluate_provider_serving_run w' p tcs v' wi' I')
      as (c' & r0' & w0' & reqs' & ds' & Sv' & E0' & _ & _ & _ & T' & (C' & N' & Er')
          & D' & _ & Ac' & LD').
    rewrite E in E0. inversion E0; subst r0 w0.
    rewrite E' in E0'. inversion E0'; subst r0' w0'.
    destruct (initialize_client_inv p None w _ _ I)
      as [(c0 & v0 & K & _ & ->)|(msg & _ & R & _)]; [|discriminate].
    destruct (initialize_client_inv p None w' _ _ I')
      as [(c0' & v0' & K' & _ & ->)|(msg & _ & R & _)]; [|discriminate].
    destruct Sv as (Sv & _), Sv' as (Sv' & _).
    cbn [with_session _client _provider] in *.
    assert (c0' = c0) by congruence. subst c0'.
    assert (c = c0) by congruence. assert (c' = c0) by congruence. subst c c'.
    pose proof (loop_details_verdicts _ _ _ (ext w) _ A _ _ LD) as V.
    pose proof (loop_details_verdicts _ _ _ (ext w) _ A _ _ LD') as V'.
    rewrite <- V' in V.
    destruct (counts_by_verdict _ _ V) as (K1 & K2 & K3 & K4).
    assert (correct r = correct r') as H1 by congruence.
    split; [exact H1|]. split; [congruence|]. split; [congruence|].
    split; [rewrite Ac, Ac', H1, T, T'; reflexivity|].
    rewrite D, D'. exact K4.
  - destruct (initialize_client_inv p None w _ _ I)
      as [(c0 & v0 & K & _ & _)|(msg & _ & R & _)]; [|discriminate].
    destruct (initialize_client_inv p None w' _ _ I')
      as [(c0' & v0' & _ & R & _)|(msg & K' & _ & _)]; [discriminate|].
    congruence.
  - destruct (initialize_client_inv p None w _ _ I)
      as [(c0 & v0 & _ & R & _)|(msg & K & _ & _)]; [discriminate|].
    destruct (initialize_client_inv p None w' _ _ I')
      as [(c0' & v0' & K' & _ & _)|(msg' & _ & R & _)]; [|discriminate].
    congruence.
  - rewrite (evaluate_provider_init_raises p tcs w e wi I) in E.
    rewrite (evaluate_provider_init_raises p tcs w' e' wi' I') in E'.
    inversion E; inversion E'; subst. repeat split.
Qed.

(** X9. The evaluator looks its tables up under the name as it is
    passed, while the router lowercases it. For a name that initializes
    but is not in lowercase, the result has no model and the requests
    follow each other with no sleep, whatever the rate limit of the
    provider the router selected. *)
Theorem evaluate_provider_name_not_lowercase (w : World) (p : string)
    (tcs : list TestCase) (v : option string) (w1 : World) :
  initialize_client p None w = (Ok v, w1) ->
  Py.lower p <> p ->
  exists r w' reqs,
    evaluate_provider p tcs w = (Ok r, w')
    /\ provider r = p /\ model r = None
    /\ v <> None
    /\ List.length reqs = List.length tcs
    /\ trace w' = (trace w ++ map EvRemote reqs)%list.
Proof.
  intros I L.
  destruct (initialize_client_inv p None w _ _ I)
    as [(c & v' & C & V & _)|(msg & _ & R & _)]; [|discriminate].
  assert (p <> "google" /\ p <> "groq") as [G Q].
  { split; intros ->; apply L; reflexivity. }
  assert (Py.get DEFAULT_MODELS p = None) as DM.
  { unfold DEFAULT_MODELS. cbn [Py.get].
    destruct (String.eqb_spec "google" p); [congruence|].
    destruct (String.eqb_spec "groq" p); [congruence|reflexivity]. }
  assert (rate_limit_of p = 60) as RL.
  { unfold rate_limit_of, Py.get_default, RATE_LIMITS. cbn [Py.get].
    destruct (String.eqb_spec "google" p); [congruence|].
    destruct (String.eqb_spec "groq" p); [congruence|reflexivity]. }
  destruct (evaluate_provider_serving_run w p tcs v w1 I)
    as (c1 & r & w' & reqs & ds & _ & E & _ & F & T & _ & _ & _ & (Pv & M) & _).
  exists r, w', reqs.
  split; [exact E|]. split; [exact Pv|]. split; [now rewrite M|].
  split.
  - rewrite (initialize_client_ok p None w c C) in I.
    destruct (client_for_default_model _ _ c C) as [d D].
    apply (f_equal fst) in I. cbn [fst] in I. rewrite D in I.
    intros N. subst v. discriminate I.
  - split; [symmetry; exact (Forall2_length F)|].
    rewrite T, RL. reflexivity.
Qed.

End EvaluateAgain.

(** ** The comparison table *)

Lemma eqb_refl_real (x : float) : is_nan x = false -> (x =? x)%float = true.
Proof. unfold is_nan. intros H. now apply negb_false_iff in H. Qed.

Lemma leb_refl_real (x : float) : is_nan x = false -> (x <=? x)%float = true.
Proof.
  intros X. destruct (not_nan_rank x X) as [r R].
  apply (leb_rank x x r r R R). right.
  destruct r as [[a b] c]. repeat split.
Qed.

Lemma leb_neq_ltb (x y : float) :
  is_nan x = false -> is_nan y = false ->
  (x <=? y)%float = true -> (x =? y)%float = false -> (x <? y)%float = true.
Proof.
  intros X Y L N.
  destruct (not_nan_rank x X) as [rx Rx], (not_nan_rank y Y) as [ry Ry].
  apply (leb_rank x y rx ry Rx Ry) in L.
  apply (ltb_rank x y rx ry Rx Ry).
  destruct L as [L|L]; [exact L|].
  apply (eqb_rank x y rx ry Rx Ry) in L. congruence.
Qed.

Lemma sorted_results_perm (l : list EvaluationResult) :
  Permutation l (sorted_results l).
Proof.
  unfold sorted_results, Py.sorted.
  apply perm_trans with (rev l); [apply Permutation_rev|].
  eapply perm_trans; [|apply Permutation_rev].
  apply (stable_sort_perm EvaluationResult accuracy).
Qed.

Lemma print_rows_completed (rs : list EvaluationResult) :
  match print_rows rs with
  | (rows, true) => rows = rs /\ Forall (fun r => model r <> None) rs
  | (rows, false) => exists r, In r rs /\ model r = None
  end.
Proof.
  induction rs as [|r rs IH]; cbn [print_rows].
  - split; [reflexivity|constructor].
  - destruct (model r) eqn:M.
    + destruct (print_rows rs) as [rows [|]].
      * destruct IH as [-> F]. split; [reflexivity|].
        constructor; [congruence|exact F].
      * destruct IH as (r' & I & N). exists r'. split; [now right|exact N].
    + exists r. split; [now left|exact M].
Qed.

(** A printed table starts with the best model. *)
Lemma print_comparison_table_printed (all_results rows : list EvaluationResult)
    (best : EvaluationResult) :
  print_comparison_table all_results = TablePrinted rows best ->
  exists rest, sorted_results all_results = best :: rest.
Proof.
  unfold print_comparison_table.
  destruct (print_rows (sorted_results all_results)) as [rows' [|]]; [|discriminate].
  destruct (sorted_results all_results) as [|b rest]; [discriminate|].
  intros [= _ ->]. exists rest. reflexivity.
Qed.

(** X10. What becomes of [print_comparison_table]: on no results it
    raises [IndexError]; when some result has no model it raises
    [TypeError]; otherwise it prints all results, in the order of
    [sorted_results], and names the first of them the best. *)
Theorem print_comparison_table_outcome (all_results : list EvaluationResult) :
  match print_comparison_table all_results with
  | TableIndexError => all_results = []
  | TableTypeError _ => exists r, In r all_results /\ model r = None
  | TablePrinted rows best =>
      Forall (fun r => model r <> None) all_results
      /\ rows = sorted_results all_results
      /\ In best all_results
      /\ exists rest, rows = best :: rest
  end.
Proof.
  unfold print_comparison_table.
  pose proof (sorted_results_perm all_results) as Pm.
  pose proof (print_rows_completed (sorted_results all_results)) as R.
  destruct (print_rows (sorted_results all_results)) as [rows [|]].
  - destruct R as [-> F].
    destruct (sorted_results all_results) as [|best rest] eqn:S.
    + apply Permutation_sym, Permutation_nil in Pm. exact Pm.
    + split; [exact (Permutation_Forall (Permutation_sym Pm) F)|].
      split; [reflexivity|]. split.
      * apply (Permutation_in best (Permutation_sym Pm)). now left.
      * exists rest. reflexivity.
  - destruct R as (r & I & N). exists r. split; [|exact N].
    exact (Permutation_in r (Permutation_sym Pm) I).
Qed.

Lemma filter_head_split (A : Type) (f : A -> bool) (l : list A) (b : A) (t : list A) :
  filter f l = b :: t ->
  exists before after,
    l = (before ++ b :: after)%list /\ Forall (fun a => f a = false) before.
Proof.
  induction l as [|a l IH]; cbn [filter]; [discriminate|].
  destruct (f a) eqn:E.
  - intros [= -> _]. exists [], l. split; [reflexivity|constructor].
  - intros H. destruct (IH H) as (before & after & -> & F).
    exists (a :: before), after. split; [reflexivity|].
    constructor; assumption.
Qed.

(** X11. When the accuracies are numbers, the best model that
    [print_comparison_table] names has the highest accuracy of all
    results, and every result before it in the input has a strictly
    lower one: among equals the first of the input is named. *)
Theorem print_comparison_table_best (all_results rows : list EvaluationResult)
    (best : EvaluationResult) :
  Forall (fun r => is_nan (accuracy r) = false) all_results ->
  print_comparison_table all_results = TablePrinted rows best ->
  Forall (fun r => (accuracy r <=? accuracy best)%float = true) all_results
  /\ exists before after,
       all_results = (before ++ best :: after)%list
       /\ Forall (fun r => (accuracy r <? accuracy best)%float = true) before.
Proof.
  intros Real T.
  destruct (print_comparison_table_printed _ _ _ T) as (rest & S).
  destruct (sorted_reverse_spec EvaluationResult accuracy all_results Real)
    as (Pm & Sorted & Stable).
  fold (sorted_results all_results) in Pm, Sorted, Stable. rewrite S in *.
  assert (In best all_results) as In_best.
  { apply (Permutation_in best (Permutation_sym Pm)). now left. }
  assert (is_nan (accuracy best) = false) as B.
  { rewrite Forall_forall in Real. exact (Real best In_best). }
  assert (Forall (fun r => (accuracy r <=? accuracy best)%float = true) all_results)
    as Max.
  { apply (Permutation_Forall (Permutation_sym Pm)).
    inversion Sorted as [|b l _ F]; subst.
    constructor; [exact (leb_refl_real _ B)|exact F]. }
  split; [exact Max|].
  specialize (Stable (accuracy best)). cbn [filter] in Stable.
  unfold has_key at 1 in Stable. rewrite (eqb_refl_real _ B) in Stable.
  symmetry in Stable.
  destruct (filter_head_split _ _ _ _ _ Stable) as (before & after & E & F).
  exists before, after. split; [exact E|].
  rewrite Forall_forall in F, Max, Real |- *. intros r R.
  assert (In r all_results) as I by (rewrite E; apply in_or_app; now left).
  apply leb_neq_ltb; auto. exact (F r R).
Qed.

(** ** [main] of the evaluation *)

Section EvaluateMainFacts.
Context `{P : Platform}.

Lemma str_in_In (x : string) (l : list string) : str_in x l = true <-> In x l.
Proof.
  unfold str_in. rewrite existsb_exists. split.
  - intros (y & I & E). apply String.eqb_eq in E. now subst.
  - intros I. exists x. split; [exact I|apply String.eqb_refl].
Qed.

(** An available provider is one of the two, in lowercase, with its
    credential, so that the router can be initialized for it. *)
Lemma available_provider_usable (env : Py.dict string) (p : string) :
  In p (available_providers env) ->
  Py.lower p = p
  /\ (exists c, client_for env p = Some c)
  /\ Py.get DEFAULT_MODELS p <> None.
Proof.
  unfold available_providers, PROVIDERS. cbn [filter snd].
  unfold client_for, credential.
  destruct (Py.get env "GOOGLE_API_KEY") as [g|];
    destruct (Py.get env "GROQ_API_KEY") as [q|];
    try destruct (Py.truthy g); try destruct (Py.truthy q);
    cbn [map fst In]; intros H;
    repeat match goal with
           | H : _ \/ _ |- _ => destruct H as [H|H]
           | H : False |- _ => destruct H
           end;
    subst p; (split; [reflexivity|]); (split; [eexists; reflexivity|discriminate]).
Qed.

Lemma requested_are_available (args available : list string) (p : string) :
  In p (requested_providers args available) -> In p available.
Proof.
  unfold requested_providers. intros H. apply filter_In in H.
  destruct H as [_ H]. now apply str_in_In.
Qed.

Lemma selected_are_available (argv : list string) (env : Py.dict string)
    (selected : list string) :
  select_providers argv env = Some selected ->
  selected <> [] /\ forall p, In p selected -> In p (available_providers env).
Proof.
  unfold select_providers.
  destruct (available_providers env) as [|a l] eqn:A; [discriminate|].
  destruct argv as [|script [|arg args]].
  - intros [= <-]. split; [discriminate|auto].
  - intros [= <-]. split; [discriminate|auto].
  - destruct (requested_providers (arg :: args) (a :: l)) as [|s rest] eqn:R;
      [discriminate|].
    intros [= <-]. split; [discriminate|].
    intros p I. apply (requested_are_available (arg :: args)). now rewrite R.
Qed.

(** Evaluating providers that are all available, on a corpus whose
    queries are texts of ASCII characters. *)
Lemma evaluate_all_available (tcs : list TestCase) (providers : list string) :
  Forall (fun tc => Py.isascii (query tc) = true) tcs ->
  forall w : World,
  (forall p, In p providers -> In p (available_providers (environ w))) ->
  exists all_results w',
    evaluate_all providers tcs w = (Ok all_results, w')
    /\ environ w' = environ w
    /\ map provider all_results = providers
    /\ Forall (fun r => model r <> None
                        /\ total r = Py.len tcs
                        /\ map d_query (details r) = map query tcs
                        /\ correct r + incorrect r + errors r = total r) all_results.
Proof.
  intros Asc. induction providers as [|p providers IH]; intros w A.
  - exists [], w. repeat split. constructor.
  - cbn [evaluate_all]. unfold_monad.
    destruct (available_provider_usable _ p (A p (or_introl eq_refl)))
      as (L & (c & C) & DM).
    rewrite <- L in C.
    pose proof (initialize_client_ok p None w c C) as I.
    destruct (evaluate_provider_serving_run w p tcs _ _ I)
      as (c' & r & w1 & reqs & ds & _ & E & S & _ & _ & T & _ & _ & (Pv & M) & _).
    destruct (evaluate_provider_details_corpus w p tcs _ _ r w1 I Asc E)
      as (Q & _ & Sc).
    rewrite E.
    assert (environ w1 = environ w) as Env.
    { destruct S as (S & _). exact S. }
    destruct (IH w1) as (rs & w2 & E2 & Env2 & Pr & Fa).
    { intros p' I'. rewrite Env. apply A. now right. }
    rewrite E2. exists (r :: rs), w2.
    split; [reflexivity|]. split; [congruence|].
    split; [cbn [map]; congruence|].
    constructor; [|exact Fa].
    repeat split; try assumption. rewrite M. exact DM.
Qed.


(** X12. [main] of the evaluation exits with status 1, having done
    nothing, exactly when no provider has its API key or none of the
    providers named on the command line has; it never ends in an
    exception, and otherwise it evaluates the selected providers in
    order, one result each. *)
Theorem evaluate_main_exit_or_results (argv : list string) (w : World) :
  match evaluate_main argv w with
  | (EvalExit code, w') =>
      code = 1 /\ w' = w
      /\ (available_providers (environ w) = []
          \/ (tl argv <> []
              /\ forall a, In a (tl argv) ->
                           ~ In (Py.lower a) (available_providers (environ w))))
  | (EvalRaised _, _) => False
  | (EvalDone all_results _, w') =>
      all_results <> []
      /\ environ w' = environ w
      /\ map provider all_results =
           match tl argv with
           | [] => available_providers (environ w)
           | args =>
               filter (fun p => str_in p (available_providers (environ w)))
                 (map Py.lower args)
           end
  end.
Proof.
  unfold evaluate_main.
  destruct (select_providers argv (environ w)) as [selected|] eqn:S.
  - destruct (selected_are_available _ _ _ S) as (N & A).
    destruct (evaluate_all_available get_test_cases selected test_cases_ascii w A)
      as (rs & w' & -> & Env & Pr & _).
    split; [intros ->; cbn in Pr; congruence|]. split; [exact Env|].
    rewrite Pr. unfold select_providers in S.
    destruct (available_providers (environ w)) as [|a l]; [discriminate|].
    destruct argv as [|script [|arg args]]; cbn [tl].
    + now inversion S.
    + now inversion S.
    + unfold requested_providers in S.
      destruct (filter _ _) eqn:R in S; [discriminate|].
      inversion S; subst. symmetry. exact R.
  - split; [reflexivity|]. split; [reflexivity|].
    unfold select_providers in S.
    destruct (available_providers (environ w)) as [|a l] eqn:A; [now left|].
    right. destruct argv as [|script [|arg args]]; try discriminate.
    cbn [tl]. split; [discriminate|].
    destruct (requested_providers (arg :: args) (a :: l)) eqn:R; [|discriminate].
    intros x I K. unfold requested_providers in R.
    assert (In (Py.lower x)
              (filter (fun p => str_in p (a :: l)) (map Py.lower (arg :: args)))) as H.
    { apply filter_In. split; [now apply in_map|now apply str_in_In]. }
    rewrite R in H. exact H.
Qed.


End EvaluateMainFacts.

(** ** The agents *)

Lemma prefix_spec (sub s : string) :
  String.prefix sub s = true <-> exists after, s = sub ++ after.
Proof.
  revert s. induction sub as [|a sub IH]; intros s.
  - split; [intros _; exists s; reflexivity|destruct s; reflexivity].
  - destruct s as [|b s]; cbn;
      [split; [discriminate|intros [x H]; discriminate]|].
    destruct (Ascii.ascii_dec a b) as [->|N].
    + rewrite IH. split; intros [x H]; exists x; [now rewrite H|now inversion H].
    + split; [discriminate|]. intros [x H]. cbn in H. congruence.
Qed.

Lemma str_contains_unfold (sub s : string) :
  str_contains sub s =
    if String.prefix sub s then true
    else match s with
         | EmptyString => false
         | String _ s' => str_contains sub s'
         end.
Proof. destruct s; reflexivity. Qed.

Lemma str_contains_spec (sub s : string) :
  str_contains sub s = true <-> occurs_in sub s.
Proof.
  unfold occurs_in. split.
  - induction s as [|c s IH]; rewrite str_contains_unfold;
      destruct (String.prefix sub _) eqn:Pf.
    + intros _. apply prefix_spec in Pf. destruct Pf as [x ->]. now exists "", x.
    + discriminate.
    + intros _. apply prefix_spec in Pf. destruct Pf as [x ->]. now exists "", x.
    + intros H. destruct (IH H) as (b & a & ->). now exists (String c b), a.
  - intros (b & a & ->). induction b as [|c b IH]; rewrite str_contains_unfold.
    + cbn [append]. replace (String.prefix sub (sub ++ a)) with true; [reflexivity|].
      symmetry. apply prefix_spec. now exists a.
    + destruct (String.prefix sub _); [reflexivity|exact IH].
Qed.

Lemma first_answer_spec (items : Py.dict string) (ql : string) :
  match first_answer items ql with
  | None => Forall (fun item => ~ occurs_in (fst item) ql) items
  | Some answer =>
      exists before key after,
        items = (before ++ (key, answer) :: after)%list
        /\ Forall (fun item => ~ occurs_in (fst item) ql) before
        /\ occurs_in key ql
  end.
Proof.
  induction items as [|[key answer] items IH]; cbn [first_answer].
  - constructor.
  - destruct (str_contains key ql) eqn:C.
    + exists [], key, items. repeat split; [constructor|now apply str_contains_spec].
    + assert (~ occurs_in key ql) as N.
      { intros H. apply str_contains_spec in H. congruence. }
      destruct (first_answer items ql) as [a|].
      * destruct IH as (before & k & after & -> & F & O).
        exists ((key, answer) :: before), k, after.
        repeat split; [constructor; assumption|exact O].
      * constructor; assumption.
Qed.

(** X14. [FAQAgent.handle] answers with the first entry of the
    knowledge base, in insertion order, whose key occurs in the
    lowercased query, and with the fallback sentence exactly when no key
    occurs in it. *)
Theorem FAQAgent_handle_first_match (self : FAQAgent) (q : string) :
  (Forall (fun item => ~ occurs_in (fst item) (Py.lower q)) (knowledge_base self)
   /\ FAQAgent_handle self q = faq_fallback)
  \/ (exists before key answer after,
        knowledge_base self = (before ++ (key, answer) :: after)%list
        /\ Forall (fun item => ~ occurs_in (fst item) (Py.lower q)) before
        /\ occurs_in key (Py.lower q)
        /\ FAQAgent_handle self q = answer).
Proof.
  unfold FAQAgent_handle.
  pose proof (first_answer_spec (knowledge_base self) (Py.lower q)) as H.
  destruct (first_answer (knowledge_base self) (Py.lower q)) as [answer|].
  - right. destruct H as (before & key & after & E & F & O).
    exists before, key, answer, after. auto.
  - left. auto.
Qed.

Section AgentFacts.
Context `{P : Platform}.

(** X15. [FAQAgent.handle] does not see the case of a query of ASCII
    characters: the uppercased query and the lowercased query get the
    answer of the query. *)
Theorem FAQAgent_handle_ignores_case (self : FAQAgent) (q : string) :
  Py.isascii q = true ->
  FAQAgent_handle self (str_upper q) = FAQAgent_handle self q
  /\ FAQAgent_handle self (Py.lower q) = FAQAgent_handle self q.
Proof.
  intros A. unfold FAQAgent_handle.
  now rewrite (str_upper_ascii q A), lower_upper, lower_idem.
Qed.

End AgentFacts.

Lemma three_digits_here_sound (s id : string) :
  three_digits_here s = Some id ->
  exists after,
    s = id ++ after /\ String.length id = 3%nat /\ all_digits id = true
    /\ first_is_word after = false.
Proof.
  destruct s as [|a [|b [|c rest]]]; try discriminate. unfold three_digits_here.
  destruct (ascii_digit a) eqn:A; [|discriminate].
  destruct (ascii_digit b) eqn:B; [|discriminate].
  destruct (ascii_digit c) eqn:C; [|discriminate].
  cbn [andb].
  destruct rest as [|d rest'].
  - intros [= <-]. exists "". cbn. rewrite A, B, C. repeat split.
  - destruct (ascii_word_char d) eqn:D; [discriminate|].
    intros [= <-]. exists (String d rest'). cbn. rewrite A, B, C, D. repeat split.
Qed.

Lemma three_digits_here_complete (id after : string) :
  String.length id = 3%nat -> all_digits id = true -> first_is_word after = false ->
  three_digits_here (id ++ after) = Some id.
Proof.
  destruct id as [|a [|b [|c [|x id]]]]; try discriminate. intros _.
  cbn [all_digits]. rewrite !andb_true_iff. intros (A & B & C & _) F.
  cbn [append three_digits_here]. rewrite A, B, C. cbn [andb].
  destruct after as [|d after]; [reflexivity|].
  cbn in F. now rewrite F.
Qed.

(** The scan returns the leftmost number that stands by itself. *)
Lemma search_three_digits_found (s : string) :
  forall (pw : bool) (id : string),
  search_three_digits pw s = Some id ->
  exists before after,
    s = before ++ id ++ after
    /\ standalone_from pw before id after
    /\ forall before' id' after',
         s = before' ++ id' ++ after' -> standalone_from pw before' id' after' ->
         (String.length before <= String.length before')%nat.
Proof.
  induction s as [|c s IH]; intros pw id.
  - cbn. destruct pw; discriminate.
  - intros H.
    destruct (if pw then None else three_digits_here (String c s)) as [id0|] eqn:T.
    + assert (search_three_digits pw (String c s) = Some id0) as E.
      { cbn [search_three_digits]. now rewrite T. }
      rewrite E in H. inversion H; subst id0.
      destruct pw; [discriminate|].
      destruct (three_digits_here_sound _ _ T) as (after & S & L & D & F).
      exists "", after. split; [exact S|]. split; [repeat split; assumption|].
      intros; cbn; lia.
    + assert (search_three_digits pw (String c s)
              = search_three_digits (ascii_word_char c) s) as E.
      { cbn [search_three_digits]. now rewrite T. }
      rewrite E in H. destruct (IH _ _ H) as (before & after & S & (L & D & B & F) & Min).
      exists (String c before), after. split; [cbn; now rewrite S|].
      split; [repeat split; assumption|].
      intros before' id' after' S' (L' & D' & B' & F').
      destruct before' as [|c' before'].
      * exfalso. cbn in S', B'. subst pw.
        rewrite S', (three_digits_here_complete _ _ L' D' F') in T. discriminate.
      * cbn in S'. injection S' as -> S'. cbn [String.length].
        apply le_n_S. apply (Min before' id' after' S').
        repeat split; assumption.
Qed.

(** The scan finds nothing only when no number stands by itself. *)
Lemma search_three_digits_none (s : string) :
  forall pw : bool,
  search_three_digits pw s = None ->
  forall before id after,
    s = before ++ id ++ after -> ~ standalone_from pw before id after.
Proof.
  induction s as [|c s IH]; intros pw H before id after S (L & D & B & F).
  - destruct before; [|discriminate]. destruct id; discriminate.
  - destruct (if pw then None else three_digits_here (String c s)) as [id0|] eqn:T.
    + cbn [search_three_digits] in H. rewrite T in H. discriminate.
    + assert (search_three_digits (ascii_word_char c) s = None) as E.
      { cbn [search_three_digits] in H. now rewrite T in H. }
      destruct before as [|c' before].
      * cbn in S, B. subst pw.
        rewrite S, (three_digits_here_complete _ _ L D F) in T. discriminate.
      * cbn in S. injection S as -> S.
        apply (IH _ E before id after S). repeat split; assumption.
Qed.

Section OrderFacts.
Context `{P : Platform}.

(** X16. In a query of ASCII characters, [re.search] for a number of
    three digits between word boundaries returns the leftmost part of
    the query that is three digits with no word character on either
    side, and returns nothing only when the query has no such part. *)
Theorem re_search_order_id_leftmost (q : string) :
  Py.isascii q = true ->
  match re_search_order_id q with
  | Some id =>
      exists before after,
        q = before ++ id ++ after
        /\ standalone_number before id after
        /\ forall before' id' after',
             q = before' ++ id' ++ after' -> standalone_number before' id' after' ->
             (String.length before <= String.length before')%nat
  | None =>
      forall before id after,
        q = before ++ id ++ after -> ~ standalone_number before id after
  end.
Proof.
  intros A. unfold re_search_order_id, standalone_number.
  rewrite (re_search_order_ascii q A).
  destruct (search_three_digits false q) as [id|] eqn:S.
  - exact (search_three_digits_found q false id S).
  - exact (search_three_digits_none q false S).
Qed.

(** X17. On a query of ASCII characters, [OrderAgent.handle] asks for a
    valid order number exactly when the query has no number of three
    digits standing by itself; otherwise its answer is about the
    leftmost such number: the status the table has for it, or that it is
    not found. *)
Theorem OrderAgent_handle_answers (self : OrderAgent) (q : string) :
  Py.isascii q = true ->
  (OrderAgent_handle self q = order_prompt
   <-> forall before id after,
         q = before ++ id ++ after -> ~ standalone_number before id after)
  /\ forall id, re_search_order_id q = Some id ->
       match Py.get (orders self) id with
       | Some (String c s) =>
           OrderAgent_handle self q = "Order #" ++ id ++ " status: " ++ String c s
       | _ => OrderAgent_handle self q = "Order #" ++ id ++ " not found."
       end.
Proof.
  intros A. unfold OrderAgent_handle, re_search_order_id, standalone_number.
  rewrite (re_search_order_ascii q A). split.
  - destruct (search_three_digits false q) as [id|] eqn:S.
    + split.
      * intros H. exfalso.
        destruct (Py.get (orders self) id) as [status|];
          [destruct (Py.truthy status)|]; discriminate H.
      * intros N. exfalso.
        destruct (search_three_digits_found q false id S) as (b & a & E & St & _).
        exact (N b id a E St).
    + split; [intros _|reflexivity].
      exact (search_three_digits_none q false S).
  - intros id ->.
    destruct (Py.get (orders self) id) as [[|c s]|]; reflexivity.
Qed.

End OrderFacts.

(** ** The chat *)

Lemma all_equal_map (A B : Type) (x : A) (l : list A) (l' : list B) :
  Forall (fun a => a = x) l -> List.length l = List.length l' ->
  l = map (fun _ => x) l'.
Proof.
  revert l'. induction l as [|a l IH]; intros [|b l'] F L; try discriminate L.
  - reflexivity.
  - inversion F as [|a' l0 -> Fl]; subst. cbn [map]. f_equal.
    apply IH; [exact Fl|]. cbn in L. congruence.
Qed.

Section ChatFacts.
Context `{P : Platform}.

(** One turn of the chat in a serving session: one request, then the
    response of the agent for the label, unless a print raises. *)
Lemma chat_turn_serving (faq : FAQAgent) (order : OrderAgent) (q : string)
    (w : World) (c : Client) :
  serving w c ->
  exists req w',
    same_session w w'
    /\ trace w' = (trace w ++ [EvRemote req])%list
    /\ ((exists intent,
           routed (fst (remote_call req (ext w))) = Ok intent
           /\ chat_turn faq order q w = (Ok (dispatch faq order intent q), w'))
        \/ (exists msg, chat_turn faq order q w = (Raise (UnicodeEncodeError msg), w')))
    /\ (console_prints_all ->
        exists response, chat_turn faq order q w = (Ok response, w')).
Proof.
  intros (C & R). destruct (R q) as [req Rq]. exists req.
  unfold chat_turn. unfold_monad.
  rewrite (route_query_client q None w c C), Rq.
  destruct (remote_call req (ext w)) as [a x]. cbn [fst].
  exists (mkWorld _ (environ w) (_client w) (_provider w) x
            (trace w ++ [EvRemote req])%list).
  split; [repeat split|]. split; [reflexivity|].
  destruct (routed a) as [intent|err] eqn:RA.
  - rewrite !print_run.
    destruct (console ("[DEBUG] Router identified intent: " ++ intent)) as [m1|] eqn:K1.
    + split; [right; exists m1; reflexivity|].
      intros Pa. rewrite (Pa _) in K1. discriminate K1.
    + rewrite !print_run.
      destruct (console ("Bot: " ++ dispatch faq order intent q ++ nl)) as [m2|] eqn:K2.
      * split; [right; exists m2; reflexivity|].
        intros Pa. rewrite (Pa _) in K2. discriminate K2.
      * split; [left; exists intent; split; reflexivity|].
        intros _. eexists; reflexivity.
  - split.
    + right. destruct a as [[s|]|e]; cbn [routed] in RA; try discriminate RA.
      destruct (console (routing_error e)) as [msg|]; [|discriminate RA].
      injection RA as <-. exists msg. reflexivity.
    + intros Pa. exfalso.
      destruct a as [[s|]|e]; cbn [routed] in RA; try discriminate RA.
      rewrite (Pa _) in RA. discriminate RA.
Qed.

(** The agent is not consulted for the label ["ERROR"]. *)
Lemma dispatch_error (faq : FAQAgent) (order : OrderAgent) (q : string) :
  dispatch faq order "ERROR" q = chat_fallback.
Proof. reflexivity. Qed.

(** The chat in a serving session. *)
Lemma chat_loop_serving (faq : FAQAgent) (order : OrderAgent) (c : Client)
    (inputs : list string) :
  forall w : World,
  serving w c ->
  exists responses how w' reqs,
    chat_loop faq order inputs w = (responses, how, w')
    /\ same_session w w'
    /\ trace w' = (trace w ++ map EvRemote reqs)%list
    /\ match how with
       | ChatRaised e =>
           (exists msg, e = UnicodeEncodeError msg)
           /\ (List.length responses < List.length (until_exit inputs))%nat
           /\ List.length reqs = S (List.length responses)
       | _ =>
           how = (if existsb is_exit inputs then ChatQuit else ChatEndOfInput)
           /\ List.length responses = List.length (until_exit inputs)
           /\ List.length reqs = List.length responses
       end
    /\ (console_prints_all -> forall e, how <> ChatRaised e)
    /\ (always_raises -> Forall (fun response => response = chat_fallback) responses).
Proof.
  induction inputs as [|line rest IH]; intros w Sv.
  - exists [], ChatEndOfInput, w, []. cbn. rewrite app_nil_r.
    repeat split; try discriminate. constructor.
  - cbn [chat_loop existsb until_exit]. fold (is_exit line).
    destruct (is_exit line) eqn:X.
    + exists [], ChatQuit, w, []. cbn. rewrite app_nil_r.
      repeat split; try discriminate. constructor.
    + destruct (chat_turn_serving faq order line w c Sv)
        as (req & w1 & S1 & T1 & [(intent & RA & ->)|(msg & ->)] & Pr).
      * destruct (IH w1 (serving_same_session _ _ _ S1 Sv))
          as (responses & how & w2 & reqs & -> & S2 & T2 & M & Np & Ar).
        exists (dispatch faq order intent line :: responses), how, w2, (req :: reqs).
        split; [reflexivity|]. split; [eauto with router|].
        split; [rewrite T2, T1, <- app_assoc; reflexivity|].
        split; [|split; [exact Np|]].
        -- cbn [orb List.length]. destruct how as [| |e].
           ++ destruct M as (M1 & M2 & M3). repeat split; [exact M1|lia|lia].
           ++ destruct M as (M1 & M2 & M3). repeat split; [exact M1|lia|lia].
           ++ destruct M as (M1 & M2 & M3). repeat split; [exact M1|lia|lia].
        -- intros A. constructor; [|exact (Ar A)].
           destruct Sv as (_ & _).
           destruct (A req (ext w)) as (e & x & F). rewrite F in RA.
           cbn [fst routed] in RA.
           destruct (console (routing_error e)); [discriminate RA|].
           injection RA as <-. apply dispatch_error.
      * exists [], (ChatRaised (UnicodeEncodeError msg)), w1, [req].
        split; [reflexivity|]. split; [exact S1|]. split; [exact T1|].
        split; [|split].
        -- cbn [List.length]. repeat split; [eexists; reflexivity|lia].
        -- intros Pa. destruct (Pr Pa) as (response & K). discriminate K.
        -- intros _. constructor.
Qed.

(** The two lines that open the chat are printed by every console. *)
Lemma run_chat_system_loop (inputs : list string) (w : World) :
  run_chat_system inputs w = chat_loop FAQAgent_init OrderAgent_init inputs w.
Proof.
  unfold run_chat_system. unfold_monad.
  rewrite print_ascii by reflexivity. rewrite print_ascii by reflexivity.
  reflexivity.
Qed.


(** X19. While every request to the hosted model raises, every response
    of the chat in an initialized session is the same sentence of
    apology, and no agent is consulted; with a console that prints
    every text, each line before the first [exit] or [quit] gets that
    response. *)
Theorem run_chat_system_model_down (inputs : list string) (w : World) (c : Client) :
  always_raises -> serving w c ->
  Forall (fun response => response = chat_fallback)
    (fst (fst (run_chat_system inputs w)))
  /\ ((forall text, console text = None) ->
      fst (fst (run_chat_system inputs w))
      = map (fun _ => chat_fallback) (until_exit inputs)).
Proof.
  intros A Sv. rewrite run_chat_system_loop.
  destruct (chat_loop_serving FAQAgent_init OrderAgent_init c inputs w Sv)
    as (responses & how & w' & reqs & E & _ & _ & M & Np & R).
  rewrite E. cbn [fst]. split; [exact (R A)|].
  intros Pa. apply all_equal_map; [exact (R A)|].
  destruct how as [| |e]; [exact (proj1 (proj2 M))..|].
  exfalso. exact (Np Pa e eq_refl).
Qed.






End ChatFacts.

(** ** Concrete runs of the further properties *)


Lemma groq_down_serving :
  @serving failing_platform groq_down (OpenAIClient "q-key" groq_url).
Proof. split; [reflexivity|]. intros q. eexists. reflexivity. Qed.

Lemma route_query_label_normal_form_witness :
  Py.isascii "  Refund? " = true
  /\ exists label,
       fst (@route_query (echo_platform "  Refund? ") "Can I get a refund?" None
              google_chatty) = Ok label
       /\ @str_strip (echo_platform "  Refund? ") label = label
       /\ @str_upper (echo_platform "  Refund? ") label = label.
Proof.
  split; [reflexivity|].
  exact (@route_query_label_normal_form (echo_platform "  Refund? ")
           google_chatty "Can I get a refund?" None _
           (snd (@route_query (echo_platform "  Refund? ") "Can I get a refund?" None
                   google_chatty))
           _ "  Refund? " 0 (surjective_pairing _) eq_refl eq_refl eq_refl).
Defined.

Lemma route_query_model_choice_witness :
  exists req w2 r,
    @route_query faq_platform "Where is my order 101?" None
      (snd (@initialize_client faq_platform "groq" (Some "my-model") faq_fresh))
    = (r, w2)
    /\ fst (@initialize_client faq_platform "groq" (Some "my-model") faq_fresh)
       = Ok (Some "my-model")
    /\ trace w2 = [EvRemote req]
    /\ request_model req = Some "llama-3.1-8b-instant".
Proof.
  destruct (@route_query_model_choice faq_platform faq_fresh "groq"
              (Some "my-model") (Some "my-model")
              (snd (@initialize_client faq_platform "groq" (Some "my-model") faq_fresh))
              "Where is my order 101?" None
              (fst (@route_query faq_platform "Where is my order 101?" None
                      (snd (@initialize_client faq_platform "groq" (Some "my-model")
                              faq_fresh))))
              (snd (@route_query faq_platform "Where is my order 101?" None
                      (snd (@initialize_client faq_platform "groq" (Some "my-model")
                              faq_fresh))))
              eq_refl (surjective_pairing _))
    as (req & d & D & V & T & M & _).
  exists req. eexists; eexists. split; [apply surjective_pairing|].
  split; [reflexivity|]. split; [exact T|].
  rewrite M. f_equal. injection D as <-. reflexivity.
Defined.

Lemma route_query_after_failed_reinit_witness :
  exists e w2,
    @initialize_client faq_platform "bogus" None faq_groq = (Raise e, w2)
    /\ @route_query faq_platform "Where is my order 101?" None w2 = (Ok "ERROR", w2).
Proof.
  eexists; exists (with_provider faq_groq "bogus"). split; [reflexivity|].
  refine (proj2 (@route_query_after_failed_reinit faq_platform faq_fresh "groq" None
                   (Some "llama-3.1-8b-instant") faq_groq "bogus" None _ _
                   "Where is my order 101?" None eq_refl eq_refl)).
Defined.

Lemma initialize_client_case_insensitive_witness :
  Py.lower "GROQ" = Py.lower "Groq"
  /\ snd (@initialize_client faq_platform "GROQ" None faq_fresh)
     = snd (@initialize_client faq_platform "Groq" None faq_fresh).
Proof.
  split; [reflexivity|].
  exact (proj1 (@initialize_client_case_insensitive faq_platform "GROQ" "Groq" None
                  faq_fresh eq_refl)).
Defined.

(** The run of C1: one case, two details. *)
Lemma evaluate_provider_counters_count_details_witness :
  exists r w',
    @evaluate_provider faq_ascii_platform "groq" cafe_case (fresh faq_ascii_platform 0)
    = (Ok r, w')
    /\ total r = 1
    /\ errors r = count_errors (details r)
    /\ correct r + incorrect r + errors r = Py.len (details r)
    /\ Py.len (details r) = 2.
Proof.
  destruct (@evaluate_provider_serving_run faq_ascii_platform
              (fresh faq_ascii_platform 0) "groq" cafe_case
              (Some "llama-3.1-8b-instant")
              (@started faq_ascii_platform stub_env 0 "groq") eq_refl)
    as (c & r & w' & reqs & ds & _ & E & _).
  exists r, w'. split; [exact E|].
  destruct (@evaluate_provider_counters_count_details faq_ascii_platform
              (fresh faq_ascii_platform 0) "groq" cafe_case r w' E)
    as (T & _ & _ & Er & Sum & _).
  split; [exact T|]. split; [exact Er|]. split; [exact Sum|].
  assert (exists r0,
            fst (@evaluate_provider faq_ascii_platform "groq" cafe_case
                   (fresh faq_ascii_platform 0)) = Ok r0
            /\ Py.len (details r0) = 2) as (r0 & E0 & L).
  { eexists. split; [vm_compute; reflexivity|reflexivity]. }
  rewrite E in E0. injection E0 as <-. exact L.
Defined.

Lemma evaluate_provider_details_follow_corpus_witness :
  exists r w',
    @evaluate_provider faq_platform "groq" two_cases faq_fresh = (Ok r, w')
    /\ map d_query (details r)
       = ["What is your return policy?"; "Where is my order 101?"]
    /\ map d_expected (details r) = ["FAQ"; "ORDER"]
    /\ correct r + incorrect r + errors r = total r.
Proof.
  exact (@evaluate_provider_details_follow_corpus faq_platform faq_fresh "groq"
           two_cases (Some "llama-3.1-8b-instant") faq_groq eq_refl two_cases_ascii).
Defined.

Lemma evaluate_provider_repeatable_witness :
  @answers_by_request faq_platform
  /\ exists r w1 r' w2,
       @evaluate_provider faq_platform "groq" two_cases faq_fresh = (Ok r, w1)
       /\ @evaluate_provider faq_platform "groq" two_cases w1 = (Ok r', w2)
       /\ correct r = correct r' /\ incorrect r = incorrect r'
       /\ map predicted (details r) = map predicted (details r').
Proof.
  assert (@answers_by_request faq_platform) as A by (intros req x x'; reflexivity).
  split; [exact A|].
  destruct (@evaluate_provider_serving_run faq_platform faq_fresh "groq" two_cases
              (Some "llama-3.1-8b-instant") faq_groq eq_refl)
    as (c & r & w1 & reqs & ds & _ & E & (Env & _) & _).
  assert (client_for (environ w1) (Py.lower "groq")
          = Some (OpenAIClient "q-key" groq_url)) as C by (rewrite Env; reflexivity).
  destruct (@evaluate_provider_serving_run faq_platform w1 "groq" two_cases _ _
              (@initialize_client_ok faq_platform "groq" None w1 _ C))
    as (c' & r' & w2 & reqs' & ds' & _ & E' & _).
  exists r, w1, r', w2. split; [exact E|]. split; [exact E'|].
  destruct (@evaluate_provider_repeatable faq_platform faq_fresh w1 "groq" two_cases
              r r' w1 w2 A (eq_sym Env) E E') as (H1 & H2 & _ & _ & H5).
  repeat split; assumption.
Defined.

Lemma evaluate_provider_name_not_lowercase_witness :
  Py.lower "Google" <> "Google"
  /\ exists r w' r1 r2,
       @evaluate_provider faq_platform "Google" two_cases faq_fresh = (Ok r, w')
       /\ model r = None
       /\ trace w' = [EvRemote r1; EvRemote r2].
Proof.
  assert (Py.lower "Google" <> "Google") as L by discriminate.
  split; [exact L|].
  destruct (@evaluate_provider_name_not_lowercase faq_platform faq_fresh "Google"
              two_cases (Some "gemini-2.5-flash")
              (@started faq_platform stub_env 0 "Google") eq_refl L)
    as (r & w' & reqs & E & _ & M & _ & Len & T).
  destruct reqs as [|r1 [|r2 [|r3 reqs]]]; try discriminate Len.
  exists r, w', r1, r2. split; [exact E|]. split; [exact M|exact T].
Defined.

Lemma print_comparison_table_best_witness :
  exists rows best,
    print_comparison_table tied_results = TablePrinted rows best
    /\ avg_latency_ms best = 120%float
    /\ Forall (fun r => (accuracy r <=? accuracy best)%float = true) tied_results.
Proof.
  assert (Forall (fun r => is_nan (accuracy r) = false) tied_results) as R.
  { repeat constructor. }
  eexists; eexists. split; [vm_compute; reflexivity|].
  split; [reflexivity|].
  match goal with
  | |- Forall (fun r => (accuracy r <=? accuracy ?b)%float = true) _ =>
      refine (proj1 (print_comparison_table_best tied_results _ b R _))
  end.
  vm_compute. reflexivity.
Defined.


Lemma FAQAgent_handle_ignores_case_witness :
  Py.isascii "Is shipping free?" = true
  /\ FAQAgent_handle FAQAgent_init (@str_upper faq_platform "Is shipping free?")
     = "Shipping usually takes 3-5 business days.".
Proof.
  split; [reflexivity|].
  rewrite (proj1 (@FAQAgent_handle_ignores_case faq_platform FAQAgent_init
                    "Is shipping free?" eq_refl)).
  reflexivity.
Defined.

Lemma re_search_order_id_leftmost_witness :
  Py.isascii "Orders 1015, 103 and 101." = true
  /\ @re_search_order_id faq_platform "Orders 1015, 103 and 101." = Some "103"
  /\ exists before after,
       "Orders 1015, 103 and 101." = before ++ "103" ++ after
       /\ standalone_number before "103" after.
Proof.
  split; [reflexivity|]. split; [reflexivity|].
  destruct (@re_search_order_id_leftmost faq_platform "Orders 1015, 103 and 101."
              eq_refl) as (before & after & E & S & _).
  exists before, after. split; [exact E|exact S].
Defined.

Lemma OrderAgent_handle_answers_witness :
  Py.isascii "Where is my order 101?" = true
  /\ @OrderAgent_handle faq_platform OrderAgent_init "Where is my order 101?"
     = "Order #101 status: Shipped - Arriving Tomorrow".
Proof.
  split; [reflexivity|].
  exact (proj2 (@OrderAgent_handle_answers faq_platform OrderAgent_init
                  "Where is my order 101?" eq_refl) "101" eq_refl).
Defined.


Lemma run_chat_system_model_down_witness :
  @always_raises failing_platform
  /\ fst (fst (@run_chat_system failing_platform chat_lines groq_down))
     = [chat_fallback; chat_fallback].
Proof.
  assert (@always_raises failing_platform) as A.
  { intros req x. eexists; eexists; reflexivity. }
  split; [exact A|].
  exact (proj2 (@run_chat_system_model_down failing_platform chat_lines groq_down _ A
                  groq_down_serving) (fun _ => eq_refl)).
Defined.

(** The chat with a model that answers ["FAQ"]: both lines go to the
    FAQ agent, and the line after [QUIT] is not read. *)
Example chat_run :
  fst (@chat_main faq_platform ["main.py"; "Groq"] chat_lines faq_fresh)
  = ([ "You can return items within 30 days of purchase.";
       faq_fallback ], 0).
Proof. vm_compute. reflexivity. Qed.

(** The chat with a model that is down, before a console that cannot
    encode its exception: the first line is left unanswered and the
    script ends with status 1, the line [QUIT] unread. *)
Example chat_run_not_printed :
  fst (@chat_main down_ascii_platform ["main.py"; "groq"] chat_lines
         (fresh down_ascii_platform 0))
  = ([], 1).
Proof. vm_compute. reflexivity. Qed.
